(** * A monthly work-schedule spreadsheet generator, and its refactoring

    The repository holds two Go programs.  [quickstart.go] is the current
    program: [main] calls [createSpreadsheet], [getSpreadsheet],
    [copySpreadsheet], [deleteBlankSheet] and [updateCellsYearMonth].  The
    second file is the earlier, monolithic program whose [main] performs the
    same steps inline.  Both start with the same four OAuth helper functions.

    The programs are sequences of calls into the operating system and into
    the Google client libraries.  They are embedded here as functions in a
    small monad that threads the state of the outside world, collects the
    events a run performs, and stops on [log.Fatalf] or on a run-time panic.
    The outside world is a parameter ([Platform]): every theorem holds for
    every file system, every user input and every answer of the remote
    service. *)

From Stdlib Require Import String Ascii List ZArith Lia Bool Arith.
Import ListNotations.
Local Open Scope string_scope.
Local Open Scope list_scope.

Set Implicit Arguments.

(** ** Go strings *)

(** A Go string is a sequence of bytes; [String.string] is a sequence of
    [ascii] bytes, and a literal written in UTF-8 denotes its bytes. *)

(** [s[i:]] *)
Fixpoint drop (n : nat) (s : string) : string :=
  match n, s with
  | O, _ => s
  | S _, EmptyString => EmptyString
  | S n', String _ s' => drop n' s'
  end.

(** [s[:i]] *)
Fixpoint take (n : nat) (s : string) : string :=
  match n, s with
  | O, _ => EmptyString
  | S _, EmptyString => EmptyString
  | S n', String c s' => String c (take n' s')
  end.

(** [strings.HasSuffix]:
    [len(s) >= len(suffix) && s[len(s)-len(suffix):] == suffix]. *)
Definition HasSuffix (s suffix : string) : bool :=
  (String.length suffix <=? String.length s)%nat
  && String.eqb (drop (String.length s - String.length suffix) s) suffix.

(** [strings.TrimSuffix]:
    [if HasSuffix(s, suffix) { return s[:len(s)-len(suffix)] }; return s]. *)
Definition TrimSuffix (s suffix : string) : string :=
  if HasSuffix s suffix
  then take (String.length s - String.length suffix) s
  else s.

(** The suffix that the service appends to the title of a copied sheet. *)
Definition copySuffix : string := "のコピー".

(** The title of the spreadsheet that is created. *)
Definition newTitle : string := "勤務表作成テスト".

(** ** The data of the [sheets/v4] client library

    Only the fields that the programs read or write are kept.  A Go pointer
    that may be [nil] is an [option]. *)

Record SheetProperties : Type := {
  SheetId : Z;
  Title : string
}.

Record Sheet : Type := {
  Properties : option SheetProperties
}.

Record SpreadsheetProperties : Type := {
  SpTitle : string
}.

Record Spreadsheet : Type := {
  SpreadsheetId : string;
  SpProperties : option SpreadsheetProperties;
  Sheets : list (option Sheet)
}.

Record CopySheetToAnotherSpreadsheetRequest : Type := {
  DestinationSpreadsheetId : string
}.

Record UpdateSheetPropertiesRequest : Type := {
  UpdProperties : SheetProperties;
  Fields : string
}.

Record DeleteSheetRequest : Type := {
  DelSheetId : Z
}.

(** [sheets.Request] is a struct of optional requests; the programs fill in
    exactly one of two. *)
Inductive Request : Type :=
| UpdateSheetProperties (r : UpdateSheetPropertiesRequest)
| DeleteSheet (r : DeleteSheetRequest).

Record BatchUpdateSpreadsheetRequest : Type := {
  Requests : list Request
}.

Record ValueRange : Type := {
  Range : string;
  Values : list (list Z);
  MajorDimension : string
}.

(** What the programs read from [time.Now()]. *)
Record Time : Type := {
  Year : Z;
  Month : Z
}.

(** ** Errors and the ways a run ends *)

Definition error : Type := string.

(** A Go result pair [(value, err)] in which exactly one side is set. *)
Inductive result (A : Type) : Type :=
| Ok (a : A)
| Err (e : error).
Arguments Ok {A} a.
Arguments Err {A} e.

Inductive PanicKind : Type :=
| IndexOutOfRange
| NilDereference.

(** [Fatal fmt e]: [log.Fatalf(fmt, e)], which prints and exits with status 1.
    [Panic k]: a run-time panic. *)
Inductive Exit : Type :=
| Fatal (format : string) (e : error)
| Panic (k : PanicKind).

Inductive Out (A : Type) : Type :=
| Ret (a : A)
| Abort (x : Exit).
Arguments Ret {A} a.
Arguments Abort {A} x.

(** ** The outside world *)

(** The types of the OAuth and HTTP libraries are kept abstract, and so is
    the state of the world: files, the terminal, the clock and the remote
    service.  Every operation that touches the world takes it and returns
    it.  [Close], [Encode] and [Printf] report an error as they do in Go
    (of [Printf]'s two results only the error is kept); the programs drop
    what they report. *)
Class Platform : Type := {
  World : Type;
  Token : Type;
  Config : Type;
  Client : Type;
  Service : Type;
  File : Type;
  (* os, encoding/json, fmt, time *)
  os_ReadFile : string -> World -> result string * World;
  os_Open : string -> World -> result File * World;
  os_OpenFile : string -> Z -> Z -> World -> result File * World;
  file_Close : File -> World -> option error * World;
  json_Decode : File -> World -> (Token * option error) * World;
  json_Encode : File -> option Token -> World -> option error * World;
  fmt_Printf : string -> World -> option error * World;
  fmt_Scan : World -> result string * World;
  time_Now : World -> Time * World;
  (* oauth2 *)
  google_ConfigFromJSON : string -> string -> result Config;
  config_AuthCodeURL : Config -> string -> string;
  config_Exchange : Config -> string -> World -> result Token * World;
  config_Client : Config -> option Token -> Client;
  (* sheets/v4 *)
  sheets_NewService : Client -> result Service;
  Spreadsheets_Create :
    Service -> Spreadsheet -> World -> result Spreadsheet * World;
  Spreadsheets_Get :
    Service -> string -> World -> result Spreadsheet * World;
  Sheets_CopyTo :
    Service -> string -> Z -> CopySheetToAnotherSpreadsheetRequest ->
    World -> result SheetProperties * World;
  Spreadsheets_BatchUpdate :
    Service -> string -> BatchUpdateSpreadsheetRequest ->
    World -> result unit * World;
  Values_Update :
    Service -> string -> string -> ValueRange -> string ->
    World -> result unit * World
}.

(** ** Events *)

(** One event for each call that leaves the program, with what was sent and
    what came back. *)
Inductive Event `{Platform} : Type :=
| EvReadFile (path : string) (r : result string)
| EvConfigFromJSON (r : result Config)
| EvOpen (path : string) (r : result File)
| EvDecode (f : File) (tok : Token) (err : option error)
| EvClose (f : File) (err : option error)
| EvPrintf (text : string) (err : option error)
| EvScan (r : result string)
| EvExchange (code : string) (r : result Token)
| EvOpenFile (path : string) (flag perm : Z) (r : result File)
| EvEncode (f : File) (tok : option Token) (err : option error)
| EvNewService (r : result Service)
| EvNow (t : Time)
| EvCreate (s : Spreadsheet) (r : result Spreadsheet)
| EvGet (spreadsheetId : string) (r : result Spreadsheet)
| EvCopyTo (spreadsheetId : string) (sheetId : Z)
    (rb : CopySheetToAnotherSpreadsheetRequest) (r : result SheetProperties)
| EvBatchUpdate (spreadsheetId : string)
    (rb : BatchUpdateSpreadsheetRequest) (r : result unit)
| EvValuesUpdate (spreadsheetId range : string) (vr : ValueRange)
    (valueInputOption : string) (r : result unit).

Section Program.

Context `{P : Platform}.

(** ** The monad *)

(** A computation takes the world and gives how it ended, the events it
    performed, and the world it left. *)
Definition M (A : Type) : Type := World -> Out A * list Event * World.

Definition ret {A} (a : A) : M A := fun w => (Ret a, [], w).

Definition bind {A B} (m : M A) (f : A -> M B) : M B :=
  fun w =>
    match m w with
    | (Ret a, t1, w1) =>
        match f a w1 with
        | (o, t2, w2) => (o, t1 ++ t2, w2)
        end
    | (Abort x, t1, w1) => (Abort x, t1, w1)
    end.

Definition abort {A} (x : Exit) : M A := fun w => (Abort x, [], w).

(** [log.Fatalf(format, err)] *)
Definition log_Fatalf {A} (format : string) (e : error) : M A :=
  abort (Fatal format e).

(** [log.Fatal(err)] *)
Definition log_Fatal {A} (e : error) : M A :=
  abort (Fatal "" e).

(** A call that changes the world and returns [r], recorded as [ev r]. *)
Definition call {A} (f : World -> A * World) (ev : A -> Event) : M A :=
  fun w => match f w with (r, w') => (Ret r, [ev r], w') end.

(** A library function that can fail but does not touch the world. *)
Definition pure_call {A} (r : A) (ev : A -> Event) : M A :=
  fun w => (Ret r, [ev r], w).

(** [p.field] through a pointer that may be nil *)
Definition deref {A} (p : option A) : M A :=
  match p with
  | Some a => ret a
  | None => abort (Panic NilDereference)
  end.

(** [xs[i]] *)
Definition index {A} (xs : list A) (i : nat) : M A :=
  match nth_error xs i with
  | Some a => ret a
  | None => abort (Panic IndexOutOfRange)
  end.

(** [for _, x := range xs { body }] *)
Fixpoint forRange {A} (xs : list A) (body : A -> M unit) : M unit :=
  match xs with
  | [] => ret tt
  | x :: rest => bind (body x) (fun _ => forRange rest body)
  end.

End Program.

Declare Scope go_scope.
Delimit Scope go_scope with go.
Notation "x <- m ;; k" := (bind m (fun x => k))
  (at level 61, m at next level, right associativity) : go_scope.
Notation "' p <- m ;; k" := (bind m (fun x => match x with p => k end))
  (at level 61, p pattern, m at next level, right associativity) : go_scope.
Notation "m ;; k" := (bind m (fun _ => k))
  (at level 61, right associativity) : go_scope.
Local Open Scope go_scope.

(** [x, err := f(...); if err != nil { log.Fatalf(format, err) }] *)
Definition orFatalf `{Platform} {A} (m : M (result A)) (format : string)
  : M A :=
  r <- m ;;
  match r with
  | Ok a => ret a
  | Err e => log_Fatalf format e
  end.

(** [err = f(...); if err != nil { log.Fatalf(format, err) }] *)
Definition errFatalf `{Platform} (m : M (option error)) (format : string)
  : M unit :=
  err <- m ;;
  match err with
  | None => ret tt
  | Some e => log_Fatalf format e
  end.

(** ** Constants *)

Definition nl : string := String (ascii_of_nat 10) EmptyString.

(** [os.O_RDWR], [os.O_CREATE], [os.O_TRUNC] and the mode [0600] *)
Definition O_RDWR : Z := 2.
Definition O_CREATE : Z := 64.
Definition O_TRUNC : Z := 512.
Definition mode0600 : Z := 384.

Definition scope : string := "https://www.googleapis.com/auth/spreadsheets".

(** ** The OAuth helpers, the same in both files *)

Section Auth.

Context `{P : Platform}.

(** [tokenFromFile]: the token pointer is nil when the file cannot be
    opened; after a failed decode the pointer is set and so is the error.
    The deferred [f.Close()] runs on return and what it reports is
    dropped. *)
Definition tokenFromFile (file : string) : M (option Token * option error) :=
  r <- call (os_Open file) (EvOpen file) ;;
  match r with
  | Err e => ret (None, Some e)
  | Ok f =>
      '(tok, err) <- call (json_Decode f) (fun r => EvDecode f (fst r) (snd r)) ;;
      _ <- call (file_Close f) (EvClose f) ;;
      ret (Some tok, err)
  end.

(** [getTokenFromWeb]: what [fmt.Printf] reports is dropped. *)
Definition getTokenFromWeb (config : Config) : M (option Token) :=
  let authURL := config_AuthCodeURL config "state-token" in
  let text :=
    ("Go to the following link in your browser then type the authorization code: "
     ++ nl ++ authURL ++ nl)%string in
  _ <- call (fmt_Printf text) (EvPrintf text) ;;
  authCode <- orFatalf (call fmt_Scan EvScan)
                "Unable to read authorization code: %v" ;;
  tok <- orFatalf (call (config_Exchange config authCode) (EvExchange authCode))
           "Unable to retrieve token from web: %v" ;;
  ret (Some tok).

(** [saveToken]: the results of [Printf], [Encode] and [Close] are dropped;
    [Close] is deferred, so it does not run when [log.Fatalf] exits. *)
Definition saveToken (path : string) (token : option Token) : M unit :=
  let text := ("Saving credential file to: " ++ path ++ nl)%string in
  _ <- call (fmt_Printf text) (EvPrintf text) ;;
  let flag := Z.lor (Z.lor O_RDWR O_CREATE) O_TRUNC in
  f <- orFatalf (call (os_OpenFile path flag mode0600)
                   (EvOpenFile path flag mode0600))
         "Unable to cache oauth token: %v" ;;
  _ <- call (json_Encode f token) (EvEncode f token) ;;
  _ <- call (file_Close f) (EvClose f) ;;
  ret tt.

(** [getClient] *)
Definition getClient (config : Config) : M Client :=
  let tokFile := "token.json" in
  '(tok, err) <- tokenFromFile tokFile ;;
  tok <- match err with
         | Some _ =>
             tok <- getTokenFromWeb config ;;
             saveToken tokFile tok ;;
             ret tok
         | None => ret tok
         end ;;
  ret (config_Client config tok).

(** The first lines of [main], the same in both files: read the
    credentials, build the OAuth configuration, the client and the
    service. *)
Definition connect : M Service :=
  b <- orFatalf (call (os_ReadFile "credentials.json")
                   (EvReadFile "credentials.json"))
         "Unable to ReaFile: %v" ;;
  config <- orFatalf (pure_call (google_ConfigFromJSON b scope) EvConfigFromJSON)
              "Unable to ConfigFromJSON: %v" ;;
  client <- getClient config ;;
  orFatalf (pure_call (sheets_NewService client) EvNewService)
    "Unable to NewService: %v".

End Auth.

(** ** quickstart.go *)

Module Quickstart.
Section Code.

Context `{P : Platform}.

(** [createSpreadsheet] *)
Definition createSpreadsheet (srv : Service) : M (result Spreadsheet) :=
  let spreadsheet :=
    {| SpreadsheetId := "";
       SpProperties := Some {| SpTitle := newTitle |};
       Sheets := [] |} in
  r <- call (Spreadsheets_Create srv spreadsheet) (EvCreate spreadsheet) ;;
  match r with
  | Err e => ret (Err e)
  | Ok newSheet => ret (Ok newSheet)
  end.

(** [getSpreadsheet] *)
Definition getSpreadsheet (srv : Service) (spreadsheetId : string)
  : M (result Spreadsheet) :=
  r <- call (Spreadsheets_Get srv spreadsheetId) (EvGet spreadsheetId) ;;
  match r with
  | Err e => ret (Err e)
  | Ok spreadsheet => ret (Ok spreadsheet)
  end.

(** [copySpreadsheet]; the declared result is Go's [error], [None] for
    [nil]. *)
Definition copySpreadsheet (sourceSpreadsheet : Spreadsheet) (srv : Service)
  (sourceSpreadsheetId destinationSpreadsheetId : string) : M (option error) :=
  forRange (Sheets sourceSpreadsheet) (fun sheet =>
    let rb := {| DestinationSpreadsheetId := destinationSpreadsheetId |} in
    sheet <- deref sheet ;;
    props <- deref (Properties sheet) ;;
    r <- call (Sheets_CopyTo srv sourceSpreadsheetId (SheetId props) rb)
           (EvCopyTo sourceSpreadsheetId (SheetId props) rb) ;;
    match r with
    | Err e => log_Fatal e
    | Ok resp =>
        let newSheetTitle := TrimSuffix (Title resp) copySuffix in
        let updateSheetNameRequest :=
          UpdateSheetProperties
            {| UpdProperties :=
                 {| SheetId := SheetId resp; Title := newSheetTitle |};
               Fields := "title" |} in
        let batchUpdateRequest :=
          {| Requests := [updateSheetNameRequest] |} in
        r <- call (Spreadsheets_BatchUpdate srv destinationSpreadsheetId
                     batchUpdateRequest)
               (EvBatchUpdate destinationSpreadsheetId batchUpdateRequest) ;;
        match r with
        | Err e => log_Fatalf "Unable to update sheet name: %v" e
        | Ok _ => ret tt
        end
    end) ;;
  ret None.

(** [deleteBlankSheet] *)
Definition deleteBlankSheet (srv : Service) (newSheet : Spreadsheet)
  (destinationSpreadsheetId : string) : M (option error) :=
  sheet0 <- index (Sheets newSheet) 0 ;;
  sheet0 <- deref sheet0 ;;
  props <- deref (Properties sheet0) ;;
  let blankSheetId := SheetId props in
  let deleteSheetRequest := DeleteSheet {| DelSheetId := blankSheetId |} in
  let batchUpdateRequest := {| Requests := [deleteSheetRequest] |} in
  r <- call (Spreadsheets_BatchUpdate srv destinationSpreadsheetId
               batchUpdateRequest)
         (EvBatchUpdate destinationSpreadsheetId batchUpdateRequest) ;;
  match r with
  | Err e => log_Fatalf "Unable to delete sheet: %v" e
  | Ok _ => ret None
  end.

(** [updateCellsYearMonth] *)
Definition updateCellsYearMonth (srv : Service)
  (destinationSpreadsheet : Spreadsheet) (destinationSpreadsheetId : string)
  : M (option error) :=
  now <- call time_Now EvNow ;;
  let year := Year now in
  let month := Month now in
  forRange (Sheets destinationSpreadsheet) (fun sheet =>
    sheet <- deref sheet ;;
    props <- deref (Properties sheet) ;;
    let sheetName := Title props in
    let values := [[year]; []; [month]] in
    let updateValuesRequest :=
      {| Range := (sheetName ++ "!A1:A3")%string;
         Values := values;
         MajorDimension := "ROWS" |} in
    r <- call (Values_Update srv destinationSpreadsheetId
                 (Range updateValuesRequest) updateValuesRequest "RAW")
           (EvValuesUpdate destinationSpreadsheetId
              (Range updateValuesRequest) updateValuesRequest "RAW") ;;
    match r with
    | Err e => log_Fatalf "Unable to update cells with year and month: %v" e
    | Ok _ => ret tt
    end) ;;
  ret None.

(** [main] *)
Definition main : M unit :=
  srv <- connect ;;
  newSheet <- orFatalf (createSpreadsheet srv)
                "Unable to createSpreadsheet: %v" ;;
  let sourceSpreadsheetId := "" in
  let destinationSpreadsheetId := SpreadsheetId newSheet in
  sourceSpreadsheet <- orFatalf (getSpreadsheet srv sourceSpreadsheetId)
                         "Unable to Get source spreadsheet: %v" ;;
  errFatalf (copySpreadsheet sourceSpreadsheet srv sourceSpreadsheetId
               destinationSpreadsheetId)
    "Unable to copySpreadsheet: %v" ;;
  (if (0 <? length (Sheets sourceSpreadsheet))%nat
   then errFatalf (deleteBlankSheet srv newSheet destinationSpreadsheetId)
          "Unable to delete blank sheet: %v"
   else ret tt) ;;
  destinationSpreadsheet <-
    orFatalf (getSpreadsheet srv destinationSpreadsheetId)
      "Unable to retrieve sheets: %v" ;;
  errFatalf (updateCellsYearMonth srv destinationSpreadsheet
               destinationSpreadsheetId)
    "Unable to update cells with year and month: %v".

End Code.
End Quickstart.

(** ** The monolithic program *)

Module Monolith.
Section Code.

Context `{P : Platform}.

(** [main] *)
Definition main : M unit :=
  srv <- connect ;;
  let spreadsheet :=
    {| SpreadsheetId := "";
       SpProperties := Some {| SpTitle := newTitle |};
       Sheets := [] |} in
  newSheet <- orFatalf
                (call (Spreadsheets_Create srv spreadsheet)
                   (EvCreate spreadsheet))
                "Unable to Create: %v" ;;
  let sourceSpreadsheetId := "" in
  let destinationSpreadsheetId := SpreadsheetId newSheet in
  sourceSpreadsheet <- orFatalf
                         (call (Spreadsheets_Get srv sourceSpreadsheetId)
                            (EvGet sourceSpreadsheetId))
                         "Unable to Get source spreadsheet: %v" ;;
  forRange (Sheets sourceSpreadsheet) (fun sheet =>
    let rb := {| DestinationSpreadsheetId := destinationSpreadsheetId |} in
    sheet <- deref sheet ;;
    props <- deref (Properties sheet) ;;
    r <- call (Sheets_CopyTo srv sourceSpreadsheetId (SheetId props) rb)
           (EvCopyTo sourceSpreadsheetId (SheetId props) rb) ;;
    match r with
    | Err e => log_Fatal e
    | Ok resp =>
        let newSheetTitle := TrimSuffix (Title resp) copySuffix in
        let updateSheetNameRequest :=
          UpdateSheetProperties
            {| UpdProperties :=
                 {| SheetId := SheetId resp; Title := newSheetTitle |};
               Fields := "title" |} in
        let batchUpdateRequest :=
          {| Requests := [updateSheetNameRequest] |} in
        r <- call (Spreadsheets_BatchUpdate srv destinationSpreadsheetId
                     batchUpdateRequest)
               (EvBatchUpdate destinationSpreadsheetId batchUpdateRequest) ;;
        match r with
        | Err e => log_Fatalf "Unable to update sheet name: %v" e
        | Ok _ => ret tt
        end
    end) ;;
  sheet0 <- index (Sheets newSheet) 0 ;;
  sheet0 <- deref sheet0 ;;
  props <- deref (Properties sheet0) ;;
  let blankSheetId := SheetId props in
  (if (0 <? length (Sheets sourceSpreadsheet))%nat
   then
     let deleteSheetRequest := DeleteSheet {| DelSheetId := blankSheetId |} in
     let batchUpdateRequest := {| Requests := [deleteSheetRequest] |} in
     r <- call (Spreadsheets_BatchUpdate srv destinationSpreadsheetId
                  batchUpdateRequest)
            (EvBatchUpdate destinationSpreadsheetId batchUpdateRequest) ;;
     match r with
     | Err e => log_Fatalf "Unable to delete blank sheet: %v" e
     | Ok _ => ret tt
     end
   else ret tt) ;;
  s <- orFatalf
         (call (Spreadsheets_Get srv destinationSpreadsheetId)
            (EvGet destinationSpreadsheetId))
         "Unable to retrieve sheets: %v" ;;
  now <- call time_Now EvNow ;;
  let year := Year now in
  let month := Month now in
  forRange (Sheets s) (fun sheet =>
    sheet <- deref sheet ;;
    props <- deref (Properties sheet) ;;
    let sheetName := Title props in
    let values := [[year]; []; [month]] in
    let updateValuesRequest :=
      {| Range := (sheetName ++ "!A1:A3")%string;
         Values := values;
         MajorDimension := "ROWS" |} in
    r <- call (Values_Update srv destinationSpreadsheetId
                 (Range updateValuesRequest) updateValuesRequest "RAW")
           (EvValuesUpdate destinationSpreadsheetId
              (Range updateValuesRequest) updateValuesRequest "RAW") ;;
    match r with
    | Err e => log_Fatalf "Unable to update cells with year and month: %v" e
    | Ok _ => ret tt
    end).

End Code.
End Monolith.

(** ** A scripted platform, for concrete runs *)

(** A platform whose answers are fixed in advance.  Its world counts the
    requests that the remote service has served. *)
Record Script : Type := {
  sc_credentials : result string;
  sc_token_cached : bool;
  sc_create : result Spreadsheet;
  sc_source : result Spreadsheet;
  sc_destination : result Spreadsheet;
  sc_copy : Z -> result SheetProperties;
  sc_now : Time
}.

Definition scripted (sc : Script) : Platform := {|
  World := nat;
  Token := string;
  Config := string;
  Client := string;
  Service := unit;
  File := string;
  os_ReadFile := fun _ w => (sc_credentials sc, w);
  os_Open := fun path w =>
    (if sc_token_cached sc then Ok path else Err "no such file", w);
  os_OpenFile := fun path _ _ w => (Ok path, w);
  file_Close := fun _ w => (None, w);
  json_Decode := fun _ w => (("cached token", None), w);
  json_Encode := fun _ _ w => (None, w);
  fmt_Printf := fun _ w => (None, w);
  fmt_Scan := fun w => (Ok "code", w);
  time_Now := fun w => (sc_now sc, w);
  google_ConfigFromJSON := fun b _ => Ok b;
  config_AuthCodeURL := fun _ _ => "https://accounts.example/auth";
  config_Exchange := fun _ _ w => (Ok "fresh token", w);
  config_Client := fun _ _ => "client";
  sheets_NewService := fun _ => Ok tt;
  Spreadsheets_Create := fun _ _ w => (sc_create sc, S w);
  Spreadsheets_Get := fun _ id w =>
    (if String.eqb id "" then sc_source sc else sc_destination sc, S w);
  Sheets_CopyTo := fun _ _ sheetId _ w => (sc_copy sc sheetId, S w);
  Spreadsheets_BatchUpdate := fun _ _ _ w => (Ok tt, S w);
  Values_Update := fun _ _ _ _ _ w => (Ok tt, S w)
|}.

Definition mkSheet (id : Z) (title : string) : option Sheet :=
  Some {| Properties := Some {| SheetId := id; Title := title |} |}.

Definition mkSpreadsheet (id : string) (sheets : list (option Sheet))
  : Spreadsheet :=
  {| SpreadsheetId := id; SpProperties := None; Sheets := sheets |}.

(** The service answers a copy of sheet [n] with a sheet [n + 100] titled
    ["Sheet のコピー"]. *)
Definition copyAnswer (sheetId : Z) : result SheetProperties :=
  Ok {| SheetId := sheetId + 100; Title := ("Sheet" ++ copySuffix)%string |}.

Definition october2026 : Time := {| Year := 2026; Month := 10 |}.

(** A first run (no [token.json] yet) on a template of two sheets. *)
Definition usualRun : Script := {|
  sc_credentials := Ok "{}";
  sc_token_cached := false;
  sc_create := Ok (mkSpreadsheet "new" [mkSheet 0 "Sheet1"]);
  sc_source := Ok (mkSpreadsheet "" [mkSheet 1 "A"; mkSheet 2 "B"]);
  sc_destination := Ok (mkSpreadsheet "new" [mkSheet 101 "A"; mkSheet 102 "B"]);
  sc_copy := copyAnswer;
  sc_now := october2026
|}.

(** A template without sheets. *)
Definition emptyTemplateRun : Script := {|
  sc_credentials := Ok "{}";
  sc_token_cached := true;
  sc_create := Ok (mkSpreadsheet "new" [mkSheet 0 "Sheet1"]);
  sc_source := Ok (mkSpreadsheet "" []);
  sc_destination := Ok (mkSpreadsheet "new" [mkSheet 0 "Sheet1"]);
  sc_copy := copyAnswer;
  sc_now := october2026
|}.

(** A template without sheets, and a created spreadsheet without sheets. *)
Definition noSheetsRun : Script := {|
  sc_credentials := Ok "{}";
  sc_token_cached := true;
  sc_create := Ok (mkSpreadsheet "new" []);
  sc_source := Ok (mkSpreadsheet "" []);
  sc_destination := Ok (mkSpreadsheet "new" []);
  sc_copy := copyAnswer;
  sc_now := october2026
|}.

(** The service refuses to create the spreadsheet. *)
Definition refusedRun : Script := {|
  sc_credentials := Ok "{}";
  sc_token_cached := true;
  sc_create := Err "quota exceeded";
  sc_source := Ok (mkSpreadsheet "" [mkSheet 1 "A"]);
  sc_destination := Ok (mkSpreadsheet "new" [mkSheet 101 "A"]);
  sc_copy := copyAnswer;
  sc_now := october2026
|}.

Definition trace_of {A W E} (r : Out A * list E * W) : list E := snd (fst r).
Definition out_of {A W E} (r : Out A * list E * W) : Out A := fst (fst r).
Definition world_of {A W E} (r : Out A * list E * W) : W := snd r.


(** ** The requests, as the programs build them *)

(** The rename request of the copy loop. *)
Definition renameRequest (resp : SheetProperties)
  : BatchUpdateSpreadsheetRequest :=
  {| Requests :=
       [UpdateSheetProperties
          {| UpdProperties :=
               {| SheetId := SheetId resp;
                  Title := TrimSuffix (Title resp) copySuffix |};
             Fields := "title" |}] |}.

(** The request that deletes the blank sheet. *)
Definition deleteRequest (blankSheetId : Z) : BatchUpdateSpreadsheetRequest :=
  {| Requests := [DeleteSheet {| DelSheetId := blankSheetId |}] |}.

(** The value range of the write loop. *)
Definition yearMonthRange (now : Time) (sheetName : string) : ValueRange :=
  {| Range := (sheetName ++ "!A1:A3")%string;
     Values := [[Year now]; []; [Month now]];
     MajorDimension := "ROWS" |}.

(** The spreadsheet that is sent to [Create]. *)
Definition blankSpreadsheet : Spreadsheet :=
  {| SpreadsheetId := "";
     SpProperties := Some {| SpTitle := newTitle |};
     Sheets := [] |}.

(** The events that are requests to the remote service. *)
Definition is_api `{Platform} (e : Event) : bool :=
  match e with
  | EvCreate _ _ | EvGet _ _ | EvCopyTo _ _ _ _
  | EvBatchUpdate _ _ _ | EvValuesUpdate _ _ _ _ _ => true
  | _ => false
  end.

(** The events whose call reported an error. *)
Definition failed `{Platform} (e : Event) : bool :=
  match e with
  | EvReadFile _ (Err _) | EvConfigFromJSON (Err _) | EvOpen _ (Err _)
  | EvDecode _ _ (Some _) | EvScan (Err _) | EvExchange _ (Err _)
  | EvOpenFile _ _ _ (Err _) | EvEncode _ _ (Some _) | EvNewService (Err _)
  | EvClose _ (Some _) | EvPrintf _ (Some _)
  | EvCreate _ (Err _) | EvGet _ (Err _) | EvCopyTo _ _ _ (Err _)
  | EvBatchUpdate _ _ (Err _) | EvValuesUpdate _ _ _ _ (Err _) => true
  | _ => false
  end.

(** ** The runs of the workflow, as relations

    [copy_run], [write_run] and [workflow_run] list the ways in which the
    copy loop, the write loop and the part of [main] after [connect] can
    end, with the events of each.  [quickstart_runs] and [monolith_runs]
    below show that every run of the code is one of them. *)

Section Runs.

Context `{P : Platform}.

Definition aSheet (props : SheetProperties) : option Sheet :=
  Some {| Properties := Some props |}.

(** A pointer to a sheet through which [sheet.Properties.X] panics. *)
Definition nilSheet (sheet : option Sheet) : Prop :=
  sheet = None \/ sheet = Some {| Properties := None |}.

Inductive copy_run (srcId dst : string)
  : list (option Sheet) -> Out unit -> list Event -> Prop :=
| copy_end : copy_run srcId dst [] (Ret tt) []
| copy_next props rest resp o tr :
    copy_run srcId dst rest o tr ->
    copy_run srcId dst (aSheet props :: rest) o
      (EvCopyTo srcId (SheetId props) {| DestinationSpreadsheetId := dst |}
         (Ok resp)
       :: EvBatchUpdate dst (renameRequest resp) (Ok tt) :: tr)
| copy_nil sheet rest :
    nilSheet sheet ->
    copy_run srcId dst (sheet :: rest) (Abort (Panic NilDereference)) []
| copy_refused props rest e :
    copy_run srcId dst (aSheet props :: rest) (Abort (Fatal "" e))
      [EvCopyTo srcId (SheetId props) {| DestinationSpreadsheetId := dst |}
         (Err e)]
| copy_rename_refused props rest resp e :
    copy_run srcId dst (aSheet props :: rest)
      (Abort (Fatal "Unable to update sheet name: %v" e))
      [EvCopyTo srcId (SheetId props) {| DestinationSpreadsheetId := dst |}
         (Ok resp);
       EvBatchUpdate dst (renameRequest resp) (Err e)].

Definition writeEvent (dst : string) (now : Time) (sheetName : string)
  (r : result unit) : Event :=
  EvValuesUpdate dst (Range (yearMonthRange now sheetName))
    (yearMonthRange now sheetName) "RAW" r.

Inductive write_run (dst : string) (now : Time)
  : list (option Sheet) -> Out unit -> list Event -> Prop :=
| write_end : write_run dst now [] (Ret tt) []
| write_next props rest o tr :
    write_run dst now rest o tr ->
    write_run dst now (aSheet props :: rest) o
      (writeEvent dst now (Title props) (Ok tt) :: tr)
| write_nil sheet rest :
    nilSheet sheet ->
    write_run dst now (sheet :: rest) (Abort (Panic NilDereference)) []
| write_refused props rest e :
    write_run dst now (aSheet props :: rest)
      (Abort (Fatal "Unable to update cells with year and month: %v" e))
      [writeEvent dst now (Title props) (Err e)].

(** From the second [Get] to the end. *)
Inductive finish_run (dst : string) : Out unit -> list Event -> Prop :=
| finish_refused e :
    finish_run dst (Abort (Fatal "Unable to retrieve sheets: %v" e))
      [EvGet dst (Err e)]
| finish_write dest now o tr :
    write_run dst now (Sheets dest) o tr ->
    finish_run dst o (EvGet dst (Ok dest) :: EvNow now :: tr).

(** How [newSheet.Sheets[0].Properties.SheetId] panics. *)
Definition blank_panic (newSheet : Spreadsheet) (k : PanicKind) : Prop :=
  match k with
  | IndexOutOfRange => Sheets newSheet = []
  | NilDereference =>
      exists sheet rest, Sheets newSheet = sheet :: rest /\ nilSheet sheet
  end.

(** From the end of the copy loop to the end.  [eager] tells whether the
    id of the blank sheet is read before the test on the number of source
    sheets (the monolithic program) or after it (quickstart.go). *)
Inductive cleanup_run (eager : bool) (newSheet source : Spreadsheet)
  : Out unit -> list Event -> Prop :=
| cleanup_panic k :
    blank_panic newSheet k ->
    eager = true \/ Sheets source <> [] ->
    cleanup_run eager newSheet source (Abort (Panic k)) []
| cleanup_skip o tr :
    Sheets source = [] ->
    eager = false \/
      (exists props rest, Sheets newSheet = aSheet props :: rest) ->
    finish_run (SpreadsheetId newSheet) o tr ->
    cleanup_run eager newSheet source o tr
| cleanup_refused props rest format e :
    Sheets source <> [] ->
    Sheets newSheet = aSheet props :: rest ->
    cleanup_run eager newSheet source (Abort (Fatal format e))
      [EvBatchUpdate (SpreadsheetId newSheet)
         (deleteRequest (SheetId props)) (Err e)]
| cleanup_delete props rest o tr :
    Sheets source <> [] ->
    Sheets newSheet = aSheet props :: rest ->
    finish_run (SpreadsheetId newSheet) o tr ->
    cleanup_run eager newSheet source o
      (EvBatchUpdate (SpreadsheetId newSheet)
         (deleteRequest (SheetId props)) (Ok tt) :: tr).

(** From [Create] to the end. *)
Inductive workflow_run (eager : bool) : Out unit -> list Event -> Prop :=
| workflow_create_refused format e :
    workflow_run eager (Abort (Fatal format e))
      [EvCreate blankSpreadsheet (Err e)]
| workflow_source_refused newSheet e :
    workflow_run eager
      (Abort (Fatal "Unable to Get source spreadsheet: %v" e))
      [EvCreate blankSpreadsheet (Ok newSheet); EvGet "" (Err e)]
| workflow_copy_stopped newSheet source x tr :
    copy_run "" (SpreadsheetId newSheet) (Sheets source) (Abort x) tr ->
    workflow_run eager (Abort x)
      (EvCreate blankSpreadsheet (Ok newSheet)
       :: EvGet "" (Ok source) :: tr)
| workflow_copied newSheet source tr o tr' :
    copy_run "" (SpreadsheetId newSheet) (Sheets source) (Ret tt) tr ->
    cleanup_run eager newSheet source o tr' ->
    workflow_run eager o
      (EvCreate blankSpreadsheet (Ok newSheet)
       :: EvGet "" (Ok source) :: tr ++ tr').

(** How a run of [main] splits into [connect] and the workflow. *)
Definition main_split (eager : bool) (w : World)
  (o : Out unit) (tr : list Event) : Prop :=
  exists o1 tr1 w1,
    connect w = (o1, tr1, w1) /\
    ((exists x, o1 = Abort x /\ o = Abort x /\ tr = tr1) \/
     (exists srv tr2,
         o1 = Ret srv /\ tr = tr1 ++ tr2 /\ workflow_run eager o tr2)).

End Runs.

(** ** The loop bodies

    The two programs have the same two loops; their bodies are named here
    so that one lemma serves both. *)

Section Bodies.

Context `{P : Platform}.

Definition copyBody (srv : Service)
  (sourceSpreadsheetId destinationSpreadsheetId : string)
  (sheet : option Sheet) : M unit :=
  let rb := {| DestinationSpreadsheetId := destinationSpreadsheetId |} in
  sheet <- deref sheet ;;
  props <- deref (Properties sheet) ;;
  r <- call (Sheets_CopyTo srv sourceSpreadsheetId (SheetId props) rb)
         (EvCopyTo sourceSpreadsheetId (SheetId props) rb) ;;
  match r with
  | Err e => log_Fatal e
  | Ok resp =>
      r <- call (Spreadsheets_BatchUpdate srv destinationSpreadsheetId
                   (renameRequest resp))
             (EvBatchUpdate destinationSpreadsheetId (renameRequest resp)) ;;
      match r with
      | Err e => log_Fatalf "Unable to update sheet name: %v" e
      | Ok _ => ret tt
      end
  end.

Definition writeBody (srv : Service) (destinationSpreadsheetId : string)
  (now : Time) (sheet : option Sheet) : M unit :=
  sheet <- deref sheet ;;
  props <- deref (Properties sheet) ;;
  let updateValuesRequest := yearMonthRange now (Title props) in
  r <- call (Values_Update srv destinationSpreadsheetId
               (Range updateValuesRequest) updateValuesRequest "RAW")
         (EvValuesUpdate destinationSpreadsheetId
            (Range updateValuesRequest) updateValuesRequest "RAW") ;;
  match r with
  | Err e => log_Fatalf "Unable to update cells with year and month: %v" e
  | Ok _ => ret tt
  end.

End Bodies.

(** ** Kinds of events *)

(** The five endpoints of the service, with the two uses of batch-update
    told apart; everything that is not a request to the service is
    [KLocal]. *)
Inductive Kind : Type :=
| KCreate | KGet | KCopy | KRename | KDelete | KBatch | KValues | KLocal.

Definition Kind_eqb (a b : Kind) : bool :=
  match a, b with
  | KCreate, KCreate | KGet, KGet | KCopy, KCopy | KRename, KRename
  | KDelete, KDelete | KBatch, KBatch | KValues, KValues
  | KLocal, KLocal => true
  | _, _ => false
  end.

Definition kind `{Platform} (e : Event) : Kind :=
  match e with
  | EvCreate _ _ => KCreate
  | EvGet _ _ => KGet
  | EvCopyTo _ _ _ _ => KCopy
  | EvBatchUpdate _ {| Requests := [UpdateSheetProperties _] |} _ => KRename
  | EvBatchUpdate _ {| Requests := [DeleteSheet _] |} _ => KDelete
  | EvBatchUpdate _ _ _ => KBatch
  | EvValuesUpdate _ _ _ _ _ => KValues
  | _ => KLocal
  end.

(** The events of kind [k] in a trace, in order. *)
Definition only `{Platform} (k : Kind) (tr : list Event) : list Event :=
  filter (fun e => Kind_eqb (kind e) k) tr.

(** The calls to the batch-update endpoint, of whichever use. *)
Definition batchUpdates `{Platform} (tr : list Event) : list Event :=
  filter (fun e => match e with EvBatchUpdate _ _ _ => true | _ => false end)
    tr.

(** ** Properties of traces *)

(** [t] is [s] without the suffix ["のコピー"], or [s] itself when [s] does
    not end with it. *)
Definition trimmed (s t : string) : Prop :=
  (forall base, s = (base ++ copySuffix)%string -> t = base) /\
  ((forall base, s <> (base ++ copySuffix)%string) -> t = s).

(** Every copy that succeeded has its rename request, and every request
    that updates sheet properties is the rename of a copy. *)
Definition renames_copies `{Platform} (tr : list Event) : Prop :=
  (forall srcId sheetId rb resp,
      In (EvCopyTo srcId sheetId rb (Ok resp)) tr ->
      exists t r,
        In (EvBatchUpdate (DestinationSpreadsheetId rb)
              {| Requests :=
                   [UpdateSheetProperties
                      {| UpdProperties :=
                           {| SheetId := SheetId resp; Title := t |};
                         Fields := "title" |}] |} r) tr
        /\ trimmed (Title resp) t) /\
  (forall id rb r u,
      In (EvBatchUpdate id rb r) tr ->
      In (UpdateSheetProperties u) (Requests rb) ->
      Fields u = "title" /\
      exists srcId sheetId resp,
        In (EvCopyTo srcId sheetId {| DestinationSpreadsheetId := id |}
              (Ok resp)) tr
        /\ SheetId (UpdProperties u) = SheetId resp
        /\ trimmed (Title resp) (Title (UpdProperties u))).

(** ** Failures *)

(** Opening and decoding [token.json]: [getClient] answers a failure by
    asking for a new token. *)
Definition token_read `{Platform} (e : Event) : bool :=
  match e with
  | EvOpen _ _ | EvDecode _ _ _ => true
  | _ => false
  end.

(** The calls whose result the code does not look at: encoding the token
    into [token.json] ([json.NewEncoder(f).Encode(token)] as a statement),
    closing a file ([defer f.Close()]) and printing to the terminal
    ([fmt.Printf] as a statement). *)
Definition result_dropped `{Platform} (e : Event) : bool :=
  match e with
  | EvEncode _ _ _ | EvClose _ _ | EvPrintf _ _ => true
  | _ => false
  end.

(** An event after which the run goes on. *)
Definition harmless `{Platform} (e : Event) : bool :=
  token_read e || result_dropped e || negb (failed e).

(** The run stopped at its first failure, if any: all events are harmless,
    except possibly the last one, at which [log.Fatalf] ended the run. *)
Definition halts `{Platform} {A} (o : Out A) (tr : list Event) : Prop :=
  Forall (fun e => harmless e = true) tr \/
  exists pre e format err,
    tr = pre ++ [e] /\ Forall (fun e => harmless e = true) pre /\
    o = Abort (Fatal format err).

(** ** What [getClient] prints *)

(** The text printed by [getTokenFromWeb]. *)
Definition authorizationPrompt `{Platform} (config : Config) : string :=
  ("Go to the following link in your browser then type the authorization code: "
   ++ nl ++ config_AuthCodeURL config "state-token" ++ nl)%string.

(** The text printed by [saveToken]. *)
Definition savingNotice (path : string) : string :=
  ("Saving credential file to: " ++ path ++ nl)%string.


(** ** Runs that reach the write loop *)

Section Reached.

Context `{P : Platform}.

(** The events between the copy loop and the second [Get]: none when the
    source has no sheets, else the deletion of the first sheet of the created
    spreadsheet. *)
Definition delete_part (newSheet source : Spreadsheet)
  (tr : list Event) : Prop :=
  (Sheets source = [] /\ tr = []) \/
  (Sheets source <> [] /\
   exists props rest,
     Sheets newSheet = aSheet props :: rest /\
     tr = [EvBatchUpdate (SpreadsheetId newSheet)
             (deleteRequest (SheetId props)) (Ok tt)]).

(** The shape of a workflow that reached the write loop. *)
Definition reached_writes (o : Out unit) (tr : list Event) : Prop :=
  exists newSheet source copies deletion dest now writes,
    tr = EvCreate blankSpreadsheet (Ok newSheet)
         :: EvGet "" (Ok source)
         :: copies ++ deletion
            ++ EvGet (SpreadsheetId newSheet) (Ok dest)
               :: EvNow now :: writes /\
    copy_run "" (SpreadsheetId newSheet) (Sheets source) (Ret tt) copies /\
    delete_part newSheet source deletion /\
    write_run (SpreadsheetId newSheet) now (Sheets dest) o writes.

(** A rename that the service accepted. *)
Definition renamed_ok (e : Event) : bool :=
  match e with
  | EvBatchUpdate _ {| Requests := [UpdateSheetProperties _] |} (Ok _) => true
  | _ => false
  end.

(** The run created [newSheet], fetched [source], and copied and renamed
    every sheet of [source]. *)
Definition copy_phase_done (tr : list Event)
  (newSheet source : Spreadsheet) : Prop :=
  hd_error (only KCreate tr) = Some (EvCreate blankSpreadsheet (Ok newSheet))
  /\ hd_error (only KGet tr) = Some (EvGet "" (Ok source))
  /\ length (filter renamed_ok tr) = length (Sheets source).

End Reached.

(** ** The blank sheet *)

(** When the copy phase is done: with no source sheets there is no
    batch-update at all; with source sheets, and a created spreadsheet that
    has a first sheet, that sheet is the one sheet whose deletion is
    requested, and the run goes on only if the deletion succeeded. *)
Definition deletes_blank_after_copies `{Platform}
  (o : Out unit) (tr : list Event) : Prop :=
  forall newSheet source,
    copy_phase_done tr newSheet source ->
    (Sheets source = [] -> only KDelete tr = [] /\ batchUpdates tr = []) /\
    (Sheets source <> [] ->
     forall props rest,
       Sheets newSheet = aSheet props :: rest ->
       exists r,
         only KDelete tr
         = [EvBatchUpdate (SpreadsheetId newSheet)
              (deleteRequest (SheetId props)) r] /\
         (o = Ret tt -> r = Ok tt)).

(** ** The numbers of calls, and the writes *)

(** One batch-update for each source sheet, and one more to delete the blank
    sheet when there is a source sheet. *)
Definition batchUpdatesFor (source : Spreadsheet) : nat :=
  length (Sheets source)
  + match Sheets source with [] => 0 | _ :: _ => 1 end.

(** The calls of a run that completes: create once, get twice (the source,
    then the destination), copy-sheet once for each source sheet,
    batch-update [batchUpdatesFor source] times, update-values once for each
    sheet of the destination as fetched. *)
Definition endpoint_calls `{Platform} (o : Out unit) (tr : list Event)
  : Prop :=
  o = Ret tt ->
  exists newSheet source dest,
    only KCreate tr = [EvCreate blankSpreadsheet (Ok newSheet)] /\
    only KGet tr
    = [EvGet "" (Ok source); EvGet (SpreadsheetId newSheet) (Ok dest)] /\
    length (only KCopy tr) = length (Sheets source) /\
    length (batchUpdates tr) = batchUpdatesFor source /\
    length (only KValues tr) = length (Sheets dest) /\
    length (filter is_api tr)
    = (3 + length (Sheets source) + batchUpdatesFor source
       + length (Sheets dest))%nat.

(** Every update-values request writes the year and the month of the one
    reading of the clock into rows 1 and 3 of column A (row 2 empty) of a
    sheet of the destination as fetched; a run that completes has written
    every sheet of it, in order. *)
Definition writes_every_sheet `{Platform} (o : Out unit) (tr : list Event)
  : Prop :=
  (forall id range vr opt r,
      In (EvValuesUpdate id range vr opt r) tr ->
      exists newSheet source dest now props,
        only KCreate tr = [EvCreate blankSpreadsheet (Ok newSheet)] /\
        id = SpreadsheetId newSheet /\
        only KGet tr = [EvGet "" (Ok source); EvGet id (Ok dest)] /\
        In (EvNow now) tr /\
        In (aSheet props) (Sheets dest) /\
        range = (Title props ++ "!A1:A3")%string /\
        vr = {| Range := (Title props ++ "!A1:A3")%string;
                Values := [[Year now]; []; [Month now]];
                MajorDimension := "ROWS" |} /\
        opt = "RAW") /\
  (o = Ret tt ->
   exists newSheet source dest now sheets,
     only KGet tr
     = [EvGet "" (Ok source); EvGet (SpreadsheetId newSheet) (Ok dest)] /\
     In (EvNow now) tr /\
     Sheets dest = map aSheet sheets /\
     only KValues tr
     = map (fun props =>
              EvValuesUpdate (SpreadsheetId newSheet)
                (Title props ++ "!A1:A3")%string
                {| Range := (Title props ++ "!A1:A3")%string;
                   Values := [[Year now]; []; [Month now]];
                   MajorDimension := "ROWS" |}
                "RAW" (Ok tt))
         sheets).

(** ** Reading [newSheet.Sheets[0]] *)

(** The run ended in an index-out-of-range panic. *)
Definition index_panic {A} (o : Out A) : Prop :=
  o = Abort (Panic IndexOutOfRange).

(** An index panic happens only when the created spreadsheet has no
    sheets. *)
Definition index_panic_only_without_sheets `{Platform}
  (o : Out unit) (tr : list Event) : Prop :=
  index_panic o ->
  exists newSheet,
    In (EvCreate blankSpreadsheet (Ok newSheet)) tr /\ Sheets newSheet = [].

(** ** Comparing two runs *)

(** Two runs end in the same way: both return, or both stop in
    [log.Fatalf] on the same error (the texts of the two programs differ),
    or both panic in the same way. *)
Definition same_end (a b : Out unit) : Prop :=
  match a, b with
  | Ret _, Ret _ => True
  | Abort (Fatal _ e1), Abort (Fatal _ e2) => e1 = e2
  | Abort (Panic k1), Abort (Panic k2) => k1 = k2
  | _, _ => False
  end.

(** Same events (requests and answers), same world at the end, same kind
    of end. *)
Definition same_run `{Platform} (a b : Out unit * list Event * World)
  : Prop :=
  trace_of a = trace_of b /\ world_of a = world_of b
  /\ same_end (out_of a) (out_of b).

(** Whenever the source has no sheets, the created spreadsheet has a first
    sheet with properties. *)
Definition blank_sheet_present `{Platform} : Prop :=
  forall srv w0 newSheet w1 source w2,
    Spreadsheets_Create srv blankSpreadsheet w0 = (Ok newSheet, w1) ->
    Spreadsheets_Get srv "" w1 = (Ok source, w2) ->
    Sheets source = [] ->
    exists props rest, Sheets newSheet = aSheet props :: rest.

(** ** The order of the requests *)

(** Where a run is in the workflow.  From the creation on, a phase carries
    the spreadsheet that was created.  [Copying newSheet todo copied]: the
    source has been fetched, the sheets [todo] of it are still to be
    copied, and [copied] tells whether a sheet has been copied.  [Renaming
    newSheet todo resp]: the copy [resp] has just been made and is to be
    renamed.  [BeforeFetch newSheet]: the first sheet that the created
    spreadsheet had has been deleted.  [Writing newSheet now todo]: the
    created spreadsheet has been fetched, the sheets [todo] of it are still
    to be written, with the year and the month of [now].  [Stopped]: a
    request has failed. *)
Inductive Phase : Type :=
| BeforeCreate
| BeforeSource (newSheet : Spreadsheet)
| Copying (newSheet : Spreadsheet) (todo : list (option Sheet))
    (copied : bool)
| Renaming (newSheet : Spreadsheet) (todo : list (option Sheet))
    (resp : SheetProperties)
| BeforeFetch (newSheet : Spreadsheet)
| Writing (newSheet : Spreadsheet) (now : Time) (todo : list (option Sheet))
| Stopped.

(** The phase after a request that was answered by [r]. *)
Definition after {A} (r : result A) (ph : Phase) : Phase :=
  match r with
  | Ok _ => ph
  | Err _ => Stopped
  end.

(** The one request that each phase allows, and the phase that follows:
    create; fetch the source; for each source sheet, in order, the copy of
    that sheet into the created spreadsheet and then the rename of that
    copy; once no sheet is left to copy: if a sheet was copied, the
    deletion of the first sheet that the created spreadsheet had and then
    the fetch of the created spreadsheet, and if none was copied, that fetch
    at once; then, for each sheet of the spreadsheet as fetched, in order,
    the write of the year and the month into that sheet.  No phase allows
    any other request, and [Stopped] allows none. *)
Inductive phase_step `{Platform} : Phase -> Event -> Phase -> Prop :=
| step_create r :
    phase_step BeforeCreate (EvCreate blankSpreadsheet r)
      (match r with
       | Ok newSheet => BeforeSource newSheet
       | Err _ => Stopped
       end)
| step_source newSheet r :
    phase_step (BeforeSource newSheet) (EvGet "" r)
      (match r with
       | Ok source => Copying newSheet (Sheets source) false
       | Err _ => Stopped
       end)
| step_copy newSheet props todo copied r :
    phase_step (Copying newSheet (aSheet props :: todo) copied)
      (EvCopyTo "" (SheetId props)
         {| DestinationSpreadsheetId := SpreadsheetId newSheet |} r)
      (match r with
       | Ok resp => Renaming newSheet todo resp
       | Err _ => Stopped
       end)
| step_rename newSheet todo resp r :
    phase_step (Renaming newSheet todo resp)
      (EvBatchUpdate (SpreadsheetId newSheet) (renameRequest resp) r)
      (after r (Copying newSheet todo true))
| step_delete newSheet props rest r :
    Sheets newSheet = aSheet props :: rest ->
    phase_step (Copying newSheet [] true)
      (EvBatchUpdate (SpreadsheetId newSheet)
         (deleteRequest (SheetId props)) r)
      (after r (BeforeFetch newSheet))
| step_fetch newSheet now r :
    phase_step (BeforeFetch newSheet) (EvGet (SpreadsheetId newSheet) r)
      (match r with
       | Ok dest => Writing newSheet now (Sheets dest)
       | Err _ => Stopped
       end)
| step_fetch_unchanged newSheet now r :
    phase_step (Copying newSheet [] false) (EvGet (SpreadsheetId newSheet) r)
      (match r with
       | Ok dest => Writing newSheet now (Sheets dest)
       | Err _ => Stopped
       end)
| step_write newSheet now props todo r :
    phase_step (Writing newSheet now (aSheet props :: todo))
      (EvValuesUpdate (SpreadsheetId newSheet)
         (Title props ++ "!A1:A3")%string
         {| Range := (Title props ++ "!A1:A3")%string;
            Values := [[Year now]; []; [Month now]];
            MajorDimension := "ROWS" |}
         "RAW" r)
      (after r (Writing newSheet now todo)).

Inductive in_order `{Platform} : Phase -> list Event -> Phase -> Prop :=
| in_order_nil ph : in_order ph [] ph
| in_order_cons ph e ph' tr ph'' :
    phase_step ph e ph' -> in_order ph' tr ph'' ->
    in_order ph (e :: tr) ph''.

(** A run that ends in the phase in which a request has failed has ended in
    [log.Fatal] or [log.Fatalf]. *)
Definition stopped_fatal (ph : Phase) (o : Out unit) : Prop :=
  ph = Stopped -> exists format e, o = Abort (Fatal format e).

(** The requests of a run, in the order in which they were sent, are
    allowed one after the other from the start; the date of the writes is a
    reading of the clock in this run; a run that completes has written
    every sheet of the created spreadsheet as fetched; and a run in which a
    request failed ended in [log.Fatal] or [log.Fatalf]. *)
Definition requests_in_order `{Platform} (o : Out unit) (tr : list Event)
  : Prop :=
  exists ph,
    in_order BeforeCreate (filter is_api tr) ph /\
    (forall newSheet now todo,
        ph = Writing newSheet now todo -> In (EvNow now) tr) /\
    (o = Ret tt -> exists newSheet now, ph = Writing newSheet now []) /\
    stopped_fatal ph o.

(** ** Further properties: what a fatal exit reports *)

(** The error that a call reported, if it did. *)
Definition failure `{Platform} (e : Event) : option error :=
  match e with
  | EvReadFile _ (Err x) | EvConfigFromJSON (Err x) | EvOpen _ (Err x)
  | EvScan (Err x) | EvExchange _ (Err x) | EvOpenFile _ _ _ (Err x)
  | EvNewService (Err x) | EvCreate _ (Err x) | EvGet _ (Err x)
  | EvCopyTo _ _ _ (Err x) | EvBatchUpdate _ _ (Err x)
  | EvValuesUpdate _ _ _ _ (Err x) => Some x
  | EvDecode _ _ err | EvEncode _ _ err | EvClose _ err | EvPrintf _ err =>
      err
  | _ => None
  end.

(** The texts with which a program answers the failure of a call:
    [quick] is [true] for quickstart.go and [false] for the monolithic
    program.  A get has two texts, for the source and for the destination;
    opening or decoding token.json, encoding into it, closing a file and
    printing have none. *)
Definition messages_of `{Platform} (quick : bool) (e : Event) : list string :=
  match e with
  | EvReadFile _ _ => ["Unable to ReaFile: %v"]
  | EvConfigFromJSON _ => ["Unable to ConfigFromJSON: %v"]
  | EvScan _ => ["Unable to read authorization code: %v"]
  | EvExchange _ _ => ["Unable to retrieve token from web: %v"]
  | EvOpenFile _ _ _ _ => ["Unable to cache oauth token: %v"]
  | EvNewService _ => ["Unable to NewService: %v"]
  | EvCreate _ _ =>
      [if quick then "Unable to createSpreadsheet: %v"
       else "Unable to Create: %v"]
  | EvGet _ _ =>
      ["Unable to Get source spreadsheet: %v"; "Unable to retrieve sheets: %v"]
  | EvCopyTo _ _ _ _ => [""]
  | EvBatchUpdate _ {| Requests := [UpdateSheetProperties _] |} _ =>
      ["Unable to update sheet name: %v"]
  | EvBatchUpdate _ {| Requests := [DeleteSheet _] |} _ =>
      [if quick then "Unable to delete sheet: %v"
       else "Unable to delete blank sheet: %v"]
  | EvValuesUpdate _ _ _ _ _ =>
      ["Unable to update cells with year and month: %v"]
  | _ => []
  end.

(** The run ended in [log.Fatalf format e] right after a call that reported
    [e], with one of the texts of that call. *)
Definition reports `{Platform} (quick : bool) (tr : list Event)
  (format : string) (e : error) : Prop :=
  exists pre ev,
    tr = pre ++ [ev] /\ failure ev = Some e /\
    In format (messages_of quick ev).

(** ** Further properties: files *)

(** The files that were opened, for reading or for writing, in order. *)
Definition opened `{Platform} (tr : list Event) : list File :=
  flat_map (fun e => match e with
                     | EvOpen _ (Ok f) | EvOpenFile _ _ _ (Ok f) => [f]
                     | _ => []
                     end) tr.

(** The files that were closed, in order. *)
Definition closed `{Platform} (tr : list Event) : list File :=
  flat_map (fun e => match e with
                     | EvClose f _ => [f]
                     | _ => []
                     end) tr.

(** ** Further properties: authentication *)

(** The events of a [connect] that succeeded: the credentials were read
    and parsed, a token came from token.json or from the web, and the
    service was built last. *)
Definition authenticated `{Platform} (auth : list Event) : Prop :=
  exists b config mid srv,
    auth = EvReadFile "credentials.json" (Ok b)
           :: EvConfigFromJSON (Ok config)
           :: mid ++ [EvNewService (Ok srv)] /\
    ((exists f tok, In (EvDecode f tok None) mid) \/
     (exists code tok, In (EvExchange code (Ok tok)) mid)) /\
    forall e, In e auth -> is_api e = false.

(** ** Further properties: nil sheets *)

(** The spreadsheets that the service answered with. *)
Definition answered `{Platform} (tr : list Event) (s : Spreadsheet) : Prop :=
  (exists req, In (EvCreate req (Ok s)) tr) \/
  (exists id, In (EvGet id (Ok s)) tr).

(** Every sheet is a pointer to a sheet that has properties. *)
Definition all_sheets_set (s : Spreadsheet) : Prop :=
  forall sheet, In sheet (Sheets s) -> exists props, sheet = aSheet props.

(** A template whose second sheet is nil. *)
Definition nilSheetRun : Script := {|
  sc_credentials := Ok "{}";
  sc_token_cached := true;
  sc_create := Ok (mkSpreadsheet "new" [mkSheet 0 "Sheet1"]);
  sc_source := Ok (mkSpreadsheet "" [mkSheet 1 "A"; None]);
  sc_destination := Ok (mkSpreadsheet "new" [mkSheet 0 "Sheet1"]);
  sc_copy := copyAnswer;
  sc_now := october2026
|}.

(** ** Further properties: the two programs, in every environment *)

(** The monolithic run stopped in a panic while quickstart.go went on:
    its events are the first events of the run of quickstart.go. *)
Definition stops_early `{Platform} (q m : Out unit * list Event * World)
  : Prop :=
  (exists k, out_of m = Abort (Panic k)) /\
  exists rest, rest <> [] /\ trace_of q = trace_of m ++ rest.

(** ** Further properties: the ids of the sheets that are copied *)

(** The sheet ids of the copy requests, in order. *)
Definition copiedIds `{Platform} (tr : list Event) : list Z :=
  flat_map (fun e => match e with
                     | EvCopyTo _ sheetId _ _ => [sheetId]
                     | _ => []
                     end) tr.

(** The ids of the sheets of a spreadsheet, in order. *)
Definition sheetIds (s : Spreadsheet) : list Z :=
  flat_map (fun sheet => match sheet with
                         | Some {| Properties := Some props |} =>
                             [SheetId props]
                         | _ => []
                         end) (Sheets s).

(** ** A platform on which the token cannot be encoded *)

(** The platform [P], except that [Encode] reports an error. *)
Definition withoutEncode (P : Platform) : Platform := {|
  World := @World P;
  Token := @Token P;
  Config := @Config P;
  Client := @Client P;
  Service := @Service P;
  File := @File P;
  os_ReadFile := @os_ReadFile P;
  os_Open := @os_Open P;
  os_OpenFile := @os_OpenFile P;
  file_Close := @file_Close P;
  json_Decode := @json_Decode P;
  json_Encode := fun _ _ w => (Some "no space left on device", w);
  fmt_Printf := @fmt_Printf P;
  fmt_Scan := @fmt_Scan P;
  time_Now := @time_Now P;
  google_ConfigFromJSON := @google_ConfigFromJSON P;
  config_AuthCodeURL := @config_AuthCodeURL P;
  config_Exchange := @config_Exchange P;
  config_Client := @config_Client P;
  sheets_NewService := @sheets_NewService P;
  Spreadsheets_Create := @Spreadsheets_Create P;
  Spreadsheets_Get := @Spreadsheets_Get P;
  Sheets_CopyTo := @Sheets_CopyTo P;
  Spreadsheets_BatchUpdate := @Spreadsheets_BatchUpdate P;
  Values_Update := @Values_Update P
|}.

(** ** A platform on which every dropped result is an error *)

(** The platform [P], except that [Printf], [Encode] and [Close] report an
    error each time (they leave the world as on [P]). *)
Definition withDroppedErrors (P : Platform) : Platform := {|
  World := @World P;
  Token := @Token P;
  Config := @Config P;
  Client := @Client P;
  Service := @Service P;
  File := @File P;
  os_ReadFile := @os_ReadFile P;
  os_Open := @os_Open P;
  os_OpenFile := @os_OpenFile P;
  file_Close := fun f w => (Some "input/output error", snd (@file_Close P f w));
  json_Decode := @json_Decode P;
  json_Encode := fun f tok w =>
    (Some "no space left on device", snd (@json_Encode P f tok w));
  fmt_Printf := fun text w => (Some "broken pipe", snd (@fmt_Printf P text w));
  fmt_Scan := @fmt_Scan P;
  time_Now := @time_Now P;
  google_ConfigFromJSON := @google_ConfigFromJSON P;
  config_AuthCodeURL := @config_AuthCodeURL P;
  config_Exchange := @config_Exchange P;
  config_Client := @config_Client P;
  sheets_NewService := @sheets_NewService P;
  Spreadsheets_Create := @Spreadsheets_Create P;
  Spreadsheets_Get := @Spreadsheets_Get P;
  Sheets_CopyTo := @Sheets_CopyTo P;
  Spreadsheets_BatchUpdate := @Spreadsheets_BatchUpdate P;
  Values_Update := @Values_Update P
|}.

(** The copy requests of a run name the sheets of the source as fetched,
    one after the other from the first on, and all of them when the run
    completes. *)
Definition copies_follow_source `{Platform} (o : Out unit)
  (tr : list Event) : Prop :=
  forall source,
    hd_error (only KGet tr) = Some (EvGet "" (Ok source)) ->
    exists rest,
      sheetIds source = copiedIds tr ++ rest /\ (o = Ret tt -> rest = []).

(** * Proofs *)

(** ** Inversion of the monad *)

Section MonadFacts.

Context `{P : Platform}.

Lemma bind_inv {A B} (m : M A) (f : A -> M B) w o tr w' :
  bind m f w = (o, tr, w') ->
  (exists x, m w = (Abort x, tr, w') /\ o = Abort x) \/
  (exists a t1 w1 t2,
      m w = (Ret a, t1, w1) /\ f a w1 = (o, t2, w') /\ tr = t1 ++ t2).
Proof.
  unfold bind. destruct (m w) as [[[a|x] t1] w1].
  - destruct (f a w1) as [[o2 t2] w2] eqn:Ef. intros H; inversion H; subst.
    right. exists a, t1, w1, t2. auto.
  - intros H; inversion H; subst. left. exists x. auto.
Qed.

Lemma ret_inv {A} (a : A) w o tr w' :
  ret a w = (o, tr, w') -> o = Ret a /\ tr = [] /\ w' = w.
Proof. unfold ret. intros H; inversion H; auto. Qed.

Lemma abort_inv {A} (x : Exit) w (o : Out A) tr w' :
  abort x w = (o, tr, w') -> o = Abort x /\ tr = [] /\ w' = w.
Proof. unfold abort. intros H; inversion H; auto. Qed.

Lemma call_inv {A} (f : World -> A * World) ev w o tr w' :
  call f ev w = (o, tr, w') ->
  exists r, f w = (r, w') /\ o = Ret r /\ tr = [ev r].
Proof.
  unfold call. destruct (f w) as [r w1]. intros H; inversion H; subst.
  exists r. auto.
Qed.

Lemma pure_call_inv {A} (r : A) ev w o tr w' :
  pure_call r ev w = (o, tr, w') -> o = Ret r /\ tr = [ev r] /\ w' = w.
Proof. unfold pure_call. intros H; inversion H; auto. Qed.

Lemma deref_inv {A} (p : option A) w o tr w' :
  deref p w = (o, tr, w') ->
  tr = [] /\ w' = w /\
  ((exists a, p = Some a /\ o = Ret a) \/
   (p = None /\ o = Abort (Panic NilDereference))).
Proof.
  unfold deref. destruct p as [a|]; intros H.
  - apply ret_inv in H. destruct H as (-> & -> & ->). eauto 6.
  - apply abort_inv in H. destruct H as (-> & -> & ->). eauto 6.
Qed.

Lemma index_inv {A} (xs : list A) i w o tr w' :
  index xs i w = (o, tr, w') ->
  tr = [] /\ w' = w /\
  ((exists a, nth_error xs i = Some a /\ o = Ret a) \/
   (nth_error xs i = None /\ o = Abort (Panic IndexOutOfRange))).
Proof.
  unfold index. destruct (nth_error xs i) as [a|]; intros H.
  - apply ret_inv in H. destruct H as (-> & -> & ->). eauto 6.
  - apply abort_inv in H. destruct H as (-> & -> & ->). eauto 6.
Qed.

End MonadFacts.

(** Equations between outcomes: contradictions close the goal, the others
    are replaced by the equations between their arguments. *)
Ltac clean_out :=
  repeat match goal with
  | H : Abort _ = Ret _ |- _ => discriminate H
  | H : Ret _ = Abort _ |- _ => discriminate H
  | H : Ret _ = Ret _ |- _ => inversion H; clear H; subst
  | H : Abort _ = Abort _ |- _ => inversion H; clear H; subst
  | H : Panic _ = Fatal _ _ |- _ => discriminate H
  | H : Fatal _ _ = Panic _ |- _ => discriminate H
  end.

(** Sheets in the hypotheses are replaced by their one field. *)
Ltac open_sheets :=
  repeat match goal with
  | s : Sheet |- _ => destruct s as [?]; simpl in *
  | u : unit |- _ => destruct u
  end;
  subst.

(** The cases that are added further down. *)
Ltac run_more H := idtac.

(** [run_step H] takes apart the hypothesis [H : m w = (o, tr, w')] along
    the structure of [m], one case for each way in which [m] can end. *)
Ltac run_step H :=
  lazymatch type of H with
  | bind _ _ _ = _ =>
      let x := fresh "x" in let a := fresh "a" in
      let t1 := fresh "t" in let w1 := fresh "w" in let t2 := fresh "u" in
      let H1 := fresh "Hm" in let H2 := fresh "Hk" in
      apply bind_inv in H;
      destruct H as [(x & H1 & ?) | (a & t1 & w1 & t2 & H1 & H2 & ?)];
      [ subst; clean_out; run_step H1
      | subst; clean_out; run_step H1; run_step H2 ]
  | ret _ _ = _ =>
      apply ret_inv in H; destruct H as (? & ? & ?); subst; clean_out
  | abort _ _ = _ =>
      apply abort_inv in H; destruct H as (? & ? & ?); subst; clean_out
  | log_Fatalf _ _ _ = _ =>
      unfold log_Fatalf in H; run_step H
  | log_Fatal _ _ = _ =>
      unfold log_Fatal in H; run_step H
  | call _ _ _ = _ =>
      let r := fresh "r" in let E := fresh "E" in
      apply call_inv in H; destruct H as (r & E & ? & ?); subst; clean_out
  | pure_call _ _ _ = _ =>
      apply pure_call_inv in H; destruct H as (? & ? & ?); subst; clean_out
  | deref _ _ = _ =>
      let a := fresh "a" in
      apply deref_inv in H;
      destruct H as (? & ? & [(a & ? & ?) | (? & ?)]); subst; clean_out
  | index _ _ _ = _ =>
      let a := fresh "a" in
      apply index_inv in H;
      destruct H as (? & ? & [(a & ? & ?) | (? & ?)]); subst; clean_out
  | orFatalf _ _ _ = _ => unfold orFatalf in H; run_step H
  | errFatalf _ _ _ = _ => unfold errFatalf in H; run_step H
  | (match ?r with Ok _ => _ | Err _ => _ end) _ = _ =>
      destruct r; run_step H
  | (match ?r with Some _ => _ | None => _ end) _ = _ =>
      destruct r; run_step H
  | (match ?r with (_, _) => _ end) _ = _ =>
      destruct r; run_step H
  | (if ?b then _ else _) _ = _ =>
      destruct b eqn:?; run_step H
  | _ => run_more H
  end.

(** ** The loops *)

Section Loops.

Context `{P : Platform}.

Lemma copySpreadsheet_loop src srv srcId dst :
  Quickstart.copySpreadsheet src srv srcId dst
  = (forRange (Sheets src) (copyBody srv srcId dst) ;; ret None).
Proof. reflexivity. Qed.

Lemma updateCellsYearMonth_loop srv dest dst :
  Quickstart.updateCellsYearMonth srv dest dst
  = (now <- call time_Now EvNow ;;
     forRange (Sheets dest) (writeBody srv dst now) ;; ret None).
Proof. reflexivity. Qed.

Lemma nilSheet_None : nilSheet None.
Proof. left; reflexivity. Qed.

Lemma nilSheet_no_props : nilSheet (Some {| Properties := None |}).
Proof. right; reflexivity. Qed.

Lemma copy_loop_runs srv srcId dst sheets :
  forall w o tr w',
    forRange sheets (copyBody srv srcId dst) w = (o, tr, w') ->
    copy_run srcId dst sheets o tr.
Proof.
  induction sheets as [|sheet rest IH]; simpl; intros w o tr w' H.
  - run_step H. constructor.
  - unfold copyBody in H. run_step H; simpl; open_sheets.
    + apply copy_nil, nilSheet_None.
    + apply copy_nil, nilSheet_no_props.
    + apply copy_rename_refused.
    + apply copy_refused.
    + apply copy_next. eapply IH; eassumption.
Qed.

Lemma write_loop_runs srv dst now sheets :
  forall w o tr w',
    forRange sheets (writeBody srv dst now) w = (o, tr, w') ->
    write_run dst now sheets o tr.
Proof.
  induction sheets as [|sheet rest IH]; simpl; intros w o tr w' H.
  - run_step H. constructor.
  - unfold writeBody in H. run_step H; simpl; open_sheets.
    + apply write_nil, nilSheet_None.
    + apply write_nil, nilSheet_no_props.
    + apply write_refused.
    + apply (write_next (dst := dst) (now := now)). eapply IH; eassumption.
Qed.

End Loops.

(** ** Every run of the code is a run of the relations *)

Ltac run_more H ::=
  lazymatch type of H with
  | forRange _ _ _ = _ =>
      first [ apply copy_loop_runs in H | apply write_loop_runs in H ]
  | Quickstart.createSpreadsheet _ _ = _ =>
      unfold Quickstart.createSpreadsheet in H; run_step H
  | Quickstart.getSpreadsheet _ _ _ = _ =>
      unfold Quickstart.getSpreadsheet in H; run_step H
  | Quickstart.copySpreadsheet _ _ _ _ _ = _ =>
      rewrite copySpreadsheet_loop in H; run_step H
  | Quickstart.deleteBlankSheet _ _ _ _ = _ =>
      unfold Quickstart.deleteBlankSheet in H; run_step H
  | Quickstart.updateCellsYearMonth _ _ _ _ = _ =>
      rewrite updateCellsYearMonth_loop in H; run_step H
  | _ => idtac
  end.

Lemma ltb_length_true {A} (l : list A) :
  (0 <? length l)%nat = true -> l <> [].
Proof. destruct l; simpl; [discriminate | intros _; discriminate]. Qed.

Lemma ltb_length_false {A} (l : list A) :
  (0 <? length l)%nat = false -> l = [].
Proof. destruct l; simpl; [reflexivity | discriminate]. Qed.

Lemma nth_error_0_some {A} (l : list A) a :
  nth_error l 0 = Some a -> exists rest, l = a :: rest.
Proof. destruct l; simpl; intros H; inversion H. eauto. Qed.

Lemma nth_error_0_none {A} (l : list A) : nth_error l 0 = None -> l = [].
Proof. destruct l; simpl; [reflexivity | discriminate]. Qed.

Lemma workflow_blank_panic `{Platform} eager newSheet source tr k :
  copy_run "" (SpreadsheetId newSheet) (Sheets source) (Ret tt) tr ->
  blank_panic newSheet k ->
  eager = true \/ Sheets source <> [] ->
  workflow_run eager (Abort (Panic k))
    (EvCreate blankSpreadsheet (Ok newSheet) :: EvGet "" (Ok source) :: tr).
Proof.
  intros Hc Hb He. rewrite <- (app_nil_r tr).
  apply workflow_copied; [exact Hc|]. apply cleanup_panic; assumption.
Qed.

Lemma blank_panic_range newSheet :
  Sheets newSheet = [] -> blank_panic newSheet IndexOutOfRange.
Proof. intros H; exact H. Qed.

Lemma blank_panic_nil newSheet sheet rest :
  Sheets newSheet = sheet :: rest -> nilSheet sheet ->
  blank_panic newSheet NilDereference.
Proof. intros H1 H2. exists sheet, rest. auto. Qed.

Create HintDb runs.
#[export] Hint Constructors copy_run write_run finish_run cleanup_run
  workflow_run : runs.
#[export] Hint Resolve nilSheet_None nilSheet_no_props workflow_blank_panic
  blank_panic_range blank_panic_nil : runs.

(** Traces are put in the form [e1 :: e2 :: ... ++ t ++ ...]. *)
Ltac norm_trace :=
  repeat rewrite app_nil_r; repeat rewrite <- app_assoc; simpl.

(** The tests of the code, as facts about the lists. *)
Ltac list_facts :=
  repeat match goal with
  | H : (0 <? length _)%nat = true |- _ => apply ltb_length_true in H
  | H : (0 <? length _)%nat = false |- _ => apply ltb_length_false in H
  | H : nth_error _ 0 = Some _ |- _ =>
      apply nth_error_0_some in H; destruct H as [? H]
  | H : nth_error _ 0 = None |- _ => apply nth_error_0_none in H
  end.

Section MainRuns.

Context `{P : Platform}.

Lemma quickstart_runs w o tr w' :
  Quickstart.main w = (o, tr, w') -> main_split false w o tr.
Proof.
  unfold Quickstart.main. intros H.
  apply bind_inv in H.
  destruct H as [(x & H1 & ->) | (srv & t1 & w1 & t2 & H1 & H2 & ->)].
  { exists (Abort x), tr, w'. split; [exact H1|]. left. eauto. }
  exists (Ret srv), t1, w1. split; [exact H1|]. right.
  exists srv, t2. split; [reflexivity|]. split; [reflexivity|].
  clear H1. run_step H2; norm_trace; list_facts; open_sheets.
  all: eauto 7 with runs.
Qed.

Lemma monolith_runs w o tr w' :
  Monolith.main w = (o, tr, w') -> main_split true w o tr.
Proof.
  unfold Monolith.main. intros H.
  apply bind_inv in H.
  destruct H as [(x & H1 & ->) | (srv & t1 & w1 & t2 & H1 & H2 & ->)].
  { exists (Abort x), tr, w'. split; [exact H1|]. left. eauto. }
  exists (Ret srv), t1, w1. split; [exact H1|]. right.
  exists srv, t2. split; [reflexivity|]. split; [reflexivity|].
  clear H1. run_step H2; norm_trace; list_facts; open_sheets.
  all: eauto 7 with runs.
Qed.

End MainRuns.

(** ** [strings.TrimSuffix] *)

Lemma length_append (s t : string) :
  String.length (s ++ t) = (String.length s + String.length t)%nat.
Proof. induction s as [|c s IH]; simpl; [reflexivity | now rewrite IH]. Qed.

Lemma drop_append (s t : string) : drop (String.length s) (s ++ t) = t.
Proof. induction s as [|c s IH]; simpl; [now destruct t | exact IH]. Qed.

Lemma take_append (s t : string) : take (String.length s) (s ++ t) = s.
Proof. induction s as [|c s IH]; simpl; [reflexivity | now rewrite IH]. Qed.

Lemma take_drop (n : nat) (s : string) : (take n s ++ drop n s)%string = s.
Proof.
  revert s; induction n as [|n IH]; intros [|c s]; simpl; try reflexivity.
  now rewrite IH.
Qed.

Lemma HasSuffix_append (base suffix : string) :
  HasSuffix (base ++ suffix) suffix = true.
Proof.
  unfold HasSuffix. rewrite length_append.
  replace (String.length base + String.length suffix - String.length suffix)%nat
    with (String.length base) by lia.
  rewrite drop_append, String.eqb_refl, andb_true_r.
  apply Nat.leb_le. lia.
Qed.

Lemma HasSuffix_split (s suffix : string) :
  HasSuffix s suffix = true ->
  s = (take (String.length s - String.length suffix) s ++ suffix)%string.
Proof.
  unfold HasSuffix. intros H. apply andb_prop in H. destruct H as [_ H].
  apply String.eqb_eq in H.
  set (n := (String.length s - String.length suffix)%nat) in *.
  rewrite <- (take_drop n s) at 1. f_equal. exact H.
Qed.

Lemma TrimSuffix_present (base suffix : string) :
  TrimSuffix (base ++ suffix) suffix = base.
Proof.
  unfold TrimSuffix. rewrite HasSuffix_append, length_append.
  replace (String.length base + String.length suffix - String.length suffix)%nat
    with (String.length base) by lia.
  apply take_append.
Qed.

Lemma TrimSuffix_absent (s suffix : string) :
  (forall base, s <> (base ++ suffix)%string) -> TrimSuffix s suffix = s.
Proof.
  intros H. unfold TrimSuffix. destruct (HasSuffix s suffix) eqn:E.
  - exfalso. eapply H. apply HasSuffix_split. exact E.
  - reflexivity.
Qed.

Example copySuffix_bytes :
  map nat_of_ascii (list_ascii_of_string copySuffix)
  = [227; 129; 174; 227; 130; 179; 227; 131; 148; 227; 131; 188]%nat.
Proof. reflexivity. Qed.

Example TrimSuffix_copy : TrimSuffix "4月のコピー" copySuffix = "4月".
Proof. reflexivity. Qed.

Example TrimSuffix_plain : TrimSuffix "Sheet1" copySuffix = "Sheet1".
Proof. reflexivity. Qed.

Example TrimSuffix_short : TrimSuffix "ー" copySuffix = "ー".
Proof. reflexivity. Qed.

Example TrimSuffix_twice :
  TrimSuffix "4月のコピーのコピー" copySuffix = "4月のコピー".
Proof. reflexivity. Qed.

Lemma trimmed_TrimSuffix (s : string) : trimmed s (TrimSuffix s copySuffix).
Proof.
  split.
  - intros base ->. apply TrimSuffix_present.
  - apply TrimSuffix_absent.
Qed.

(** ** What the events of each part are *)

Section Inventory.

Context `{P : Platform}.

Lemma copy_run_events srcId dst sheets o tr :
  copy_run srcId dst sheets o tr ->
  forall e, In e tr ->
    (exists props r,
        In (aSheet props) sheets /\
        e = EvCopyTo srcId (SheetId props)
              {| DestinationSpreadsheetId := dst |} r) \/
    (exists props resp r,
        In (EvCopyTo srcId (SheetId props)
              {| DestinationSpreadsheetId := dst |} (Ok resp)) tr /\
        e = EvBatchUpdate dst (renameRequest resp) r).
Proof.
  induction 1; simpl; intros ev Hin.
  - contradiction.
  - destruct Hin as [<- | [<- | Hin]].
    + left. eauto.
    + right. eauto 7.
    + destruct (IHcopy_run ev Hin) as [(p & r & Hp & ->) | (p & rs & r & Hp & ->)].
      * left. eauto.
      * right. eauto 8.
  - contradiction.
  - destruct Hin as [<- | []]. left. eauto.
  - destruct Hin as [<- | [<- | []]].
    + left. eauto.
    + right. eauto 7.
Qed.

Lemma copy_run_renamed srcId dst sheets o tr :
  copy_run srcId dst sheets o tr ->
  forall s sheetId rb resp,
    In (EvCopyTo s sheetId rb (Ok resp)) tr ->
    s = srcId /\ rb = {| DestinationSpreadsheetId := dst |} /\
    exists r, In (EvBatchUpdate dst (renameRequest resp) r) tr.
Proof.
  induction 1; simpl; intros s sid rb0 resp0 Hin.
  - contradiction.
  - destruct Hin as [E | [E | Hin]]; try discriminate.
    + inversion E; subst. repeat split. exists (Ok tt). auto.
    + destruct (IHcopy_run _ _ _ _ Hin) as (-> & -> & r & Hr).
      repeat split. exists r. auto.
  - contradiction.
  - destruct Hin as [E | []]; discriminate.
  - destruct Hin as [E | [E | []]]; try discriminate.
    inversion E; subst. repeat split. exists (Err e). auto.
Qed.

Lemma write_run_events dst now sheets o tr :
  write_run dst now sheets o tr ->
  forall e, In e tr ->
    exists props r,
      In (aSheet props) sheets /\ e = writeEvent dst now (Title props) r.
Proof.
  induction 1; simpl; intros ev Hin.
  - contradiction.
  - destruct Hin as [<- | Hin]; [eauto|].
    destruct (IHwrite_run ev Hin) as (p & r & Hp & ->). eauto.
  - contradiction.
  - destruct Hin as [<- | []]. eauto.
Qed.

Lemma finish_run_kinds dst o tr :
  finish_run dst o tr ->
  forall e, In e tr -> kind e = KGet \/ kind e = KLocal \/ kind e = KValues.
Proof.
  destruct 1; simpl; intros ev Hin.
  - destruct Hin as [<- | []]; auto.
  - destruct Hin as [<- | [<- | Hin]]; auto.
    destruct (write_run_events H ev Hin) as (p & r & _ & ->). auto.
Qed.

Lemma cleanup_run_kinds eager newSheet source o tr :
  cleanup_run eager newSheet source o tr ->
  forall e, In e tr ->
    kind e = KDelete \/ kind e = KGet \/ kind e = KLocal \/ kind e = KValues.
Proof.
  destruct 1; simpl; intros ev Hin.
  - contradiction.
  - right. eapply finish_run_kinds; eassumption.
  - destruct Hin as [<- | []]; auto.
  - destruct Hin as [<- | Hin]; auto.
    right. eapply finish_run_kinds; eassumption.
Qed.

End Inventory.

(** ** [connect] sends nothing to the service *)

Section Connect.

Context `{P : Platform}.

Lemma connect_local w o tr w' :
  connect w = (o, tr, w') -> forall e, In e tr -> kind e = KLocal.
Proof.
  unfold connect, getClient, tokenFromFile, getTokenFromWeb, saveToken.
  intros H. run_step H; intros ev Hin; norm_trace; simpl in Hin;
    repeat (destruct Hin as [<- | Hin]; [reflexivity|]); contradiction.
Qed.

Lemma main_split_api eager w o tr e :
  main_split eager w o tr -> In e tr -> kind e <> KLocal ->
  exists tr1 tr2, tr = tr1 ++ tr2 /\ In e tr2 /\ workflow_run eager o tr2.
Proof.
  intros (o1 & tr1 & w1 & Hc & [(x & -> & -> & ->) | (srv & tr2 & -> & -> & Hw)])
    Hin Hk.
  - exfalso. apply Hk. eapply connect_local; eassumption.
  - apply in_app_or in Hin. destruct Hin as [Hin | Hin].
    + exfalso. apply Hk. eapply connect_local; eassumption.
    + eauto.
Qed.

End Connect.

(** ** Renaming the copies *)

Section Renames.

Context `{P : Platform}.

Lemma batch_kind id rb r :
  kind (EvBatchUpdate id rb r) = KRename \/
  kind (EvBatchUpdate id rb r) = KDelete \/
  kind (EvBatchUpdate id rb r) = KBatch.
Proof. destruct rb as [[|[u|d] [|q l]]]; simpl; auto. Qed.

(** An event of the workflow is of one of five kinds, or belongs to the
    copy loop. *)
Lemma workflow_parts eager o tr :
  workflow_run eager o tr ->
  forall e, In e tr ->
    (kind e = KCreate \/ kind e = KGet \/ kind e = KLocal \/
     kind e = KValues \/ kind e = KDelete) \/
    (exists newSheet source o' t rest,
        copy_run "" (SpreadsheetId newSheet) (Sheets source) o' t /\
        tr = EvCreate blankSpreadsheet (Ok newSheet)
             :: EvGet "" (Ok source) :: t ++ rest /\
        In e t).
Proof.
  destruct 1; simpl; intros ev Hin.
  - destruct Hin as [<- | []]. auto.
  - destruct Hin as [<- | [<- | []]]; auto.
  - destruct Hin as [<- | [<- | Hin]]; auto.
    right. exists newSheet, source, (Abort x), tr, []. rewrite app_nil_r. auto.
  - destruct Hin as [<- | [<- | Hin]]; auto.
    apply in_app_or in Hin. destruct Hin as [Hin | Hin].
    + right. exists newSheet, source, (Ret tt), tr, tr'. auto.
    + left.
      destruct (cleanup_run_kinds H0 ev Hin) as [E | [E | [E | E]]]; auto.
Qed.

Ltac kind_clash H :=
  exfalso; simpl in H; repeat destruct H as [H | H]; discriminate.

Lemma workflow_renames eager o tr :
  workflow_run eager o tr -> renames_copies tr.
Proof.
  intros Hw. split.
  - intros srcId sid rb resp Hin.
    destruct (workflow_parts Hw _ Hin)
      as [Hk | (ns & src & o' & t & rest & Hc & -> & Ht)];
      [kind_clash Hk|].
    destruct (copy_run_renamed Hc _ _ _ _ Ht) as (-> & -> & r & Hr).
    exists (TrimSuffix (Title resp) copySuffix), r. split.
    + simpl. right. right. apply in_or_app. left. exact Hr.
    + apply trimmed_TrimSuffix.
  - intros id rb r u Hin Hu.
    destruct (workflow_parts Hw _ Hin)
      as [Hk | (ns & src & o' & t & rest & Hc & -> & Ht)].
    + exfalso. destruct rb as [[|[u'|d] [|q l]]]; simpl in *;
        try contradiction;
        try (repeat destruct Hk as [Hk | Hk]; discriminate).
      destruct Hu as [Hu | []]; discriminate.
    + destruct (copy_run_events Hc _ Ht)
        as [(p & r' & _ & E) | (p & resp & r' & Hcp & E)]; [discriminate|].
      inversion E; subst. simpl in Hu. destruct Hu as [Hu | []].
      injection Hu as <-. simpl.
      split; [reflexivity|].
      exists "", (SheetId p), resp. split; [|split].
      * simpl. right. right. apply in_or_app. left. exact Hcp.
      * reflexivity.
      * apply trimmed_TrimSuffix.
Qed.

Lemma main_split_renames eager w o tr :
  main_split eager w o tr -> renames_copies tr.
Proof.
  intros Hs. split.
  - intros srcId sid rb resp Hin.
    destruct (main_split_api _ Hs Hin) as (tr1 & tr2 & -> & Hin2 & Hw).
    { discriminate. }
    destruct (workflow_renames Hw) as [H1 _].
    destruct (H1 _ _ _ _ Hin2) as (t & r & Hr & Ht).
    exists t, r. split; [apply in_or_app; right; exact Hr | exact Ht].
  - intros id rb r u Hin Hu.
    destruct (main_split_api _ Hs Hin) as (tr1 & tr2 & -> & Hin2 & Hw).
    { destruct (batch_kind id rb r) as [E | [E | E]]; rewrite E; discriminate. }
    destruct (workflow_renames Hw) as [_ H2].
    destruct (H2 _ _ _ _ Hin2 Hu) as (Hf & s & sid & resp & Hc & Hi & Ht).
    split; [exact Hf|]. exists s, sid, resp.
    split; [apply in_or_app; right; exact Hc | auto].
Qed.

End Renames.

(** C5.  In every run of either program, every copy that succeeded is
    renamed, on the destination spreadsheet, to the title returned by the
    copy without the suffix "のコピー" (the returned title itself when it
    does not end with the suffix), and every request that updates sheet
    properties is such a rename and has "title" as its only field. *)
Theorem rename_trims_copy_suffix `{Platform} (w : World) :
  renames_copies (trace_of (Quickstart.main w)) /\
  renames_copies (trace_of (Monolith.main w)).
Proof.
  split.
  - destruct (Quickstart.main w) as [[o tr] w'] eqn:E.
    eapply main_split_renames, quickstart_runs, E.
  - destruct (Monolith.main w) as [[o tr] w'] eqn:E.
    eapply main_split_renames, monolith_runs, E.
Qed.

(** The first copy of the usual run, answered with the title
    "Sheetのコピー", is renamed to "Sheet". *)
Lemma rename_trims_copy_suffix_witness :
  let tr := trace_of (@Quickstart.main (scripted usualRun) 0%nat) in
  let resp := {| SheetId := 101; Title := ("Sheet" ++ copySuffix)%string |} in
  In (EvCopyTo (H := scripted usualRun) "" 1
        {| DestinationSpreadsheetId := "new" |} (Ok resp)) tr /\
  exists t r,
    In (EvBatchUpdate (H := scripted usualRun) "new"
          {| Requests :=
               [UpdateSheetProperties
                  {| UpdProperties := {| SheetId := 101; Title := t |};
                     Fields := "title" |}] |} r) tr /\
    trimmed (Title resp) t /\ t = "Sheet".
Proof.
  intros tr resp.
  assert (Hin : In (EvCopyTo (H := scripted usualRun) "" 1
                      {| DestinationSpreadsheetId := "new" |} (Ok resp)) tr).
  { vm_compute. repeat first [left; reflexivity | right]. }
  split; [exact Hin|].
  destruct (proj1 (proj1 (rename_trims_copy_suffix (H := scripted usualRun)
                            0%nat)) _ _ _ _ Hin)
    as (t & r & Hr & Ht).
  exists t, r. split; [exact Hr|]. split; [exact Ht|].
  exact (proj1 Ht "Sheet" eq_refl).
Defined.

(** ** Stopping at the first failure *)

Section Halting.

Context `{P : Platform}.

Lemma halts_nil {A} (o : Out A) : halts o [].
Proof. left. constructor. Qed.

Lemma halts_cons {A} (o : Out A) e tr :
  harmless e = true -> halts o tr -> halts o (e :: tr).
Proof.
  intros He [Hall | (pre & e' & f & err & -> & Hpre & ->)].
  - left. constructor; assumption.
  - right. exists (e :: pre), e', f, err. repeat split.
    constructor; assumption.
Qed.

Lemma halts_last {A} e format err :
  halts (A := A) (Abort (Fatal format err)) [e].
Proof. right. exists [], e, format, err. repeat split. constructor. Qed.

Lemma halts_app {A} (o : Out A) t1 t2 :
  Forall (fun e => harmless e = true) t1 -> halts o t2 -> halts o (t1 ++ t2).
Proof.
  induction 1; simpl; intros H2; [exact H2|].
  apply halts_cons; auto.
Qed.

Lemma halts_ret {A} (a : A) tr :
  halts (Ret a) tr -> Forall (fun e => harmless e = true) tr.
Proof.
  intros [Hall | (pre & e & f & err & _ & _ & E)]; [exact Hall | discriminate].
Qed.

End Halting.

Ltac halting :=
  norm_trace;
  repeat (apply halts_cons; [reflexivity|]);
  first [ apply halts_nil | apply halts_last ].

Section HaltingRuns.

Context `{P : Platform}.

Lemma connect_halts w o tr w' : connect w = (o, tr, w') -> halts o tr.
Proof.
  unfold connect, getClient, tokenFromFile, getTokenFromWeb, saveToken.
  intros H. run_step H; halting.
Qed.

Lemma copy_run_halts srcId dst sheets o tr :
  copy_run srcId dst sheets o tr -> halts o tr.
Proof.
  induction 1; try halting.
  repeat (apply halts_cons; [reflexivity|]). assumption.
Qed.

Lemma write_run_halts dst now sheets o tr :
  write_run dst now sheets o tr -> halts o tr.
Proof.
  induction 1; try halting.
  apply halts_cons; [reflexivity | assumption].
Qed.

Lemma finish_run_halts dst o tr : finish_run dst o tr -> halts o tr.
Proof.
  destruct 1; try halting.
  repeat (apply halts_cons; [reflexivity|]). eapply write_run_halts; eassumption.
Qed.

Lemma cleanup_run_halts eager newSheet source o tr :
  cleanup_run eager newSheet source o tr -> halts o tr.
Proof.
  destruct 1; try halting.
  - eapply finish_run_halts; eassumption.
  - apply halts_cons; [reflexivity|]. eapply finish_run_halts; eassumption.
Qed.

Lemma workflow_run_halts eager o tr : workflow_run eager o tr -> halts o tr.
Proof.
  destruct 1; try halting.
  - repeat (apply halts_cons; [reflexivity|]).
    eapply copy_run_halts; eassumption.
  - repeat (apply halts_cons; [reflexivity|]).
    apply halts_app.
    + eapply halts_ret, copy_run_halts; eassumption.
    + eapply cleanup_run_halts; eassumption.
Qed.

Lemma main_split_halts eager w o tr : main_split eager w o tr -> halts o tr.
Proof.
  intros (o1 & tr1 & w1 & Hc & [(x & -> & -> & ->) | (srv & tr2 & -> & -> & Hw)]).
  - apply connect_halts in Hc.
    destruct Hc as [Hall | (pre & e & f & err & -> & Hpre & E)].
    + left. exact Hall.
    + right. inversion E; subst. exists pre, e, f, err. auto.
  - apply halts_app.
    + eapply halts_ret, connect_halts; eassumption.
    + eapply workflow_run_halts; eassumption.
Qed.

Lemma last_or_inside {A} (pre pre' post : list A) e e' :
  pre ++ e :: post = pre' ++ [e'] ->
  (post = [] /\ e = e') \/ In e pre'.
Proof.
  revert pre'. induction pre as [|a pre IH]; intros [|b pre']; simpl; intros H.
  - inversion H; subst. auto.
  - inversion H; subst. auto.
  - inversion H; subst. destruct pre; discriminate.
  - inversion H; subst. destruct (IH _ H2) as [Hl | Hi]; auto.
Qed.

Lemma halts_spec {A} (o : Out A) tr :
  halts o tr ->
  forall pre e post,
    tr = pre ++ e :: post ->
    failed e = true -> token_read e = false -> result_dropped e = false ->
    post = [] /\ exists format err, o = Abort (Fatal format err).
Proof.
  intros Hh pre e post -> Hf Ht Hd.
  assert (Hbad : harmless e = false).
  { unfold harmless. rewrite Hf, Ht, Hd. reflexivity. }
  clear Hf Ht Hd.
  destruct Hh as [Hall | (pre' & e' & f & err & E & Hpre & ->)].
  - rewrite Forall_forall in Hall.
    rewrite (Hall e) in Hbad; [discriminate|]. apply in_or_app. right. left.
    reflexivity.
  - apply last_or_inside in E. destruct E as [[-> _] | Hin].
    + split; [reflexivity | eauto].
    + rewrite Forall_forall in Hpre. rewrite (Hpre e Hin) in Hbad.
      discriminate.
Qed.

End HaltingRuns.

(** C6, as amended.  In every run of either program, a call that reports an
    error is the last event of the run, and the run ends in [log.Fatal] or
    [log.Fatalf]: nothing is issued after it, and it is not tried again.
    This holds for every call but two kinds: opening and decoding
    token.json, whose failure starts the web authorization, and the calls
    whose result the code does not look at, which are encoding the token
    into token.json, closing a file and printing to the terminal. *)
Theorem fatal_on_first_failure `{Platform} (w : World) pre e post :
  failed e = true -> token_read e = false -> result_dropped e = false ->
  (trace_of (Quickstart.main w) = pre ++ e :: post ->
   post = [] /\
   exists format err, out_of (Quickstart.main w) = Abort (Fatal format err)) /\
  (trace_of (Monolith.main w) = pre ++ e :: post ->
   post = [] /\
   exists format err, out_of (Monolith.main w) = Abort (Fatal format err)).
Proof.
  intros Hf Ht Hd. split.
  - destruct (Quickstart.main w) as [[o tr] w'] eqn:E. simpl. intros Htr.
    eapply halts_spec; eauto.
    eapply main_split_halts, quickstart_runs, E.
  - destruct (Monolith.main w) as [[o tr] w'] eqn:E. simpl. intros Htr.
    eapply halts_spec; eauto.
    eapply main_split_halts, monolith_runs, E.
Qed.

(** The service refuses to create the spreadsheet: the run ends there. *)
Lemma fatal_on_first_failure_witness :
  let e := EvCreate (H := scripted refusedRun) blankSpreadsheet
             (Err "quota exceeded") in
  let pre := [EvReadFile (H := scripted refusedRun) "credentials.json" (Ok "{}");
              EvConfigFromJSON (H := scripted refusedRun) (Ok "{}");
              EvOpen (H := scripted refusedRun) "token.json" (Ok "token.json");
              EvDecode (H := scripted refusedRun) "token.json" "cached token"
                None;
              EvClose (H := scripted refusedRun) "token.json" None;
              EvNewService (H := scripted refusedRun) (Ok tt)] in
  failed e = true /\
  trace_of (@Quickstart.main (scripted refusedRun) 0%nat) = pre ++ [e] /\
  exists format err,
    out_of (@Quickstart.main (scripted refusedRun) 0%nat)
    = Abort (Fatal format err).
Proof.
  intros e pre.
  destruct (fatal_on_first_failure (H := scripted refusedRun) 0%nat pre e []
              eq_refl eq_refl eq_refl) as [Hq _].
  split; [reflexivity|]. split; [reflexivity|].
  apply Hq. reflexivity.
Defined.

(** C6, as stated, fails on a first run: token.json cannot be opened, and
    the run goes on to authorize on the web, to call the service ten times
    and to end normally. *)
Lemma failure_without_abort :
  exists pre e post,
    trace_of (@Quickstart.main (scripted usualRun) 0%nat) = pre ++ e :: post /\
    e = EvOpen "token.json" (Err "no such file") /\
    failed e = true /\
    length (filter is_api post) = 10%nat /\
    out_of (@Quickstart.main (scripted usualRun) 0%nat) = Ret tt.
Proof.
  exists [EvReadFile (H := scripted usualRun) "credentials.json" (Ok "{}");
          EvConfigFromJSON (H := scripted usualRun) (Ok "{}")].
  eexists. eexists.
  split; [vm_compute; reflexivity|].
  repeat split.
Qed.

(** The calls whose result is dropped can all fail without ending the run:
    on a platform where [Printf], [Encode] and [Close] report an error each
    time, a first run completes, with four such failures on its way. *)
Example dropped_errors_do_not_abort :
  let run := @Quickstart.main (withDroppedErrors (scripted usualRun)) 0%nat in
  out_of run = Ret tt /\
  map (@failure (withDroppedErrors (scripted usualRun)))
    (filter (fun e => result_dropped e && failed e) (trace_of run))
  = [Some "broken pipe"; Some "broken pipe"; Some "no space left on device";
     Some "input/output error"] /\
  length (filter is_api (trace_of run)) = 10%nat.
Proof. repeat split. Qed.

(** ** The token cache *)




(** ** The declared errors *)

(** C10.  Whenever [copySpreadsheet], [deleteBlankSheet] or
    [updateCellsYearMonth] returns, the error it returns is nil. *)
Theorem declared_errors_are_nil `{Platform} (srv : Service) (w : World)
  (err : option error) (tr : list Event) (w' : World) :
  (forall sourceSpreadsheet sourceSpreadsheetId destinationSpreadsheetId,
      Quickstart.copySpreadsheet sourceSpreadsheet srv sourceSpreadsheetId
        destinationSpreadsheetId w = (Ret err, tr, w') ->
      err = None) /\
  (forall newSheet destinationSpreadsheetId,
      Quickstart.deleteBlankSheet srv newSheet destinationSpreadsheetId w
      = (Ret err, tr, w') ->
      err = None) /\
  (forall destinationSpreadsheet destinationSpreadsheetId,
      Quickstart.updateCellsYearMonth srv destinationSpreadsheet
        destinationSpreadsheetId w = (Ret err, tr, w') ->
      err = None).
Proof.
  repeat split.
  - intros src srcId dst Hrun. run_step Hrun. reflexivity.
  - intros newSheet dst Hrun. run_step Hrun. reflexivity.
  - intros dest dst Hrun. run_step Hrun. reflexivity.
Qed.

(** The three functions do return: on a template of one sheet, on a
    created spreadsheet with its blank sheet, and on a destination of one
    sheet. *)
Lemma declared_errors_are_nil_witness :
  (exists err tr w',
      @Quickstart.copySpreadsheet (scripted usualRun)
        (mkSpreadsheet "" [mkSheet 1 "A"]) tt "" "new" 0%nat
      = (Ret err, tr, w') /\ err = None) /\
  (exists err tr w',
      @Quickstart.deleteBlankSheet (scripted usualRun) tt
        (mkSpreadsheet "new" [mkSheet 0 "Sheet1"]) "new" 0%nat
      = (Ret err, tr, w') /\ err = None) /\
  (exists err tr w',
      @Quickstart.updateCellsYearMonth (scripted usualRun) tt
        (mkSpreadsheet "new" [mkSheet 101 "A"]) "new" 0%nat
      = (Ret err, tr, w') /\ err = None).
Proof.
  split; [|split]; eexists; eexists; eexists.
  - split; [vm_compute; reflexivity|].
    eapply (proj1 (declared_errors_are_nil (H := scripted usualRun)
                     tt 0%nat _ _ _)
              (mkSpreadsheet "" [mkSheet 1 "A"]) "" "new").
    vm_compute. reflexivity.
  - split; [vm_compute; reflexivity|].
    eapply (proj1 (proj2 (declared_errors_are_nil (H := scripted usualRun)
                            tt 0%nat _ _ _))
              (mkSpreadsheet "new" [mkSheet 0 "Sheet1"]) "new").
    vm_compute. reflexivity.
  - split; [vm_compute; reflexivity|].
    eapply (proj2 (proj2 (declared_errors_are_nil (H := scripted usualRun)
                            tt 0%nat _ _ _))
              (mkSpreadsheet "new" [mkSheet 101 "A"]) "new").
    vm_compute. reflexivity.
Defined.

(** ** Counting the events of each kind *)

Section Census.

Context `{P : Platform}.

Lemma only_absent k (tr : list Event) :
  (forall e, In e tr -> kind e <> k) -> only k tr = [].
Proof.
  induction tr as [|e tr IH]; simpl; intros H; [reflexivity|].
  destruct (Kind_eqb (kind e) k) eqn:E.
  - exfalso. apply (H e); [auto|].
    destruct (kind e), k; simpl in E; try discriminate; reflexivity.
  - apply IH. intros e' He'. apply H. auto.
Qed.

Lemma filter_absent (f : Event -> bool) (tr : list Event) :
  (forall e, In e tr -> f e = false) -> filter f tr = [].
Proof.
  induction tr as [|e tr IH]; simpl; intros H; [reflexivity|].
  rewrite (H e) by auto. apply IH. intros e' He'. apply H. auto.
Qed.

Lemma copy_run_kinds srcId dst sheets o tr :
  copy_run srcId dst sheets o tr ->
  forall e, In e tr -> kind e = KCopy \/ kind e = KRename.
Proof.
  intros Hc e Hin.
  destruct (copy_run_events Hc e Hin)
    as [(p & r & _ & ->) | (p & resp & r & _ & ->)]; auto.
Qed.

Lemma copy_run_only srcId dst sheets o tr k :
  copy_run srcId dst sheets o tr -> k <> KCopy -> k <> KRename ->
  only k tr = [].
Proof.
  intros Hc H1 H2. apply only_absent. intros e Hin.
  destruct (copy_run_kinds Hc e Hin) as [-> | ->]; auto.
Qed.

Lemma copy_run_counts srcId dst sheets tr :
  copy_run srcId dst sheets (Ret tt) tr ->
  length (only KCopy tr) = length sheets /\
  length (only KRename tr) = length sheets /\
  length (batchUpdates tr) = length sheets /\
  length (filter renamed_ok tr) = length sheets /\
  length (filter is_api tr) = (2 * length sheets)%nat.
Proof.
  remember (Ret tt) as o eqn:Eo. induction 1; try discriminate.
  - repeat split.
  - destruct (IHcopy_run Eo) as (H1 & H2 & H3 & H4 & H5).
    simpl. rewrite H1, H2, H3, H4, H5. repeat split; lia.
Qed.

Lemma copy_run_stopped srcId dst sheets x tr :
  copy_run srcId dst sheets (Abort x) tr ->
  (length (filter renamed_ok tr) < length sheets)%nat.
Proof.
  remember (Abort x) as o eqn:Eo. induction 1; try discriminate; simpl;
    try lia.
  specialize (IHcopy_run Eo). lia.
Qed.

Lemma write_run_complete dst now sheets tr :
  write_run dst now sheets (Ret tt) tr ->
  exists titles,
    sheets = map aSheet titles /\
    tr = map (fun props => writeEvent dst now (Title props) (Ok tt)) titles.
Proof.
  remember (Ret tt) as o eqn:Eo. induction 1; try discriminate.
  - exists []. auto.
  - destruct (IHwrite_run Eo) as (titles & -> & ->).
    exists (props :: titles). auto.
Qed.

Lemma write_run_only dst now sheets o tr k :
  write_run dst now sheets o tr -> k <> KValues -> only k tr = [].
Proof.
  intros Hw Hk. apply only_absent. intros e Hin.
  destruct (write_run_events Hw e Hin) as (p & r & _ & ->). simpl. auto.
Qed.

Lemma write_run_values dst now sheets o tr :
  write_run dst now sheets o tr -> only KValues tr = tr.
Proof. induction 1; simpl; try reflexivity. now rewrite IHwrite_run. Qed.

Lemma write_run_api dst now sheets o tr :
  write_run dst now sheets o tr -> filter is_api tr = tr.
Proof. induction 1; simpl; try reflexivity. now rewrite IHwrite_run. Qed.

Lemma write_run_no_batch dst now sheets o tr :
  write_run dst now sheets o tr ->
  batchUpdates tr = [] /\ filter renamed_ok tr = [].
Proof. induction 1; simpl; auto. Qed.

End Census.

(** ** Deleting the blank sheet *)

Lemma filter_cons_yes {A} (f : A -> bool) e tr :
  f e = true -> filter f (e :: tr) = e :: filter f tr.
Proof. intros H; simpl; now rewrite H. Qed.

Lemma filter_cons_no {A} (f : A -> bool) e tr :
  f e = false -> filter f (e :: tr) = filter f tr.
Proof. intros H; simpl; now rewrite H. Qed.

(** Filters are pushed through the events that are known. *)
Ltac census :=
  unfold only, batchUpdates in *;
  repeat first
    [ rewrite filter_app
    | rewrite filter_cons_yes by reflexivity
    | rewrite filter_cons_no by reflexivity
    | progress change (filter ?f (@nil ?A)) with (@nil A) ].

Section BlankSheet.

Context `{P : Platform}.

Lemma main_split_parts eager w o tr :
  main_split eager w o tr ->
  exists tr1 tr2,
    tr = tr1 ++ tr2 /\
    (forall e, In e tr1 -> kind e = KLocal) /\
    (workflow_run eager o tr2 \/ (tr2 = [] /\ exists x, o = Abort x)).
Proof.
  intros (o1 & tr1 & w1 & Hc & [(x & -> & -> & ->) | (srv & tr2 & -> & -> & Hw)]).
  - exists tr1, []. rewrite app_nil_r. repeat split.
    + eapply connect_local; eassumption.
    + right. eauto.
  - exists tr1, tr2. repeat split.
    + eapply connect_local; eassumption.
    + left. exact Hw.
Qed.

Lemma local_only k (tr : list Event) :
  (forall e, In e tr -> kind e = KLocal) -> k <> KLocal -> only k tr = [].
Proof.
  intros H Hk. apply only_absent. intros e Hin. rewrite (H e Hin). auto.
Qed.

Lemma local_filters (tr : list Event) :
  (forall e, In e tr -> kind e = KLocal) ->
  batchUpdates tr = [] /\ filter renamed_ok tr = [] /\ filter is_api tr = [].
Proof.
  intros H. repeat split; apply filter_absent; intros e Hin;
    specialize (H e Hin); destruct e; try reflexivity; try discriminate.
  all: match goal with
       | H : kind (EvBatchUpdate ?id ?rb ?r) = _ |- _ =>
           destruct (batch_kind id rb r) as [E | [E | E]];
           rewrite E in H; discriminate
       end.
Qed.

Lemma finish_run_no_batch dst o tr :
  finish_run dst o tr ->
  only KDelete tr = [] /\ batchUpdates tr = [] /\ filter renamed_ok tr = [].
Proof.
  destruct 1 as [e | dest now o tr Hw].
  - repeat split.
  - pose proof (write_run_no_batch Hw) as [Hb Hr].
    pose proof (write_run_only (k := KDelete) Hw) as Hd.
    census. rewrite Hb, Hr, Hd by discriminate. repeat split.
Qed.

Lemma copy_run_nothing srcId dst o tr :
  copy_run srcId dst [] o tr -> tr = [].
Proof. inversion 1; reflexivity. Qed.

Lemma not_nilSheet props : ~ nilSheet (aSheet props).
Proof. intros [H | H]; discriminate. Qed.

Lemma blank_panic_absurd newSheet k props rest :
  blank_panic newSheet k -> Sheets newSheet = aSheet props :: rest -> False.
Proof.
  destruct k; simpl.
  - intros -> ?. discriminate.
  - intros (sheet & rest' & -> & Hn) E. inversion E; subst.
    exact (not_nilSheet Hn).
Qed.

Lemma workflow_deletes eager o tr :
  workflow_run eager o tr -> deletes_blank_after_copies o tr.
Proof.
  intros Hw ns src (Hc & Hg & Hn).
  destruct Hw as [f e | ns' e | ns' src' x t Hcopy | ns' src' t o t' Hcopy Hclean].
  - discriminate Hc.
  - discriminate Hg.
  - exfalso. pose proof (copy_run_stopped Hcopy) as Hlt.
    pose proof (copy_run_only (k := KGet) Hcopy) as Hget.
    census. simpl in Hg. inversion Hg; subst. simpl in Hn. lia.
  - pose proof (copy_run_only (k := KDelete) Hcopy) as Hd.
    census. simpl in Hc, Hg. inversion Hc; inversion Hg; subst. clear Hc Hg.
    rewrite Hd by discriminate. simpl. clear Hd Hn. split.
    + intros Hs. rewrite Hs in Hcopy.
      rewrite (copy_run_nothing Hcopy). simpl.
      destruct Hclean as [k Hk He | o t' Hs' He Hf | p rest f e Hs' Hb
                         | p rest o t' Hs' Hb Hf];
        try contradiction.
      * split; reflexivity.
      * destruct (finish_run_no_batch Hf) as (H1 & H2 & _). auto.
    + intros Hs props rest Hns.
      destruct Hclean as [k Hk He | o t' Hs' He Hf | p rest' f e Hs' Hb
                         | p rest' o t' Hs' Hb Hf];
        try contradiction.
      * exfalso. eapply blank_panic_absurd; eassumption.
      * rewrite Hns in Hb. inversion Hb; subst.
        exists (Err e). split; [reflexivity | discriminate].
      * rewrite Hns in Hb. inversion Hb; subst.
        destruct (finish_run_no_batch Hf) as (H1 & _ & _).
        exists (Ok tt). census. rewrite H1. split; reflexivity.
Qed.

Lemma main_split_deletes eager w o tr :
  main_split eager w o tr -> deletes_blank_after_copies o tr.
Proof.
  intros Hs. destruct (main_split_parts Hs) as (tr1 & tr2 & -> & Hl & Hw).
  pose proof (local_only (k := KCreate) _ Hl) as L1.
  pose proof (local_only (k := KGet) _ Hl) as L2.
  pose proof (local_only (k := KDelete) _ Hl) as L3.
  destruct (local_filters _ Hl) as (L4 & L5 & _).
  intros ns src (Hc & Hg & Hn).
  unfold only, batchUpdates in *.
  rewrite filter_app in Hc, Hg, Hn. rewrite !filter_app.
  rewrite L1 in Hc by discriminate. rewrite L2 in Hg by discriminate.
  rewrite L3 by discriminate. rewrite L4. rewrite L5 in Hn. simpl in *.
  destruct Hw as [Hw | [-> _]]; [|discriminate Hc].
  apply (workflow_deletes Hw). repeat split; assumption.
Qed.

End BlankSheet.

(** C2, as amended.  In every run of either program in which the copy phase
    is done: when the source has no sheets, no sheet is deleted (no
    batch-update is issued at all); when the source has sheets, and the
    created spreadsheet has a first sheet, the deletion of that first sheet
    is the one deletion requested, and the run completes only if it
    succeeded. *)
Theorem blank_sheet_deleted_when_copied `{Platform} (w : World) :
  deletes_blank_after_copies
    (out_of (Quickstart.main w)) (trace_of (Quickstart.main w)) /\
  deletes_blank_after_copies
    (out_of (Monolith.main w)) (trace_of (Monolith.main w)).
Proof.
  split.
  - destruct (Quickstart.main w) as [[o tr] w'] eqn:E.
    eapply main_split_deletes, quickstart_runs, E.
  - destruct (Monolith.main w) as [[o tr] w'] eqn:E.
    eapply main_split_deletes, monolith_runs, E.
Qed.

(** The template has two sheets: the blank sheet is deleted. *)
Lemma blank_sheet_deleted_when_copied_witness :
  let tr := trace_of (@Quickstart.main (scripted usualRun) 0%nat) in
  let newSheet := mkSpreadsheet "new" [mkSheet 0 "Sheet1"] in
  let source := mkSpreadsheet "" [mkSheet 1 "A"; mkSheet 2 "B"] in
  copy_phase_done tr newSheet source /\
  exists r,
    only KDelete tr
    = [EvBatchUpdate (H := scripted usualRun) "new" (deleteRequest 0) r] /\
    (out_of (@Quickstart.main (scripted usualRun) 0%nat) = Ret tt ->
     r = Ok tt).
Proof.
  intros tr newSheet source.
  assert (Hdone : copy_phase_done tr newSheet source).
  { repeat split. }
  split; [exact Hdone|].
  refine (proj2 (proj1 (blank_sheet_deleted_when_copied
                          (H := scripted usualRun) 0%nat)
                   newSheet source Hdone)
            _ {| SheetId := 0; Title := "Sheet1" |} [] eq_refl).
  discriminate.
Defined.

(** C2, as stated, fails on a template without sheets: the run completes,
    the created spreadsheet has its blank sheet 0, and no batch-update is
    issued, so the blank sheet is not deleted. *)
Lemma blank_sheet_kept_on_empty_template :
  let run := @Quickstart.main (scripted emptyTemplateRun) 0%nat in
  out_of run = Ret tt /\
  copy_phase_done (trace_of run)
    (mkSpreadsheet "new" [mkSheet 0 "Sheet1"]) (mkSpreadsheet "" []) /\
  batchUpdates (trace_of run) = [] /\
  forall r,
    ~ In (EvBatchUpdate (H := scripted emptyTemplateRun) "new"
            (deleteRequest 0) r)
        (trace_of run).
Proof.
  repeat split.
  intros r Hin. vm_compute in Hin.
  repeat (destruct Hin as [Hin | Hin]; [discriminate Hin|]). exact Hin.
Qed.

(** ** Runs that reach the write loop *)

Section ReachedWrites.

Context `{P : Platform}.

Lemma finish_values dst o tr :
  finish_run dst o tr ->
  o = Ret tt \/ (exists e, In e tr /\ kind e = KValues) ->
  exists dest now writes,
    tr = EvGet dst (Ok dest) :: EvNow now :: writes /\
    write_run dst now (Sheets dest) o writes.
Proof.
  destruct 1 as [e | dest now o tr Hw]; intros Hr.
  - exfalso. destruct Hr as [Hr | (ev & [<- | []] & Hk)]; discriminate.
  - eauto.
Qed.

Lemma cleanup_values eager newSheet source o tr :
  cleanup_run eager newSheet source o tr ->
  o = Ret tt \/ (exists e, In e tr /\ kind e = KValues) ->
  exists deletion dest now writes,
    tr = deletion
         ++ EvGet (SpreadsheetId newSheet) (Ok dest) :: EvNow now :: writes /\
    delete_part newSheet source deletion /\
    write_run (SpreadsheetId newSheet) now (Sheets dest) o writes.
Proof.
  destruct 1 as [k Hk He | o t' Hs' He Hf | p rest f e Hs' Hb
                | p rest o t' Hs' Hb Hf]; intros Hr.
  - exfalso. destruct Hr as [Hr | (ev & [] & _)]. discriminate.
  - destruct (finish_values Hf Hr) as (dest & now & writes & -> & Hw).
    exists [], dest, now, writes. repeat split; auto. left. auto.
  - exfalso. destruct Hr as [Hr | (ev & [<- | []] & Hk)]; discriminate.
  - assert (Hr' : o = Ret tt \/ exists e, In e t' /\ kind e = KValues).
    { destruct Hr as [Hr | (ev & [<- | Hin] & Hk)]; auto; [discriminate|].
      right. eauto. }
    destruct (finish_values Hf Hr') as (dest & now & writes & -> & Hw).
    eexists [_], dest, now, writes. repeat split; auto.
    right. split; [exact Hs'|]. eauto.
Qed.

Lemma workflow_values eager o tr :
  workflow_run eager o tr ->
  o = Ret tt \/ (exists e, In e tr /\ kind e = KValues) ->
  reached_writes o tr.
Proof.
  destruct 1 as [f e | ns e | ns src x t Hcopy | ns src t o t' Hcopy Hclean];
    intros Hr.
  - exfalso. destruct Hr as [Hr | (ev & [<- | []] & Hk)]; discriminate.
  - exfalso. destruct Hr as [Hr | (ev & [<- | [<- | []]] & Hk)]; discriminate.
  - exfalso. destruct Hr as [Hr | (ev & [<- | [<- | Hin]] & Hk)];
      try discriminate.
    destruct (copy_run_kinds Hcopy ev Hin) as [E | E]; rewrite E in Hk;
      discriminate.
  - assert (Hr' : o = Ret tt \/ exists e, In e t' /\ kind e = KValues).
    { destruct Hr as [Hr | (ev & [<- | [<- | Hin]] & Hk)]; auto;
        try discriminate.
      apply in_app_or in Hin. destruct Hin as [Hin | Hin]; [|right; eauto].
      destruct (copy_run_kinds Hcopy ev Hin) as [E | E]; rewrite E in Hk;
        discriminate. }
    destruct (cleanup_values Hclean Hr')
      as (deletion & dest & now & writes & -> & Hd & Hw).
    exists ns, src, t, deletion, dest, now, writes. auto.
Qed.

End ReachedWrites.

Section ReachedCensus.

Context `{P : Platform}.

Lemma delete_part_census newSheet source deletion :
  delete_part newSheet source deletion ->
  only KCreate deletion = [] /\ only KGet deletion = [] /\
  only KCopy deletion = [] /\ only KValues deletion = [] /\
  length (batchUpdates deletion) = match Sheets source with
                                   | [] => 0 | _ :: _ => 1 end%nat /\
  filter is_api deletion = deletion /\
  length deletion = match Sheets source with [] => 0 | _ :: _ => 1 end%nat /\
  forall e, In e deletion -> kind e = KDelete.
Proof.
  intros [[-> ->] | (Hs & p & rest & _ & ->)].
  - repeat split. intros e [].
  - destruct (Sheets source); [contradiction|].
    repeat split. intros e [<- | []]. reflexivity.
Qed.

Lemma write_run_length dst now sheets tr :
  write_run dst now sheets (Ret tt) tr -> length tr = length sheets.
Proof.
  intros Hw. destruct (write_run_complete Hw) as (titles & -> & ->).
  now rewrite !length_map.
Qed.

(** The census of a workflow that reached the write loop. *)
Lemma reached_census o tr newSheet source copies deletion dest now writes :
  tr = EvCreate blankSpreadsheet (Ok newSheet)
       :: EvGet "" (Ok source)
       :: copies ++ deletion
          ++ EvGet (SpreadsheetId newSheet) (Ok dest)
             :: EvNow now :: writes ->
  copy_run "" (SpreadsheetId newSheet) (Sheets source) (Ret tt) copies ->
  delete_part newSheet source deletion ->
  write_run (SpreadsheetId newSheet) now (Sheets dest) o writes ->
  only KCreate tr = [EvCreate blankSpreadsheet (Ok newSheet)] /\
  only KGet tr
  = [EvGet "" (Ok source); EvGet (SpreadsheetId newSheet) (Ok dest)] /\
  length (only KCopy tr) = length (Sheets source) /\
  length (batchUpdates tr) = batchUpdatesFor source /\
  only KValues tr = writes /\
  length (filter is_api tr)
  = (3 + length (Sheets source) + batchUpdatesFor source + length writes)%nat.
Proof.
  intros -> Hc Hd Hw.
  pose proof (copy_run_only (k := KCreate) Hc) as C1.
  pose proof (copy_run_only (k := KGet) Hc) as C2.
  pose proof (copy_run_only (k := KValues) Hc) as C3.
  destruct (copy_run_counts Hc) as (C4 & _ & C5 & _ & C6).
  destruct (delete_part_census Hd) as (D1 & D2 & D3 & D4 & D5 & D6 & D7 & _).
  pose proof (write_run_only (k := KCreate) Hw) as W1.
  pose proof (write_run_only (k := KGet) Hw) as W2.
  pose proof (write_run_only (k := KCopy) Hw) as W3.
  pose proof (write_run_values Hw) as W4.
  pose proof (write_run_api Hw) as W5.
  destruct (write_run_no_batch Hw) as [W6 _].
  unfold batchUpdatesFor. census.
  rewrite C1, C2, C3 by discriminate.
  rewrite D1, D2, D3, D4, D6. rewrite W1, W2, W3 by discriminate.
  rewrite W4, W5, W6. simpl. rewrite !length_app. simpl.
  rewrite C4, C5, C6, D5, D7. simpl.
  repeat split; lia.
Qed.

End ReachedCensus.

(** ** The numbers of calls, and the writes *)

Section Calls.

Context `{P : Platform}.

Lemma main_split_reached eager w o tr :
  main_split eager w o tr ->
  o = Ret tt \/ (exists e, In e tr /\ kind e = KValues) ->
  exists tr1 tr2,
    tr = tr1 ++ tr2 /\
    (forall e, In e tr1 -> kind e = KLocal) /\
    reached_writes o tr2.
Proof.
  intros Hs Hr.
  destruct (main_split_parts Hs) as (tr1 & tr2 & -> & Hl & Hw).
  exists tr1, tr2. split; [reflexivity|]. split; [exact Hl|].
  destruct Hw as [Hw | (-> & x & ->)].
  - apply (workflow_values Hw).
    destruct Hr as [Hr | (e & Hin & Hk)]; [auto|]. right. exists e.
    split; [|exact Hk]. apply in_app_or in Hin.
    destruct Hin as [Hin | Hin]; [|exact Hin].
    rewrite (Hl e Hin) in Hk. discriminate.
  - exfalso. destruct Hr as [Hr | (e & Hin & Hk)]; [discriminate|].
    rewrite app_nil_r in Hin. rewrite (Hl e Hin) in Hk. discriminate.
Qed.

Lemma main_split_calls eager w o tr :
  main_split eager w o tr -> endpoint_calls o tr.
Proof.
  intros Hs Ho.
  destruct (main_split_reached Hs (or_introl Ho))
    as (tr1 & tr2 & -> & Hl & Hr).
  destruct Hr as (ns & src & copies & deletion & dest & now & writes
                  & E & Hc & Hd & Hw).
  destruct (@reached_census _ _ _ _ _ _ _ _ _ _ E Hc Hd Hw) as (R1 & R2 & R3 & R4 & R5 & R6).
  pose proof (local_only (k := KCreate) _ Hl) as L1.
  pose proof (local_only (k := KGet) _ Hl) as L2.
  pose proof (local_only (k := KCopy) _ Hl) as L3.
  pose proof (local_only (k := KValues) _ Hl) as L4.
  destruct (local_filters _ Hl) as (L5 & _ & L6).
  subst o. pose proof (write_run_length Hw) as Hlen.
  exists ns, src, dest.
  unfold only, batchUpdates in *. rewrite !filter_app.
  rewrite L1, L2, L3, L4 by discriminate. rewrite L5, L6. simpl.
  rewrite R1, R2, R3, R4, R5, R6, Hlen. repeat split.
Qed.

Lemma main_split_writes eager w o tr :
  main_split eager w o tr -> writes_every_sheet o tr.
Proof.
  intros Hs. split.
  - intros id range vr opt r Hin.
    assert (Hv : o = Ret tt \/ exists e, In e tr /\ kind e = KValues).
    { right. eexists. split; [exact Hin | reflexivity]. }
    destruct (main_split_reached Hs Hv) as (tr1 & tr2 & -> & Hl & Hr).
    destruct Hr as (ns & src & copies & deletion & dest & now & writes
                    & E & Hc & Hd & Hw).
    destruct (@reached_census _ _ _ _ _ _ _ _ _ _ E Hc Hd Hw) as (R1 & R2 & _).
    pose proof (local_only (k := KCreate) _ Hl) as L1.
    pose proof (local_only (k := KGet) _ Hl) as L2.
    assert (Hin' : In (EvValuesUpdate id range vr opt r) writes).
    { apply in_app_or in Hin. destruct Hin as [Hin | Hin].
      { specialize (Hl _ Hin). discriminate. }
      subst tr2. simpl in Hin.
      destruct Hin as [Hin | [Hin | Hin]]; try discriminate.
      apply in_app_or in Hin. destruct Hin as [Hin | Hin].
      { destruct (copy_run_kinds Hc _ Hin); discriminate. }
      apply in_app_or in Hin. destruct Hin as [Hin | Hin].
      { destruct (delete_part_census Hd) as (_ & _ & _ & _ & _ & _ & _ & Hk).
        specialize (Hk _ Hin). discriminate. }
      simpl in Hin. destruct Hin as [Hin | [Hin | Hin]]; try discriminate.
      exact Hin. }
    destruct (write_run_events Hw _ Hin') as (props & r' & Hp & Ee).
    unfold writeEvent, yearMonthRange in Ee. simpl in Ee.
    inversion Ee; subst id range vr opt r'.
    exists ns, src, dest, now, props.
    unfold only in *. rewrite !filter_app.
    rewrite L1, L2 by discriminate. simpl. rewrite R1, R2.
    repeat split; try assumption.
    apply in_or_app. right. rewrite E. simpl. right. right.
    apply in_or_app. right. apply in_or_app. right. simpl. auto.
  - intros Ho.
    destruct (main_split_reached Hs (or_introl Ho))
      as (tr1 & tr2 & -> & Hl & Hr).
    destruct Hr as (ns & src & copies & deletion & dest & now & writes
                    & E & Hc & Hd & Hw).
    destruct (@reached_census _ _ _ _ _ _ _ _ _ _ E Hc Hd Hw) as (_ & R2 & _ & _ & R5 & _).
    pose proof (local_only (k := KGet) _ Hl) as L2.
    pose proof (local_only (k := KValues) _ Hl) as L4.
    subst o. destruct (write_run_complete Hw) as (sheets & Hsh & Hwr).
    exists ns, src, dest, now, sheets.
    unfold only in *. rewrite !filter_app.
    rewrite L2, L4 by discriminate. simpl. rewrite R2, R5.
    repeat split; try assumption.
    apply in_or_app. right. rewrite E. simpl. right. right.
    apply in_or_app. right. apply in_or_app. right. simpl. auto.
Qed.

End Calls.

(** C4, as amended.  A run of either program that completes has called the
    five endpoints this many times: create once; get twice, for the source
    and then for the destination; copy-sheet once for each source sheet;
    batch-update once for each source sheet, and once more when there is a
    source sheet; update-values once for each sheet of the destination as
    fetched. *)
Theorem calls_follow_sheet_counts `{Platform} (w : World) :
  endpoint_calls (out_of (Quickstart.main w)) (trace_of (Quickstart.main w))
  /\ endpoint_calls (out_of (Monolith.main w)) (trace_of (Monolith.main w)).
Proof.
  split.
  - destruct (Quickstart.main w) as [[o tr] w'] eqn:E.
    eapply main_split_calls, quickstart_runs, E.
  - destruct (Monolith.main w) as [[o tr] w'] eqn:E.
    eapply main_split_calls, monolith_runs, E.
Qed.

(** C1, as amended.  In every run of either program, every update-values
    request goes to a sheet of the destination as fetched, and writes the
    year into A1 and the month into A3 of that sheet, with A2 empty; a run
    that completes has sent one such request for every sheet of the
    destination, in order, and no other. *)
Theorem year_month_written_to_every_sheet `{Platform} (w : World) :
  writes_every_sheet (out_of (Quickstart.main w))
    (trace_of (Quickstart.main w)) /\
  writes_every_sheet (out_of (Monolith.main w)) (trace_of (Monolith.main w)).
Proof.
  split.
  - destruct (Quickstart.main w) as [[o tr] w'] eqn:E.
    eapply main_split_writes, quickstart_runs, E.
  - destruct (Monolith.main w) as [[o tr] w'] eqn:E.
    eapply main_split_writes, monolith_runs, E.
Qed.

(** A template of two sheets: ten calls. *)
Lemma calls_follow_sheet_counts_witness :
  let run := @Quickstart.main (scripted usualRun) 0%nat in
  out_of run = Ret tt /\
  exists newSheet source dest,
    only KCreate (trace_of run) = [EvCreate blankSpreadsheet (Ok newSheet)] /\
    only KGet (trace_of run)
    = [EvGet "" (Ok source); EvGet (SpreadsheetId newSheet) (Ok dest)] /\
    length (only KCopy (trace_of run)) = length (Sheets source) /\
    length (batchUpdates (trace_of run)) = batchUpdatesFor source /\
    length (only KValues (trace_of run)) = length (Sheets dest) /\
    length (filter is_api (trace_of run))
    = (3 + length (Sheets source) + batchUpdatesFor source
       + length (Sheets dest))%nat.
Proof.
  split; [reflexivity|].
  exact (proj1 (calls_follow_sheet_counts (H := scripted usualRun) 0%nat)
           eq_refl).
Defined.

(** C4, as stated, fails on a template of two sheets: the run completes
    after ten calls, two of them to get, two to copy-sheet, three to
    batch-update and two to update-values. *)
Lemma ten_calls_for_two_sheets :
  let run := @Quickstart.main (scripted usualRun) 0%nat in
  out_of run = Ret tt /\
  length (filter is_api (trace_of run)) = 10%nat /\
  length (filter is_api (trace_of run)) <> 5%nat /\
  length (only KCreate (trace_of run)) = 1%nat /\
  length (only KGet (trace_of run)) = 2%nat /\
  length (only KCopy (trace_of run)) = 2%nat /\
  length (batchUpdates (trace_of run)) = 3%nat /\
  length (only KValues (trace_of run)) = 2%nat.
Proof. repeat split. discriminate. Qed.

(** The write to the second sheet of the destination. *)
Lemma year_month_written_to_every_sheet_witness :
  let run := @Quickstart.main (scripted usualRun) 0%nat in
  let vr := {| Range := "B!A1:A3"; Values := [[2026%Z]; []; [10%Z]];
               MajorDimension := "ROWS" |} in
  In (EvValuesUpdate (H := scripted usualRun) "new" "B!A1:A3" vr "RAW" (Ok tt))
    (trace_of run) /\
  exists newSheet source dest now props,
    only KCreate (trace_of run) = [EvCreate blankSpreadsheet (Ok newSheet)] /\
    "new" = SpreadsheetId newSheet /\
    only KGet (trace_of run) = [EvGet "" (Ok source); EvGet "new" (Ok dest)] /\
    In (EvNow now) (trace_of run) /\
    In (aSheet props) (Sheets dest) /\
    "B!A1:A3" = (Title props ++ "!A1:A3")%string /\
    vr = {| Range := (Title props ++ "!A1:A3")%string;
            Values := [[Year now]; []; [Month now]];
            MajorDimension := "ROWS" |} /\
    "RAW" = "RAW".
Proof.
  intros run vr.
  assert (Hin : In (EvValuesUpdate (H := scripted usualRun) "new" "B!A1:A3"
                      vr "RAW" (Ok tt)) (trace_of run)).
  { vm_compute. repeat first [left; reflexivity | right]. }
  split; [exact Hin|].
  exact (proj1 (proj1 (year_month_written_to_every_sheet
                         (H := scripted usualRun) 0%nat))
           _ _ _ _ _ Hin).
Defined.

(** C1, as stated, fails when the destination has two sheets: the first
    sheet is "A", and a second request writes the year and the month into
    sheet "B". *)
Lemma second_sheet_written_too :
  let run := @Quickstart.main (scripted usualRun) 0%nat in
  out_of run = Ret tt /\
  In (EvGet (H := scripted usualRun) "new"
        (Ok (mkSpreadsheet "new" [mkSheet 101 "A"; mkSheet 102 "B"])))
    (trace_of run) /\
  only KValues (trace_of run)
  = [EvValuesUpdate (H := scripted usualRun) "new" "A!A1:A3"
       {| Range := "A!A1:A3"; Values := [[2026%Z]; []; [10%Z]];
          MajorDimension := "ROWS" |} "RAW" (Ok tt);
     EvValuesUpdate (H := scripted usualRun) "new" "B!A1:A3"
       {| Range := "B!A1:A3"; Values := [[2026%Z]; []; [10%Z]];
          MajorDimension := "ROWS" |} "RAW" (Ok tt)].
Proof.
  repeat split. vm_compute. repeat first [left; reflexivity | right].
Qed.

(** ** The index into the sheets of the created spreadsheet *)

Section IndexPanic.

Context `{P : Platform}.

Lemma connect_no_panic w k tr w' : connect w <> (Abort (Panic k), tr, w').
Proof.
  unfold connect, getClient, tokenFromFile, getTokenFromWeb, saveToken.
  intros H. run_step H.
Qed.

Lemma copy_run_no_index srcId dst sheets o tr :
  copy_run srcId dst sheets o tr -> ~ index_panic o.
Proof. unfold index_panic. induction 1; auto; discriminate. Qed.

Lemma write_run_no_index dst now sheets o tr :
  write_run dst now sheets o tr -> ~ index_panic o.
Proof. unfold index_panic. induction 1; auto; discriminate. Qed.

Lemma finish_run_no_index dst o tr : finish_run dst o tr -> ~ index_panic o.
Proof.
  destruct 1; [unfold index_panic; discriminate|].
  eapply write_run_no_index; eassumption.
Qed.

Lemma cleanup_run_index eager newSheet source o tr :
  cleanup_run eager newSheet source o tr ->
  index_panic o -> Sheets newSheet = [].
Proof.
  unfold index_panic.
  destruct 1 as [k Hk He | o t' Hs' He Hf | p rest f e Hs' Hb
                | p rest o t' Hs' Hb Hf]; intros Ho; try discriminate.
  - inversion Ho; subst. exact Hk.
  - exfalso. eapply finish_run_no_index; eassumption.
  - exfalso. eapply finish_run_no_index; eassumption.
Qed.

Lemma workflow_index eager o tr :
  workflow_run eager o tr -> index_panic_only_without_sheets o tr.
Proof.
  destruct 1 as [f e | ns e | ns src x t Hcopy | ns src t o t' Hcopy Hclean];
    intros Ho; try discriminate.
  - exfalso. eapply copy_run_no_index; eassumption.
  - exists ns. split; [left; reflexivity|].
    eapply cleanup_run_index; eassumption.
Qed.

Lemma main_split_index eager w o tr :
  main_split eager w o tr -> index_panic_only_without_sheets o tr.
Proof.
  intros (o1 & tr1 & w1 & Hc & [(x & -> & -> & ->) | (srv & tr2 & -> & -> & Hw)])
    Ho.
  - exfalso. inversion Ho; subst. eapply connect_no_panic, Hc.
  - destruct (workflow_index Hw Ho) as (ns & Hin & Hs).
    exists ns. split; [apply in_or_app; right; exact Hin | exact Hs].
Qed.

(** With the index read before the test on the source sheets, a created
    spreadsheet without sheets stops every run that is done copying. *)
Lemma eager_workflow_index o tr newSheet source :
  workflow_run true o tr ->
  copy_phase_done tr newSheet source ->
  Sheets newSheet = [] -> index_panic o.
Proof.
  intros Hw (Hc & Hg & Hn) Hs.
  destruct Hw as [f e | ns' e | ns' src' x t Hcopy | ns' src' t o t' Hcopy Hclean].
  - discriminate Hc.
  - discriminate Hg.
  - exfalso. pose proof (copy_run_stopped Hcopy) as Hlt.
    pose proof (copy_run_only (k := KGet) Hcopy) as Hget.
    census. simpl in Hg. inversion Hg; subst. simpl in Hn. lia.
  - census. simpl in Hc. inversion Hc; subst ns'. clear Hc Hg Hn.
    destruct Hclean as [k Hk He | o t' Hs' He Hf | p rest f e Hs' Hb
                       | p rest o t' Hs' Hb Hf].
    + destruct k; [reflexivity|]. exfalso.
      destruct Hk as (sheet & rest & E & _). rewrite Hs in E. discriminate.
    + exfalso. destruct He as [He | (p & rest & E)]; [discriminate|].
      rewrite Hs in E. discriminate.
    + exfalso. rewrite Hs in Hb. discriminate.
    + exfalso. rewrite Hs in Hb. discriminate.
Qed.

Lemma monolith_index w newSheet source :
  copy_phase_done (trace_of (Monolith.main w)) newSheet source ->
  Sheets newSheet = [] ->
  index_panic (out_of (Monolith.main w)).
Proof.
  destruct (Monolith.main w) as [[o tr] w'] eqn:E.
  unfold trace_of, out_of. simpl.
  intros (Hc & Hg & Hn) Hs.
  apply monolith_runs in E.
  destruct (main_split_parts E) as (tr1 & tr2 & -> & Hl & Hw).
  pose proof (local_only (k := KCreate) _ Hl) as L1.
  pose proof (local_only (k := KGet) _ Hl) as L2.
  destruct (local_filters _ Hl) as (_ & L5 & _).
  unfold only in *. rewrite filter_app in Hc, Hg, Hn.
  rewrite L1 in Hc by discriminate. rewrite L2 in Hg by discriminate.
  rewrite L5 in Hn. simpl in *.
  destruct Hw as [Hw | [-> _]]; [|discriminate Hc].
  eapply eager_workflow_index; [exact Hw | | exact Hs].
  repeat split; eassumption.
Qed.

End IndexPanic.

(** C9.  [deleteBlankSheet] reads [newSheet.Sheets[0]] without a test on
    the length: on a created spreadsheet without sheets it panics with an
    index out of range, before any request; on one with a sheet it never
    does.  The monolithic program reads the same element after the copy
    loop, whatever the source: a created spreadsheet without sheets stops
    it there.  In both programs an index panic happens only when the
    created spreadsheet has no sheets. *)
Theorem first_sheet_read_unchecked `{Platform} (srv : Service)
  (newSheet : Spreadsheet) (destinationSpreadsheetId : string) (w : World) :
  (Sheets newSheet = [] ->
   Quickstart.deleteBlankSheet srv newSheet destinationSpreadsheetId w
   = (Abort (Panic IndexOutOfRange), [], w)) /\
  (Sheets newSheet <> [] ->
   ~ index_panic
       (out_of (Quickstart.deleteBlankSheet srv newSheet
                  destinationSpreadsheetId w))) /\
  (forall source,
      copy_phase_done (trace_of (Monolith.main w)) newSheet source ->
      Sheets newSheet = [] ->
      index_panic (out_of (Monolith.main w))) /\
  index_panic_only_without_sheets
    (out_of (Monolith.main w)) (trace_of (Monolith.main w)) /\
  index_panic_only_without_sheets
    (out_of (Quickstart.main w)) (trace_of (Quickstart.main w)).
Proof.
  split; [|split; [|split; [|split]]].
  - intros Hs. unfold Quickstart.deleteBlankSheet, bind, index.
    rewrite Hs. reflexivity.
  - intros Hs Hp.
    destruct (Quickstart.deleteBlankSheet srv newSheet
                destinationSpreadsheetId w) as [[o tr] w'] eqn:E.
    unfold index_panic, out_of in Hp. simpl in Hp. subst o.
    run_step E; list_facts; auto.
  - intros source. apply monolith_index.
  - destruct (Monolith.main w) as [[o tr] w'] eqn:E.
    eapply main_split_index, monolith_runs, E.
  - destruct (Quickstart.main w) as [[o tr] w'] eqn:E.
    eapply main_split_index, quickstart_runs, E.
Qed.

(** A created spreadsheet without sheets, and one with its blank sheet. *)
Lemma first_sheet_read_unchecked_witness :
  @Quickstart.deleteBlankSheet (scripted noSheetsRun) tt
    (mkSpreadsheet "new" []) "new" 0%nat
  = (Abort (Panic IndexOutOfRange), [], 0%nat) /\
  ~ index_panic
      (out_of (@Quickstart.deleteBlankSheet (scripted usualRun) tt
                 (mkSpreadsheet "new" [mkSheet 0 "Sheet1"]) "new" 0%nat)) /\
  copy_phase_done (trace_of (@Monolith.main (scripted noSheetsRun) 0%nat))
    (mkSpreadsheet "new" []) (mkSpreadsheet "" []) /\
  index_panic (out_of (@Monolith.main (scripted noSheetsRun) 0%nat)).
Proof.
  split; [|split; [|split]].
  - exact (proj1 (first_sheet_read_unchecked (H := scripted noSheetsRun) tt
                    (mkSpreadsheet "new" []) "new" 0%nat) eq_refl).
  - apply (proj1 (proj2 (first_sheet_read_unchecked (H := scripted usualRun)
                           tt (mkSpreadsheet "new" [mkSheet 0 "Sheet1"])
                           "new" 0%nat))).
    discriminate.
  - repeat split.
  - apply (proj1 (proj2 (proj2
             (first_sheet_read_unchecked (H := scripted noSheetsRun) tt
                (mkSpreadsheet "new" []) "new" 0%nat)))
             (mkSpreadsheet "" [])).
    + repeat split.
    + reflexivity.
Defined.

(** ** The two programs side by side *)

Section SideBySide.

Context `{P : Platform}.

Lemma same_run_bind {A} (m : M A) (f g : A -> M unit) w :
  (forall a w1, same_run (f a w1) (g a w1)) ->
  same_run (bind m f w) (bind m g w).
Proof.
  intros H. unfold bind. destruct (m w) as [[[a|x] t] w1].
  - specialize (H a w1). unfold same_run, trace_of, out_of, world_of in *.
    destruct (f a w1) as [[o1 t1] w2], (g a w1) as [[o2 t2] w3]. simpl in *.
    destruct H as (-> & -> & H). auto.
  - unfold same_run, trace_of, out_of, world_of. simpl.
    destruct x; auto.
Qed.

(** The next call of both programs is taken apart, as long as there is one. *)
Ltac crunch :=
  repeat (simpl;
    match goal with
    | |- context [Spreadsheets_Get ?s ?i ?w] =>
        destruct (Spreadsheets_Get s i w) as [[?|?] ?]
    | |- context [forRange ?l ?b ?w] =>
        destruct (forRange l b w) as [[[[]|[]] ?] ?]
    | |- context [Spreadsheets_BatchUpdate ?s ?i ?r ?w] =>
        destruct (Spreadsheets_BatchUpdate s i r w) as [[[]|?] ?]
    | |- context [time_Now ?w] =>
        destruct (time_Now w) as [? ?]
    end).

Ltac same_runs :=
  unfold trace_of, world_of, out_of; simpl; repeat split; norm_trace;
  reflexivity.

Lemma programs_agree (w : World) :
  blank_sheet_present ->
  same_run (Quickstart.main w) (Monolith.main w).
Proof.
  intros Hblank. unfold Quickstart.main, Monolith.main.
  apply same_run_bind. intros srv w1.
  unfold Quickstart.createSpreadsheet, Quickstart.getSpreadsheet,
    Quickstart.copySpreadsheet, Quickstart.deleteBlankSheet,
    Quickstart.updateCellsYearMonth.
  cbv beta zeta delta [bind orFatalf errFatalf call ret log_Fatalf log_Fatal
                       abort index deref same_run].
  fold blankSpreadsheet.
  destruct (Spreadsheets_Create srv blankSpreadsheet w1)
    as [[newSheet|e] w2] eqn:Ecreate; [|same_runs].
  destruct (Spreadsheets_Get srv "" w2) as [[source|e] w3] eqn:Eget;
    [|same_runs].
  match goal with
  | |- context [forRange ?l ?b ?w] =>
      destruct (forRange l b w) as [[[[]|[]] t] w4]
  end; [|same_runs|same_runs].
  destruct (Sheets source) as [|s0 srest] eqn:Esrc.
  - destruct (Hblank _ _ _ _ _ _ Ecreate Eget Esrc) as (props & rest & ->).
    clear Ecreate Eget. crunch; same_runs.
  - clear Ecreate Eget.
    destruct (Sheets newSheet) as [|[[[props|]]|] rest]; crunch; same_runs.
Qed.

End SideBySide.

(** C8, as amended.  In every environment in which the created spreadsheet
    has a first sheet with properties whenever the source has no sheets,
    quickstart.go and the monolithic program perform the same events (the
    same requests with the same arguments and answers, in the same order),
    leave the world in the same state, and end in the same way. *)
Theorem refactoring_preserves_runs `{Platform} (w : World) :
  blank_sheet_present ->
  same_run (Quickstart.main w) (Monolith.main w).
Proof. apply programs_agree. Qed.

(** On the usual run the created spreadsheet has its blank sheet. *)
Lemma refactoring_preserves_runs_witness :
  @blank_sheet_present (scripted usualRun) /\
  same_run (@Quickstart.main (scripted usualRun) 0%nat)
    (@Monolith.main (scripted usualRun) 0%nat).
Proof.
  assert (Hb : @blank_sheet_present (scripted usualRun)).
  { intros srv w0 newSheet w1 source w2 Hc _ _. simpl in Hc.
    inversion Hc. eexists. eexists. reflexivity. }
  split; [exact Hb|].
  exact (refactoring_preserves_runs (H := scripted usualRun) 0%nat Hb).
Defined.

(** C8, as stated, fails when neither the template nor the created
    spreadsheet has a sheet: the monolithic program panics on
    [newSheet.Sheets[0]] after two requests, and quickstart.go, which does
    not read that element, fetches the destination and returns. *)
Lemma programs_differ_without_sheets :
  let q := @Quickstart.main (scripted noSheetsRun) 0%nat in
  let m := @Monolith.main (scripted noSheetsRun) 0%nat in
  out_of q = Ret tt /\
  out_of m = Abort (Panic IndexOutOfRange) /\
  length (filter is_api (trace_of q)) = 3%nat /\
  length (filter is_api (trace_of m)) = 2%nat /\
  world_of q = 3%nat /\ world_of m = 2%nat /\
  trace_of q <> trace_of m /\
  ~ same_run q m.
Proof.
  repeat split.
  - vm_compute. discriminate.
  - intros (Ht & _). vm_compute in Ht. discriminate Ht.
Qed.

(** ** The order of the requests *)

Section Order.

Context `{P : Platform}.

Lemma in_order_app a t1 b t2 c :
  in_order a t1 b -> in_order b t2 c -> in_order a (t1 ++ t2) c.
Proof.
  induction 1; simpl; intros H2; [exact H2|].
  econstructor; [eassumption | auto].
Qed.

Lemma in_order_one a e b : phase_step a e b -> in_order a [e] b.
Proof. intros H. econstructor; [exact H | constructor]. Qed.

Lemma copy_run_api srcId dst sheets o tr :
  copy_run srcId dst sheets o tr -> filter is_api tr = tr.
Proof. induction 1; simpl; try reflexivity. now rewrite IHcopy_run. Qed.

Lemma copy_run_order newSheet sheets o tr :
  copy_run "" (SpreadsheetId newSheet) sheets o tr ->
  forall copied,
  exists ph,
    in_order (Copying newSheet sheets copied) tr ph /\
    (o = Ret tt ->
     ph = Copying newSheet [] (copied || (0 <? length sheets)%nat)) /\
    stopped_fatal ph o /\
    (forall ns now todo, ph <> Writing ns now todo).
Proof.
  unfold stopped_fatal.
  induction 1; intros copied; simpl.
  - exists (Copying newSheet [] copied). split; [constructor|].
    split; [intros _; now rewrite orb_false_r|].
    split; [discriminate | discriminate].
  - destruct (IHcopy_run true) as (ph & Ho & Hr & Hs & Hw).
    exists ph. split; [|split; [|split; assumption]].
    + econstructor; [apply step_copy|]. simpl.
      econstructor; [apply (step_rename _ _ _ (Ok tt))|].
      exact Ho.
    + intros E. rewrite (Hr E). now rewrite orb_true_r.
  - eexists. split; [constructor|].
    split; [discriminate|]. split; discriminate.
  - eexists. split; [apply in_order_one, step_copy|].
    split; [discriminate|]. split; [eauto | discriminate].
  - eexists. split.
    + econstructor; [apply step_copy|]. simpl.
      apply in_order_one. apply (step_rename _ _ _ (Err e)).
    + split; [discriminate|]. split; [eauto | discriminate].
Qed.

Lemma write_run_order newSheet now sheets o tr :
  write_run (SpreadsheetId newSheet) now sheets o tr ->
  exists ph,
    in_order (Writing newSheet now sheets) tr ph /\
    (o = Ret tt -> ph = Writing newSheet now []) /\
    stopped_fatal ph o /\
    (forall ns n todo, ph = Writing ns n todo -> n = now).
Proof.
  unfold stopped_fatal.
  induction 1.
  - eexists. split; [constructor|]. split; [reflexivity|].
    split; [discriminate|]. intros ns n todo E. now inversion E.
  - destruct IHwrite_run as (ph & Ho & Hr & Hs & Hn).
    exists ph. split; [|split; [|split]]; try assumption.
    econstructor; [apply (step_write _ _ _ _ (Ok tt)) | exact Ho].
  - eexists. split; [constructor|]. split; [discriminate|].
    split; [discriminate|]. intros ns n todo E. now inversion E.
  - eexists. split; [apply in_order_one, (step_write _ _ _ _ (Err e))|].
    split; [discriminate|]. split; [eauto | discriminate].
Qed.

Lemma finish_run_order newSheet o tr ph0 :
  finish_run (SpreadsheetId newSheet) o tr ->
  (forall now r,
      phase_step ph0 (EvGet (SpreadsheetId newSheet) r)
        (match r with
         | Ok dest => Writing newSheet now (Sheets dest)
         | Err _ => Stopped
         end)) ->
  exists ph,
    in_order ph0 (filter is_api tr) ph /\
    (o = Ret tt -> exists now, ph = Writing newSheet now []) /\
    stopped_fatal ph o /\
    (forall ns n todo, ph = Writing ns n todo -> In (EvNow n) tr).
Proof.
  unfold stopped_fatal.
  destruct 1 as [e | dest now o tr Hw]; intros Hstep; simpl.
  - eexists. split; [apply in_order_one, (Hstep october2026 (Err e))|].
    split; [discriminate|]. split; [eauto | discriminate].
  - destruct (write_run_order _ Hw) as (ph & Ho & Hr & Hs & Hn).
    rewrite (write_run_api Hw). exists ph.
    split; [econstructor; [apply (Hstep now (Ok dest)) | exact Ho]|].
    split; [eauto|]. split; [exact Hs|].
    intros ns n todo E. rewrite (Hn _ _ _ E). right. left. reflexivity.
Qed.

Lemma cleanup_run_order eager newSheet source o tr :
  cleanup_run eager newSheet source o tr ->
  exists ph,
    in_order (Copying newSheet [] (0 <? length (Sheets source))%nat)
      (filter is_api tr) ph /\
    (o = Ret tt -> exists now, ph = Writing newSheet now []) /\
    stopped_fatal ph o /\
    (forall ns n todo, ph = Writing ns n todo -> In (EvNow n) tr).
Proof.
  unfold stopped_fatal.
  destruct 1 as [k Hk He | o t' Hs' He Hf | p rest f e Hs' Hb
                | p rest o t' Hs' Hb Hf].
  - eexists. split; [constructor|]. split; [discriminate|].
    split; discriminate.
  - rewrite Hs'. simpl. apply (finish_run_order _ Hf).
    intros now r. apply step_fetch_unchanged.
  - destruct (Sheets source); [contradiction|]. simpl.
    eexists. split; [apply in_order_one, (step_delete _ (Err e) Hb)|].
    split; [discriminate|]. split; [eauto | discriminate].
  - destruct (Sheets source); [contradiction|]. simpl.
    destruct (finish_run_order (ph0 := BeforeFetch newSheet) _ Hf)
      as (ph & Ho & Hr & Hs & Hn).
    { intros now r. apply step_fetch. }
    exists ph.
    split; [econstructor; [apply (step_delete _ (Ok tt) Hb) | exact Ho]|].
    split; [exact Hr|]. split; [exact Hs|].
    intros ns n todo E. right. exact (Hn _ _ _ E).
Qed.

Lemma workflow_run_order eager o tr :
  workflow_run eager o tr -> requests_in_order o tr.
Proof.
  destruct 1 as [f e | ns e | ns src x t Hcopy | ns src t o t' Hcopy Hclean];
    unfold requests_in_order, stopped_fatal; simpl.
  - eexists. split; [apply in_order_one, (step_create (Err e))|].
    split; [discriminate|]. split; [discriminate | eauto].
  - eexists. split.
    + econstructor; [apply (step_create (Ok ns))|].
      apply in_order_one, (step_source _ (Err e)).
    + split; [discriminate|]. split; [discriminate | eauto].
  - destruct (copy_run_order _ Hcopy false) as (ph & Ho & _ & Hs & Hw).
    rewrite (copy_run_api Hcopy).
    exists ph. split.
    + econstructor; [apply (step_create (Ok ns))|].
      econstructor; [apply (step_source _ (Ok src)) | exact Ho].
    + split; [intros ? ? ? E; destruct (Hw _ _ _ E)|].
      split; [discriminate | exact Hs].
  - destruct (copy_run_order _ Hcopy false) as (ph & Ho & Hr & _ & _).
    specialize (Hr eq_refl). subst ph.
    destruct (cleanup_run_order Hclean) as (ph & Ho' & Hr' & Hs & Hn).
    rewrite filter_app, (copy_run_api Hcopy).
    exists ph. split.
    + econstructor; [apply (step_create (Ok ns))|].
      econstructor; [apply (step_source _ (Ok src))|].
      eapply in_order_app; eassumption.
    + split; [|split; [|exact Hs]].
      * intros ns' n todo E. right. right. apply in_or_app. right.
        exact (Hn _ _ _ E).
      * intros E. destruct (Hr' E) as (now & ->). eauto.
Qed.

Lemma main_split_order eager w o tr :
  main_split eager w o tr -> requests_in_order o tr.
Proof.
  intros Hs. destruct (main_split_parts Hs) as (tr1 & tr2 & -> & Hl & Hw).
  destruct (local_filters _ Hl) as (_ & _ & L).
  unfold requests_in_order, stopped_fatal. rewrite filter_app, L. simpl.
  destruct Hw as [Hw | (-> & x & ->)].
  - destruct (workflow_run_order Hw) as (ph & Ho & Hn & Hr & Hst).
    exists ph. split; [exact Ho|]. split; [|split; assumption].
    intros ns n todo E. apply in_or_app. right. exact (Hn _ _ _ E).
  - exists BeforeCreate. split; [constructor|].
    split; [discriminate|]. split; discriminate.
Qed.

End Order.

(** C3, as amended.  In every run of either program the requests to the
    service come in this order: create the destination; fetch the source;
    for each source sheet, in order, the copy of that sheet, then at once
    the rename of that copy; after the last copy, if and only if a sheet
    was copied, the deletion of the first sheet that the created
    spreadsheet had; fetch the destination; for each sheet of the
    destination as fetched, in order, the write of the year and the month
    of the clock reading of this run.  There is no other request: no
    request of a later phase comes before a request of an earlier one.  A
    request that fails is the last one, and the run then ends in
    [log.Fatal] or [log.Fatalf]; a run that completes has made every one of
    these requests, up to the write into the last sheet. *)
Theorem requests_follow_fixed_order `{Platform} (w : World) :
  requests_in_order (out_of (Quickstart.main w))
    (trace_of (Quickstart.main w)) /\
  requests_in_order (out_of (Monolith.main w)) (trace_of (Monolith.main w)).
Proof.
  split.
  - destruct (Quickstart.main w) as [[o tr] w'] eqn:E.
    eapply main_split_order, quickstart_runs, E.
  - destruct (Monolith.main w) as [[o tr] w'] eqn:E.
    eapply main_split_order, monolith_runs, E.
Qed.

(** The usual run completes, and its requests are in order. *)
Lemma requests_follow_fixed_order_witness :
  let run := @Quickstart.main (scripted usualRun) 0%nat in
  out_of run = Ret tt /\
  requests_in_order (out_of run) (trace_of run).
Proof.
  split; [reflexivity|].
  exact (proj1 (requests_follow_fixed_order (H := scripted usualRun) 0%nat)).
Defined.

(** C3, as stated, fails on a template without sheets: both programs run
    to the end, and between the fetch of the source and the fetch of the
    destination nothing is deleted; the only requests are the creation, the
    two fetches and one write. *)
Lemma no_deletion_between_the_fetches :
  let q := @Quickstart.main (scripted emptyTemplateRun) 0%nat in
  let m := @Monolith.main (scripted emptyTemplateRun) 0%nat in
  out_of q = Ret tt /\ out_of m = Ret tt /\
  map kind (filter is_api (trace_of q)) = [KCreate; KGet; KGet; KValues] /\
  map kind (filter is_api (trace_of m)) = [KCreate; KGet; KGet; KValues] /\
  only KDelete (trace_of q) = [] /\ only KDelete (trace_of m) = [].
Proof. repeat split. Qed.

(** The order is not satisfied by every trace: a write cannot come first;
    a copy cannot be followed by the fetch of the destination; once a
    sheet has been copied, the destination cannot be fetched before the
    deletion; and a write must be the write into the next sheet. *)
Example write_before_create_is_out_of_order `{Platform} id range vr opt r ph :
  ~ in_order BeforeCreate [EvValuesUpdate id range vr opt r] ph.
Proof. intros Hi. inversion Hi as [|? ? ? ? ? Hs]. inversion Hs. Qed.

Example fetch_before_rename_is_out_of_order `{Platform}
  newSheet props todo copied resp r ph :
  ~ in_order (Copying newSheet (aSheet props :: todo) copied)
      [EvCopyTo "" (SheetId props)
         {| DestinationSpreadsheetId := SpreadsheetId newSheet |} (Ok resp);
       EvGet (SpreadsheetId newSheet) r] ph.
Proof.
  intros Hi. inversion Hi as [|? ? ? ? ? Hs Hrest]; subst.
  inversion Hs; subst.
  inversion Hrest as [|? ? ? ? ? Hs' _]; subst. inversion Hs'.
Qed.

Example fetch_before_delete_is_out_of_order `{Platform} newSheet r ph :
  ~ in_order (Copying newSheet [] true) [EvGet (SpreadsheetId newSheet) r] ph.
Proof. intros Hi. inversion Hi as [|? ? ? ? ? Hs]. inversion Hs. Qed.

Example write_elsewhere_is_out_of_order `{Platform} newSheet now todo vr r ph :
  ~ in_order (Writing newSheet now (mkSheet 101 "A" :: todo))
      [EvValuesUpdate (SpreadsheetId newSheet) "Nowhere!Z9" vr "RAW" r] ph.
Proof.
  intros Hi. inversion Hi as [|? ? ? ? ? Hs]. inversion Hs.
Qed.

(** The usual run with its two writes left out is not the trace of a run
    that completes: two sheets are still to be written. *)
Example run_without_writes_is_out_of_order :
  let tr := filter (fun e => negb (Kind_eqb (kind e) KValues))
              (trace_of (@Quickstart.main (scripted usualRun) 0%nat)) in
  map kind (filter is_api tr)
  = [KCreate; KGet; KCopy; KRename; KCopy; KRename; KDelete; KGet] /\
  ~ requests_in_order (H := scripted usualRun) (Ret tt) tr.
Proof.
  intros tr. split; [reflexivity|].
  intros (ph & Hi & _ & Hr & _).
  destruct (Hr eq_refl) as (ns & n & ->). clear Hr.
  vm_compute in Hi.
  repeat match goal with
         | H : in_order _ _ _ |- _ => inversion H; subst; clear H
         | H : phase_step _ _ _ |- _ => inversion H; subst; clear H
         end.
Qed.

(** ** The usual run, request by request *)

Example usual_run_requests :
  map kind (filter is_api (trace_of (@Quickstart.main (scripted usualRun) 0%nat)))
  = [KCreate; KGet; KCopy; KRename; KCopy; KRename; KDelete; KGet;
     KValues; KValues].
Proof. reflexivity. Qed.

Example usual_run_monolith :
  @Monolith.main (scripted usualRun) 0%nat
  = @Quickstart.main (scripted usualRun) 0%nat.
Proof. reflexivity. Qed.

Example empty_template_requests :
  map kind
    (filter is_api (trace_of (@Quickstart.main (scripted emptyTemplateRun) 0%nat)))
  = [KCreate; KGet; KGet; KValues].
Proof. reflexivity. Qed.

(** * Further properties *)

(** ** What a fatal exit reports *)

Section Reports.

Context `{P : Platform}.

Lemma reports_one quick ev format e :
  failure ev = Some e -> In format (messages_of quick ev) ->
  reports quick [ev] format e.
Proof. intros Hf Hm. exists [], ev. auto. Qed.

Lemma reports_cons quick a tr format e :
  reports quick tr format e -> reports quick (a :: tr) format e.
Proof.
  intros (pre & ev & -> & Hf & Hm). exists (a :: pre), ev. auto.
Qed.

Lemma reports_app quick t1 t2 format e :
  reports quick t2 format e -> reports quick (t1 ++ t2) format e.
Proof.
  intros (pre & ev & -> & Hf & Hm). exists (t1 ++ pre), ev.
  rewrite app_assoc. auto.
Qed.

Lemma copy_run_reports quick srcId dst sheets format e tr :
  copy_run srcId dst sheets (Abort (Fatal format e)) tr ->
  reports quick tr format e.
Proof.
  remember (Abort (Fatal format e)) as o eqn:Eo.
  induction 1; try discriminate.
  - do 2 apply reports_cons. auto.
  - inversion Eo; subst. apply reports_one; simpl; auto.
  - inversion Eo; subst. apply reports_cons, reports_one; simpl; auto.
Qed.

Lemma write_run_reports quick dst now sheets format e tr :
  write_run dst now sheets (Abort (Fatal format e)) tr ->
  reports quick tr format e.
Proof.
  remember (Abort (Fatal format e)) as o eqn:Eo.
  induction 1; try discriminate.
  - apply reports_cons. auto.
  - inversion Eo; subst. apply reports_one; simpl; auto.
Qed.

End Reports.

(** The trace of the goal ends with the call that failed. *)
Ltac reporting :=
  norm_trace;
  repeat first
    [ apply reports_one; [reflexivity | simpl; auto; fail]
    | eapply copy_run_reports; eassumption
    | eapply write_run_reports; eassumption
    | apply reports_cons
    | apply reports_app ].

Section ReportsRuns.

Context `{P : Platform}.

Lemma connect_reports quick w format e tr w' :
  connect w = (Abort (Fatal format e), tr, w') -> reports quick tr format e.
Proof.
  unfold connect, getClient, tokenFromFile, getTokenFromWeb, saveToken.
  intros H. run_step H; reporting.
Qed.

Lemma quickstart_reports w format e tr w' :
  Quickstart.main w = (Abort (Fatal format e), tr, w') ->
  reports true tr format e.
Proof.
  unfold Quickstart.main. intros H. apply bind_inv in H.
  destruct H as [(x & H1 & Hx) | (srv & t1 & w1 & t2 & H1 & H2 & ->)].
  - inversion Hx; subst. eapply connect_reports, H1.
  - apply reports_app. clear H1. run_step H2; reporting.
Qed.

Lemma monolith_reports w format e tr w' :
  Monolith.main w = (Abort (Fatal format e), tr, w') ->
  reports false tr format e.
Proof.
  unfold Monolith.main. intros H. apply bind_inv in H.
  destruct H as [(x & H1 & Hx) | (srv & t1 & w1 & t2 & H1 & H2 & ->)].
  - inversion Hx; subst. eapply connect_reports, H1.
  - apply reports_app. clear H1. run_step H2; reporting.
Qed.

End ReportsRuns.

(** X1.  When a run of either program ends in [log.Fatalf], the last event
    of the run is a call that reported an error, the error printed is the
    error of that call, and the text is the text that the program has for
    that call. *)
Theorem fatal_exit_reports_failed_call `{Platform} (w : World)
  (format : string) (e : error) :
  (out_of (Quickstart.main w) = Abort (Fatal format e) ->
   reports true (trace_of (Quickstart.main w)) format e) /\
  (out_of (Monolith.main w) = Abort (Fatal format e) ->
   reports false (trace_of (Monolith.main w)) format e).
Proof.
  split.
  - destruct (Quickstart.main w) as [[o tr] w'] eqn:E.
    unfold out_of, trace_of. simpl. intros ->.
    eapply quickstart_reports, E.
  - destruct (Monolith.main w) as [[o tr] w'] eqn:E.
    unfold out_of, trace_of. simpl. intros ->.
    eapply monolith_reports, E.
Qed.

(** The service refuses to create the spreadsheet. *)
Lemma fatal_exit_reports_failed_call_witness :
  out_of (@Quickstart.main (scripted refusedRun) 0%nat)
  = Abort (Fatal "Unable to createSpreadsheet: %v" "quota exceeded") /\
  reports (H := scripted refusedRun) true
    (trace_of (@Quickstart.main (scripted refusedRun) 0%nat))
    "Unable to createSpreadsheet: %v" "quota exceeded".
Proof.
  split; [reflexivity|].
  exact (proj1 (fatal_exit_reports_failed_call (H := scripted refusedRun)
                  0%nat "Unable to createSpreadsheet: %v" "quota exceeded")
           eq_refl).
Defined.

Lemma quickstart_texts `{Platform} (ev : Event) (format : string) :
  In format (messages_of true ev) ->
  format <> "Unable to copySpreadsheet: %v" /\
  format <> "Unable to delete blank sheet: %v".
Proof.
  destruct ev; simpl; try contradiction;
    try (intros [<- | [<- | []]]; split; discriminate);
    try (intros [<- | []]; split; discriminate).
  destruct rb as [[|[u|d] [|q l]]]; simpl; try contradiction;
    intros [<- | []]; split; discriminate.
Qed.

(** X2.  quickstart.go never ends with the texts "Unable to
    copySpreadsheet: %v" and "Unable to delete blank sheet: %v": the tests
    of [main] on the errors of [copySpreadsheet] and [deleteBlankSheet]
    never fire. *)
Theorem quickstart_never_prints_caller_texts `{Platform} (w : World)
  (e : error) :
  out_of (Quickstart.main w)
  <> Abort (Fatal "Unable to copySpreadsheet: %v" e) /\
  out_of (Quickstart.main w)
  <> Abort (Fatal "Unable to delete blank sheet: %v" e).
Proof.
  destruct (Quickstart.main w) as [[o tr] w'] eqn:E.
  unfold out_of. simpl.
  split; intros ->; apply quickstart_reports in E;
    destruct E as (pre & ev & _ & _ & Hm);
    destruct (quickstart_texts _ _ Hm) as [H1 H2]; congruence.
Qed.

(** ** Files *)

Section Files.

Context `{P : Platform}.

Lemma opened_app (a b : list Event) : opened (a ++ b) = opened a ++ opened b.
Proof. apply flat_map_app. Qed.

Lemma closed_app (a b : list Event) : closed (a ++ b) = closed a ++ closed b.
Proof. apply flat_map_app. Qed.

Lemma connect_files w o tr w' :
  connect w = (o, tr, w') -> opened tr = closed tr.
Proof.
  unfold connect, getClient, tokenFromFile, getTokenFromWeb, saveToken.
  intros H. run_step H; reflexivity.
Qed.

Lemma no_files (tr : list Event) :
  (forall e, In e tr -> is_api e = true \/ exists now, e = EvNow now) ->
  opened tr = [] /\ closed tr = [].
Proof.
  induction tr as [|e tr IH]; intros H; [split; reflexivity|].
  destruct IH as [IH1 IH2]. { intros e' He'. apply H. right. exact He'. }
  unfold opened, closed in *. simpl. rewrite IH1, IH2.
  destruct (H e (or_introl eq_refl)) as [Ha | [now ->]];
    [destruct e; try discriminate|]; split; reflexivity.
Qed.

Lemma copy_run_requests srcId dst sheets o tr :
  copy_run srcId dst sheets o tr -> forall e, In e tr -> is_api e = true.
Proof.
  intros Hc e Hin.
  destruct (copy_run_events Hc e Hin)
    as [(p & r & _ & ->) | (p & resp & r & _ & ->)]; reflexivity.
Qed.

Lemma finish_run_requests dst o tr :
  finish_run dst o tr ->
  forall e, In e tr -> is_api e = true \/ exists now, e = EvNow now.
Proof.
  destruct 1 as [e | dest now o tr Hw]; simpl; intros ev Hin.
  - destruct Hin as [<- | []]. auto.
  - destruct Hin as [<- | [<- | Hin]]; eauto.
    destruct (write_run_events Hw ev Hin) as (p & r & _ & ->). auto.
Qed.

Lemma cleanup_run_requests eager newSheet source o tr :
  cleanup_run eager newSheet source o tr ->
  forall e, In e tr -> is_api e = true \/ exists now, e = EvNow now.
Proof.
  destruct 1; simpl; intros ev Hin.
  - contradiction.
  - eapply finish_run_requests; eassumption.
  - destruct Hin as [<- | []]; auto.
  - destruct Hin as [<- | Hin]; auto.
    eapply finish_run_requests; eassumption.
Qed.

Lemma workflow_run_requests eager o tr :
  workflow_run eager o tr ->
  forall e, In e tr -> is_api e = true \/ exists now, e = EvNow now.
Proof.
  destruct 1; simpl; intros ev Hin.
  - destruct Hin as [<- | []]; auto.
  - destruct Hin as [<- | [<- | []]]; auto.
  - destruct Hin as [<- | [<- | Hin]]; auto.
    left. eapply copy_run_requests; eassumption.
  - destruct Hin as [<- | [<- | Hin]]; auto.
    apply in_app_or in Hin. destruct Hin as [Hin | Hin].
    + left. eapply copy_run_requests; eassumption.
    + eapply cleanup_run_requests; eassumption.
Qed.

Lemma main_split_files eager w o tr :
  main_split eager w o tr -> opened tr = closed tr.
Proof.
  intros (o1 & tr1 & w1 & Hc & [(x & -> & -> & ->) | (srv & tr2 & -> & -> & Hw)]).
  - eapply connect_files, Hc.
  - apply connect_files in Hc. rewrite opened_app, closed_app, Hc.
    destruct (no_files _ (workflow_run_requests Hw)) as [-> ->].
    reflexivity.
Qed.

End Files.

(** X3.  In every run of either program, however it ends, the files that
    were opened (token.json for reading, token.json for writing) are the
    files that were closed, in the same order: no file is left open, and
    none is closed that was not opened. *)
Theorem opened_files_are_closed `{Platform} (w : World) :
  opened (trace_of (Quickstart.main w)) = closed (trace_of (Quickstart.main w))
  /\ opened (trace_of (Monolith.main w)) = closed (trace_of (Monolith.main w)).
Proof.
  split.
  - destruct (Quickstart.main w) as [[o tr] w'] eqn:E.
    eapply main_split_files, quickstart_runs, E.
  - destruct (Monolith.main w) as [[o tr] w'] eqn:E.
    eapply main_split_files, monolith_runs, E.
Qed.

Example usual_run_files :
  opened (trace_of (@Quickstart.main (scripted usualRun) 0%nat))
  = ["token.json"].
Proof. reflexivity. Qed.

(** ** Authentication comes first *)

Section AuthFirst.

Context `{P : Platform}.

Lemma connect_authenticated w srv tr w' :
  connect w = (Ret srv, tr, w') -> authenticated tr.
Proof.
  unfold connect, getClient, tokenFromFile, getTokenFromWeb, saveToken.
  intros H. run_step H; norm_trace.
  all: match goal with
       | |- authenticated (_ :: _ :: ?rest) =>
           eexists; eexists; exists (removelast rest); eexists
       end.
  all: cbn [removelast app].
  all: split; [reflexivity|]; split.
  all: try (intros ev Hin; cbn [In] in Hin;
            repeat (destruct Hin as [<- | Hin]; [reflexivity|]);
            contradiction).
  all: first
         [ left; eexists; eexists; cbn [In];
           solve [repeat first [left; reflexivity | right]]
         | right; eexists; eexists; cbn [In];
           solve [repeat first [left; reflexivity | right]] ].
Qed.

Lemma local_not_api (e : Event) : kind e = KLocal -> is_api e = false.
Proof.
  intros H. destruct e; try reflexivity; try discriminate H.
  destruct (batch_kind spreadsheetId rb r) as [E | [E | E]];
    rewrite E in H; discriminate.
Qed.

Lemma workflow_starts eager o tr :
  workflow_run eager o tr ->
  exists r rest, tr = EvCreate blankSpreadsheet r :: rest.
Proof. destruct 1; eauto. Qed.

Lemma main_split_auth eager w o tr :
  main_split eager w o tr ->
  (exists e, In e tr /\ is_api e = true) ->
  exists auth r rest,
    tr = auth ++ EvCreate blankSpreadsheet r :: rest /\ authenticated auth.
Proof.
  intros (o1 & tr1 & w1 & Hc & [(x & -> & -> & ->) | (srv & tr2 & -> & -> & Hw)])
    (e & Hin & Ha).
  - exfalso. eapply connect_local in Hin; [|exact Hc].
    rewrite (local_not_api _ Hin) in Ha. discriminate.
  - destruct (workflow_starts Hw) as (r & rest & ->).
    exists tr1, r, rest. split; [reflexivity|].
    eapply connect_authenticated, Hc.
Qed.

End AuthFirst.

(** X4.  In every run of either program that sends a request to the
    service, the first request is the creation of the spreadsheet, and
    everything before it is a successful authentication: credentials.json
    was read and parsed, a token was decoded from token.json or obtained
    from the web, and the service was built last. *)
Theorem requests_only_after_authentication `{Platform} (w : World) :
  ((exists e, In e (trace_of (Quickstart.main w)) /\ is_api e = true) ->
   exists auth r rest,
     trace_of (Quickstart.main w)
     = auth ++ EvCreate blankSpreadsheet r :: rest /\
     authenticated auth) /\
  ((exists e, In e (trace_of (Monolith.main w)) /\ is_api e = true) ->
   exists auth r rest,
     trace_of (Monolith.main w)
     = auth ++ EvCreate blankSpreadsheet r :: rest /\
     authenticated auth).
Proof.
  split.
  - destruct (Quickstart.main w) as [[o tr] w'] eqn:E.
    eapply main_split_auth, quickstart_runs, E.
  - destruct (Monolith.main w) as [[o tr] w'] eqn:E.
    eapply main_split_auth, monolith_runs, E.
Qed.

(** The run in which the service refuses the creation has sent that one
    request, after reading the cached token. *)
Lemma requests_only_after_authentication_witness :
  let tr := trace_of (@Quickstart.main (scripted refusedRun) 0%nat) in
  In (EvCreate (H := scripted refusedRun) blankSpreadsheet
        (Err "quota exceeded")) tr /\
  exists auth r rest,
    tr = auth ++ EvCreate blankSpreadsheet r :: rest /\
    authenticated (H := scripted refusedRun) auth.
Proof.
  intros tr.
  assert (Hin : In (EvCreate (H := scripted refusedRun) blankSpreadsheet
                      (Err "quota exceeded")) tr).
  { vm_compute. repeat first [left; reflexivity | right]. }
  split; [exact Hin|].
  apply (proj1 (requests_only_after_authentication
                  (H := scripted refusedRun) 0%nat)).
  eexists. split; [exact Hin | reflexivity].
Defined.

(** ** Nil sheets *)

Section NilSheets.

Context `{P : Platform}.

Lemma copy_run_sheets_set srcId dst sheets tr :
  copy_run srcId dst sheets (Ret tt) tr ->
  forall sheet, In sheet sheets -> exists props, sheet = aSheet props.
Proof.
  remember (Ret tt) as o eqn:Eo. induction 1; try discriminate.
  - intros sheet [].
  - intros sheet [<- | Hin]; eauto.
Qed.

Lemma write_run_sheets_set dst now sheets tr :
  write_run dst now sheets (Ret tt) tr ->
  forall sheet, In sheet sheets -> exists props, sheet = aSheet props.
Proof.
  intros Hw sheet Hin.
  destruct (write_run_complete Hw) as (titles & -> & _).
  apply in_map_iff in Hin. destruct Hin as (p & <- & _). eauto.
Qed.

Lemma copy_run_nil srcId dst sheets k tr :
  copy_run srcId dst sheets (Abort (Panic k)) tr ->
  k = NilDereference /\ exists sheet, In sheet sheets /\ nilSheet sheet.
Proof.
  remember (Abort (Panic k)) as o eqn:Eo. induction 1; try discriminate.
  - destruct (IHcopy_run Eo) as (-> & sheet & Hin & Hn).
    split; [reflexivity|]. exists sheet. split; [right; exact Hin | exact Hn].
  - inversion Eo; subst. split; [reflexivity|].
    exists sheet. split; [left; reflexivity | assumption].
Qed.

Lemma write_run_nil dst now sheets k tr :
  write_run dst now sheets (Abort (Panic k)) tr ->
  k = NilDereference /\ exists sheet, In sheet sheets /\ nilSheet sheet.
Proof.
  remember (Abort (Panic k)) as o eqn:Eo. induction 1; try discriminate.
  - destruct (IHwrite_run Eo) as (-> & sheet & Hin & Hn).
    split; [reflexivity|]. exists sheet. split; [right; exact Hin | exact Hn].
  - inversion Eo; subst. split; [reflexivity|].
    exists sheet. split; [left; reflexivity | assumption].
Qed.

Lemma finish_run_nil dst tr :
  finish_run dst (Abort (Panic NilDereference)) tr ->
  exists s sheet,
    In (EvGet dst (Ok s)) tr /\ In sheet (Sheets s) /\ nilSheet sheet.
Proof.
  inversion 1 as [e | dest now o tr' Hw]; subst.
  destruct (write_run_nil Hw) as (_ & sheet & Hin & Hn).
  exists dest, sheet. split; [left; reflexivity | auto].
Qed.

Lemma answered_app_r (t1 t2 : list Event) s :
  answered t2 s -> answered (t1 ++ t2) s.
Proof.
  intros [(req & Ha) | (id & Ha)]; [left; exists req | right; exists id];
    apply in_or_app; auto.
Qed.

Lemma finish_run_answered dst tr :
  finish_run dst (Abort (Panic NilDereference)) tr ->
  exists s sheet, answered tr s /\ In sheet (Sheets s) /\ nilSheet sheet.
Proof.
  intros Hf. destruct (finish_run_nil Hf) as (s & sheet & Hg & Hin & Hn).
  exists s, sheet. split; [right; exists dst; exact Hg | auto].
Qed.

Lemma workflow_run_nil eager tr :
  workflow_run eager (Abort (Panic NilDereference)) tr ->
  exists s sheet, answered tr s /\ In sheet (Sheets s) /\ nilSheet sheet.
Proof.
  inversion 1 as [f e | ns e | ns src x t Hcopy
                 | ns src t o t' Hcopy Hclean]; subst.
  - destruct (copy_run_nil Hcopy) as (_ & sheet & Hin & Hn).
    exists src, sheet. split; [|auto].
    right. exists "". right. left. reflexivity.
  - inversion Hclean as [k Hk He | o t'' Hs' He Hf | p rest f e Hs' Hb
                        | p rest o t'' Hs' Hb Hf]; subst.
    + destruct Hk as (sheet & rest & Hs & Hn).
      exists ns, sheet. split; [|split; [rewrite Hs; left; reflexivity|exact Hn]].
      left. exists blankSpreadsheet. left. reflexivity.
    + destruct (finish_run_answered Hf) as (s & sheet & Ha & Hin & Hn).
      exists s, sheet. split; [|auto].
      apply (answered_app_r
               (EvCreate blankSpreadsheet (Ok ns) :: EvGet "" (Ok src) :: t)).
      exact Ha.
    + destruct (finish_run_answered Hf) as (s & sheet & Ha & Hin & Hn).
      exists s, sheet. split; [|auto].
      apply (answered_app_r
               (EvCreate blankSpreadsheet (Ok ns) :: EvGet "" (Ok src) :: t)).
      apply (answered_app_r
               [EvBatchUpdate (SpreadsheetId ns) (deleteRequest (SheetId p))
                  (Ok tt)]).
      exact Ha.
Qed.

Lemma main_split_nil eager w tr :
  main_split eager w (Abort (Panic NilDereference)) tr ->
  exists s sheet, answered tr s /\ In sheet (Sheets s) /\ nilSheet sheet.
Proof.
  intros (o1 & tr1 & w1 & Hc & [(x & -> & E & ->) | (srv & tr2 & -> & -> & Hw)]).
  - exfalso. inversion E; subst. eapply connect_no_panic, Hc.
  - destruct (workflow_run_nil Hw) as (s & sheet & Ha & Hin & Hn).
    exists s, sheet. split; [apply answered_app_r; exact Ha | auto].
Qed.

Lemma main_split_sheets_set eager w tr :
  main_split eager w (Ret tt) tr ->
  forall id s, In (EvGet id (Ok s)) tr -> all_sheets_set s.
Proof.
  intros Hs id s Hin.
  destruct (main_split_reached Hs (or_introl eq_refl))
    as (tr1 & tr2 & -> & Hl & Hr).
  destruct Hr as (ns & src & copies & deletion & dest & now & writes
                  & -> & Hc & Hd & Hw).
  apply in_app_or in Hin. destruct Hin as [Hin | Hin].
  { specialize (Hl _ Hin). discriminate. }
  simpl in Hin. destruct Hin as [Hin | [Hin | Hin]]; try discriminate.
  { inversion Hin; subst. exact (copy_run_sheets_set Hc). }
  apply in_app_or in Hin. destruct Hin as [Hin | Hin].
  { destruct (copy_run_kinds Hc _ Hin); discriminate. }
  apply in_app_or in Hin. destruct Hin as [Hin | Hin].
  { destruct (delete_part_census Hd) as (_ & _ & _ & _ & _ & _ & _ & Hk).
    specialize (Hk _ Hin). discriminate. }
  simpl in Hin. destruct Hin as [Hin | [Hin | Hin]]; try discriminate.
  { inversion Hin; subst. exact (write_run_sheets_set Hw). }
  destruct (write_run_events Hw _ Hin) as (p & r & _ & E). discriminate.
Qed.

End NilSheets.

(** X5.  A run of either program that ends in a nil-pointer panic was
    answered by the service with a spreadsheet, created or fetched, in
    which a sheet is nil or has no properties. *)
Theorem nil_panic_comes_from_an_answer `{Platform} (w : World) :
  (out_of (Quickstart.main w) = Abort (Panic NilDereference) ->
   exists s sheet,
     answered (trace_of (Quickstart.main w)) s /\
     In sheet (Sheets s) /\ nilSheet sheet) /\
  (out_of (Monolith.main w) = Abort (Panic NilDereference) ->
   exists s sheet,
     answered (trace_of (Monolith.main w)) s /\
     In sheet (Sheets s) /\ nilSheet sheet).
Proof.
  split.
  - destruct (Quickstart.main w) as [[o tr] w'] eqn:E.
    unfold out_of, trace_of. simpl. intros ->.
    eapply main_split_nil, quickstart_runs, E.
  - destruct (Monolith.main w) as [[o tr] w'] eqn:E.
    unfold out_of, trace_of. simpl. intros ->.
    eapply main_split_nil, monolith_runs, E.
Qed.

(** X6.  In a run of either program that completes, every sheet of the
    source as fetched and every sheet of the destination as fetched is a
    sheet with properties. *)
Theorem completed_run_saw_only_set_sheets `{Platform} (w : World) :
  (out_of (Quickstart.main w) = Ret tt ->
   forall id s,
     In (EvGet id (Ok s)) (trace_of (Quickstart.main w)) ->
     all_sheets_set s) /\
  (out_of (Monolith.main w) = Ret tt ->
   forall id s,
     In (EvGet id (Ok s)) (trace_of (Monolith.main w)) ->
     all_sheets_set s).
Proof.
  split.
  - destruct (Quickstart.main w) as [[o tr] w'] eqn:E.
    unfold out_of, trace_of. simpl. intros ->.
    eapply main_split_sheets_set, quickstart_runs, E.
  - destruct (Monolith.main w) as [[o tr] w'] eqn:E.
    unfold out_of, trace_of. simpl. intros ->.
    eapply main_split_sheets_set, monolith_runs, E.
Qed.

(** The second sheet of the template is nil: the first sheet is copied and
    renamed, then the run panics. *)
Lemma nil_panic_comes_from_an_answer_witness :
  let run := @Quickstart.main (scripted nilSheetRun) 0%nat in
  out_of run = Abort (Panic NilDereference) /\
  length (only KCopy (trace_of run)) = 1%nat /\
  exists s sheet,
    answered (H := scripted nilSheetRun) (trace_of run) s /\
    In sheet (Sheets s) /\ nilSheet sheet.
Proof.
  split; [reflexivity|]. split; [reflexivity|].
  exact (proj1 (nil_panic_comes_from_an_answer (H := scripted nilSheetRun)
                  0%nat) eq_refl).
Defined.

(** The usual run completes; the destination it fetched has two sheets
    with properties. *)
Lemma completed_run_saw_only_set_sheets_witness :
  let run := @Quickstart.main (scripted usualRun) 0%nat in
  let dest := mkSpreadsheet "new" [mkSheet 101 "A"; mkSheet 102 "B"] in
  out_of run = Ret tt /\
  In (EvGet (H := scripted usualRun) "new" (Ok dest)) (trace_of run) /\
  all_sheets_set dest.
Proof.
  intros run dest.
  assert (Hin : In (EvGet (H := scripted usualRun) "new" (Ok dest))
                  (trace_of run)).
  { vm_compute. repeat first [left; reflexivity | right]. }
  split; [reflexivity|]. split; [exact Hin|].
  exact (proj1 (completed_run_saw_only_set_sheets (H := scripted usualRun)
                  0%nat) eq_refl _ _ Hin).
Defined.

(** ** The two programs, in every environment *)

Section Prefix.

Context `{P : Platform}.

Lemma same_or_early_bind {A} (m : M A) (f g : A -> M unit) w :
  (forall a w1, same_run (f a w1) (g a w1) \/ stops_early (f a w1) (g a w1)) ->
  same_run (bind m f w) (bind m g w) \/ stops_early (bind m f w) (bind m g w).
Proof.
  intros H. unfold bind. destruct (m w) as [[[a|x] t] w1].
  - specialize (H a w1).
    unfold same_run, stops_early, trace_of, out_of, world_of in *.
    destruct (f a w1) as [[o1 t1] w2], (g a w1) as [[o2 t2] w3]. simpl in *.
    destruct H as [(-> & -> & H) | ((k & ->) & rest & Hr & ->)].
    + left. auto.
    + right. split; [eauto|]. exists rest. split; [exact Hr|].
      now rewrite app_assoc.
  - left. unfold same_run, trace_of, out_of, world_of. simpl.
    destruct x; auto.
Qed.

Ltac next_calls :=
  repeat (simpl;
    match goal with
    | |- context [Spreadsheets_Get ?s ?i ?w] =>
        destruct (Spreadsheets_Get s i w) as [[?|?] ?]
    | |- context [forRange ?l ?b ?w] =>
        destruct (forRange l b w) as [[[[]|[]] ?] ?]
    | |- context [Spreadsheets_BatchUpdate ?s ?i ?r ?w] =>
        destruct (Spreadsheets_BatchUpdate s i r w) as [[[]|?] ?]
    | |- context [time_Now ?w] =>
        destruct (time_Now w) as [? ?]
    end).

Ltac left_same :=
  left; unfold trace_of, world_of, out_of; simpl; repeat split; norm_trace;
  reflexivity.

Ltac right_early :=
  right; unfold stops_early, trace_of, out_of; simpl; split;
  [ eexists; reflexivity
  | rewrite !app_nil_r; eexists; split; [|reflexivity]; discriminate ].

Lemma programs_agree_or_stop (w : World) :
  same_run (Quickstart.main w) (Monolith.main w) \/
  stops_early (Quickstart.main w) (Monolith.main w).
Proof.
  unfold Quickstart.main, Monolith.main.
  apply same_or_early_bind. intros srv w1.
  unfold Quickstart.createSpreadsheet, Quickstart.getSpreadsheet,
    Quickstart.copySpreadsheet, Quickstart.deleteBlankSheet,
    Quickstart.updateCellsYearMonth.
  cbv beta zeta delta [bind orFatalf errFatalf call ret log_Fatalf log_Fatal
                       abort index deref same_run].
  fold blankSpreadsheet.
  destruct (Spreadsheets_Create srv blankSpreadsheet w1)
    as [[newSheet|e] w2]; [|left_same].
  destruct (Spreadsheets_Get srv "" w2) as [[source|e] w3]; [|left_same].
  match goal with
  | |- context [forRange ?l ?b ?w] =>
      destruct (forRange l b w) as [[[[]|[]] t] w4]
  end; [|left_same|left_same].
  destruct (Sheets source) as [|s0 srest].
  - destruct (Sheets newSheet) as [|[[[props|]]|] rest]; next_calls;
      first [left_same | right_early].
  - destruct (Sheets newSheet) as [|[[[props|]]|] rest]; next_calls; left_same.
Qed.

End Prefix.

(** X7.  In every environment, the two programs either perform the same
    events, leave the same world and end in the same way, or the monolithic
    program stops in a panic at a point where quickstart.go goes on: what
    the monolithic program has done is then the beginning of what
    quickstart.go does. *)
Theorem monolith_agrees_or_stops_early `{Platform} (w : World) :
  same_run (Quickstart.main w) (Monolith.main w) \/
  stops_early (Quickstart.main w) (Monolith.main w).
Proof. apply programs_agree_or_stop. Qed.

Example monolith_stops_early_without_sheets :
  stops_early (@Quickstart.main (scripted noSheetsRun) 0%nat)
    (@Monolith.main (scripted noSheetsRun) 0%nat).
Proof.
  split; [eexists; reflexivity|].
  eexists. split; [|vm_compute; reflexivity]. discriminate.
Qed.

(** ** The helpers of the authorization *)

(** X8.  [getTokenFromWeb] prints the authorization prompt first, and goes
    on whatever the printing reports.  It ends the process when the code
    cannot be read, without asking for a token, and when the exchange
    fails; otherwise it has exchanged the very code that was read, once,
    and returns the token of the exchange, which is never nil. *)
Theorem getTokenFromWeb_exchanges_typed_code `{Platform} (config : Config)
  (w : World) (o : Out (option Token)) (tr : list Event) (w' : World) :
  getTokenFromWeb config w = (o, tr, w') ->
  exists prt,
    fst (fmt_Printf (authorizationPrompt config) w) = prt /\
    ((exists e,
         tr = [EvPrintf (authorizationPrompt config) prt; EvScan (Err e)] /\
         o = Abort (Fatal "Unable to read authorization code: %v" e)) \/
     (exists code e,
         tr = [EvPrintf (authorizationPrompt config) prt; EvScan (Ok code);
               EvExchange code (Err e)] /\
         o = Abort (Fatal "Unable to retrieve token from web: %v" e)) \/
     (exists code tok,
         tr = [EvPrintf (authorizationPrompt config) prt; EvScan (Ok code);
               EvExchange code (Ok tok)] /\
         o = Ret (Some tok))).
Proof.
  unfold getTokenFromWeb. intros Hrun. run_step Hrun; norm_trace.
  all: match goal with
       | E : fmt_Printf _ _ = _ |- _ =>
           eexists; split;
           [unfold authorizationPrompt; rewrite E; reflexivity|]
       end.
  - left. eauto.
  - right. left. eauto.
  - right. right. eauto.
Qed.

Lemma getTokenFromWeb_exchanges_typed_code_witness :
  @getTokenFromWeb (scripted usualRun) "{}" 0%nat
  = (Ret (Some "fresh token"),
     [EvPrintf (H := scripted usualRun)
        (@authorizationPrompt (scripted usualRun) "{}") None;
      EvScan (H := scripted usualRun) (Ok "code");
      EvExchange (H := scripted usualRun) "code" (Ok "fresh token")],
     0%nat) /\
  exists code tok,
    trace_of (@getTokenFromWeb (scripted usualRun) "{}" 0%nat)
    = [EvPrintf (H := scripted usualRun)
         (@authorizationPrompt (scripted usualRun) "{}") None;
       EvScan (H := scripted usualRun) (Ok code);
       EvExchange (H := scripted usualRun) code (Ok tok)].
Proof.
  split; [reflexivity|].
  destruct (getTokenFromWeb_exchanges_typed_code (H := scripted usualRun)
              "{}" 0%nat eq_refl)
    as (prt & Hp & [(e & _ & E) | [(code & e & _ & E) | (code & tok & E & _)]]);
    try discriminate E.
  simpl in Hp. subst prt.
  exists code, tok. exact E.
Defined.

(** X9.  [saveToken] ends the process only when the file cannot be opened,
    and then nothing has been encoded or closed.  Once the file is open it
    encodes the token, closes the file and returns, whatever [Encode]
    reports: an error of the encoding is dropped, and so is what [Printf]
    and [Close] report. *)
Theorem saveToken_drops_encode_error `{Platform} (path : string)
  (token : option Token) (w : World) (o : Out unit) (tr : list Event)
  (w' : World) :
  saveToken path token w = (o, tr, w') ->
  exists prt,
    fst (fmt_Printf (savingNotice path) w) = prt /\
    ((exists e,
         o = Abort (Fatal "Unable to cache oauth token: %v" e) /\
         tr = [EvPrintf (savingNotice path) prt;
               EvOpenFile path (Z.lor (Z.lor O_RDWR O_CREATE) O_TRUNC)
                 mode0600 (Err e)]) \/
     (exists f enc cls,
         o = Ret tt /\
         tr = [EvPrintf (savingNotice path) prt;
               EvOpenFile path (Z.lor (Z.lor O_RDWR O_CREATE) O_TRUNC)
                 mode0600 (Ok f);
               EvEncode f token enc;
               EvClose f cls])).
Proof.
  unfold saveToken. intros Hrun. run_step Hrun; norm_trace.
  all: match goal with
       | E : fmt_Printf _ _ = _ |- _ =>
           eexists; split; [unfold savingNotice; rewrite E; reflexivity|]
       end.
  - left. eauto.
  - right. eauto 6.
Qed.

(** On a platform where the encoding fails, [saveToken] returns. *)
Lemma saveToken_drops_encode_error_witness :
  @saveToken (withoutEncode (scripted usualRun)) "token.json"
    (Some "fresh token") 0%nat
  = (Ret tt,
     [EvPrintf (H := withoutEncode (scripted usualRun))
        (savingNotice "token.json") None;
      EvOpenFile (H := withoutEncode (scripted usualRun)) "token.json"
        (Z.lor (Z.lor O_RDWR O_CREATE) O_TRUNC) mode0600 (Ok "token.json");
      EvEncode (H := withoutEncode (scripted usualRun)) "token.json"
        (Some "fresh token") (Some "no space left on device");
      EvClose (H := withoutEncode (scripted usualRun)) "token.json" None],
     0%nat) /\
  out_of (@saveToken (withoutEncode (scripted usualRun)) "token.json"
            (Some "fresh token") 0%nat) = Ret tt.
Proof.
  split; [reflexivity|].
  destruct (saveToken_drops_encode_error
              (H := withoutEncode (scripted usualRun))
              "token.json" (Some "fresh token") 0%nat eq_refl)
    as (prt & _ & [(e & E & _) | (f & enc & cls & E & _)]);
    [discriminate E | reflexivity].
Defined.

(** The whole program completes on that platform, with the token not
    written. *)
Example run_completes_without_encode :
  out_of (@Quickstart.main (withoutEncode (scripted usualRun)) 0%nat) = Ret tt
  /\ In (EvEncode (H := withoutEncode (scripted usualRun)) "token.json"
           (Some "fresh token") (Some "no space left on device"))
       (trace_of (@Quickstart.main (withoutEncode (scripted usualRun)) 0%nat)).
Proof.
  split; [reflexivity|].
  vm_compute. repeat first [left; reflexivity | right].
Qed.

(** ** The helpers of quickstart.go and the calls of the monolithic program *)

(** X10.  [createSpreadsheet] and [getSpreadsheet] are the library calls
    that the monolithic program makes in their place: one request, whose
    answer, a spreadsheet or an error, is handed to the caller as it is;
    they never end the process. *)
Theorem helpers_are_the_direct_calls `{Platform} (srv : Service)
  (spreadsheetId : string) (w : World) :
  Quickstart.createSpreadsheet srv w
  = call (Spreadsheets_Create srv blankSpreadsheet)
      (EvCreate blankSpreadsheet) w /\
  Quickstart.getSpreadsheet srv spreadsheetId w
  = call (Spreadsheets_Get srv spreadsheetId) (EvGet spreadsheetId) w.
Proof.
  unfold Quickstart.createSpreadsheet, Quickstart.getSpreadsheet, bind, call,
    ret, blankSpreadsheet.
  split.
  - destruct (Spreadsheets_Create _ _ w) as [[s|e] w']; reflexivity.
  - destruct (Spreadsheets_Get _ _ w) as [[s|e] w']; reflexivity.
Qed.

(** ** The title of a renamed copy *)

Lemma append_assoc (a b c : string) :
  ((a ++ b) ++ c)%string = (a ++ b ++ c)%string.
Proof. induction a as [|x a IH]; simpl; [reflexivity | now rewrite IH]. Qed.

Lemma append_nil_r (a : string) : (a ++ "")%string = a.
Proof. induction a as [|x a IH]; simpl; [reflexivity | now rewrite IH]. Qed.

(** X11.  The title of the rename is the title returned by the copy from
    which at most one suffix "のコピー" has been cut at the end: a title
    that ends with the suffix twice keeps it once, and a title that is the
    suffix alone becomes the empty title. *)
Theorem rename_cuts_one_suffix (resp : SheetProperties) :
  (exists cut,
      Title resp = (TrimSuffix (Title resp) copySuffix ++ cut)%string /\
      (cut = "" \/ cut = copySuffix)) /\
  (forall base,
      Title resp = (base ++ copySuffix ++ copySuffix)%string ->
      Requests (renameRequest resp)
      = [UpdateSheetProperties
           {| UpdProperties :=
                {| SheetId := SheetId resp;
                   Title := (base ++ copySuffix)%string |};
              Fields := "title" |}]) /\
  (Title resp = copySuffix ->
   Requests (renameRequest resp)
   = [UpdateSheetProperties
        {| UpdProperties := {| SheetId := SheetId resp; Title := "" |};
           Fields := "title" |}]).
Proof.
  split; [|split].
  - unfold TrimSuffix. destruct (HasSuffix (Title resp) copySuffix) eqn:E.
    + exists copySuffix. split; [|auto]. apply HasSuffix_split. exact E.
    + exists "". split; [|auto]. now rewrite append_nil_r.
  - intros base E. unfold renameRequest. rewrite E.
    rewrite <- append_assoc, TrimSuffix_present. reflexivity.
  - intros E. unfold renameRequest. rewrite E.
    change copySuffix with ("" ++ copySuffix)%string at 1.
    rewrite TrimSuffix_present. reflexivity.
Qed.

(** A copy of a copy. *)
Lemma rename_cuts_one_suffix_witness :
  let resp := {| SheetId := 7; Title := "4月のコピーのコピー" |} in
  Title resp = ("4月" ++ copySuffix ++ copySuffix)%string /\
  Requests (renameRequest resp)
  = [UpdateSheetProperties
       {| UpdProperties := {| SheetId := 7; Title := "4月のコピー" |};
          Fields := "title" |}].
Proof.
  intros resp. split; [reflexivity|].
  exact (proj1 (proj2 (rename_cuts_one_suffix resp)) "4月" eq_refl).
Defined.

(** ** The loops, request by request *)

Section LoopBounds.

Context `{P : Platform}.

Lemma copy_run_length srcId dst sheets o tr :
  copy_run srcId dst sheets o tr ->
  (length tr <= 2 * length sheets)%nat /\
  (o = Ret tt -> length tr = (2 * length sheets)%nat).
Proof.
  induction 1; simpl; try (split; [lia | discriminate]).
  - split; [lia | reflexivity].
  - destruct IHcopy_run as [Hle Heq]. split; [lia|].
    intros E. rewrite (Heq E). lia.
Qed.

Lemma write_run_bound dst now sheets o tr :
  write_run dst now sheets o tr ->
  (length tr <= length sheets)%nat /\
  (o = Ret tt -> length tr = length sheets).
Proof.
  induction 1; simpl; try (split; [lia | discriminate]).
  - split; [lia | reflexivity].
  - destruct IHwrite_run as [Hle Heq]. split; [lia|].
    intros E. now rewrite (Heq E).
Qed.

End LoopBounds.

(** X12.  [copySpreadsheet] sends at most two requests for each sheet of
    the source, copies and renames only, and exactly two for each when it
    returns; on a source without sheets it returns at once.
    [updateCellsYearMonth] reads the clock once and then sends at most one
    request for each sheet of the destination, and exactly one for each
    when it returns. *)
Theorem loops_send_per_sheet `{Platform} (srv : Service) (w : World) :
  (forall source srcId dst o tr w',
      Quickstart.copySpreadsheet source srv srcId dst w = (o, tr, w') ->
      (length tr <= 2 * length (Sheets source))%nat /\
      (forall e, In e tr -> kind e = KCopy \/ kind e = KRename) /\
      (o = Ret None -> length tr = (2 * length (Sheets source))%nat)) /\
  (forall dest dst o tr w',
      Quickstart.updateCellsYearMonth srv dest dst w = (o, tr, w') ->
      exists now writes,
        tr = EvNow now :: writes /\
        (length writes <= length (Sheets dest))%nat /\
        (forall e, In e writes -> kind e = KValues) /\
        (o = Ret None -> length writes = length (Sheets dest))).
Proof.
  split.
  - intros source srcId dst o tr w' Hrun. run_step Hrun;
      try rewrite app_nil_r; open_sheets;
      match goal with
      | Hc : copy_run _ _ _ _ _ |- _ =>
          destruct (copy_run_length Hc) as [Hle Heq];
          split; [exact Hle|];
          split; [exact (copy_run_kinds Hc) | first [discriminate | auto]]
      end.
  - intros dest dst o tr w' Hrun. run_step Hrun; simpl;
      try rewrite app_nil_r; open_sheets;
      match goal with
      | Hw : write_run _ _ _ _ ?t |- _ =>
          destruct (write_run_bound Hw) as [Hle Heq];
          eexists; exists t; split; [reflexivity|];
          split; [exact Hle|];
          split;
            [ intros e Hin;
              destruct (write_run_events Hw e Hin) as (p & r' & _ & ->);
              reflexivity
            | first [discriminate | auto] ]
      end.
Qed.

Lemma loops_send_per_sheet_witness :
  let source := mkSpreadsheet "" [mkSheet 1 "A"; mkSheet 2 "B"] in
  exists tr w',
    @Quickstart.copySpreadsheet (scripted usualRun) source tt "" "new" 0%nat
    = (Ret None, tr, w') /\
    length tr = 4%nat.
Proof.
  intros source. eexists. eexists. split; [vm_compute; reflexivity|].
  exact (proj2 (proj2 (proj1 (loops_send_per_sheet (H := scripted usualRun)
                                tt 0%nat)
                         source "" "new" _ _ _ eq_refl)) eq_refl).
Defined.

(** ** The sheets that are copied *)

Section CopiedIds.

Context `{P : Platform}.

Lemma copiedIds_app (a b : list Event) :
  copiedIds (a ++ b) = copiedIds a ++ copiedIds b.
Proof. apply flat_map_app. Qed.

Lemma no_copies (tr : list Event) :
  (forall e, In e tr -> kind e <> KCopy) -> copiedIds tr = [].
Proof.
  induction tr as [|e tr IH]; intros H; [reflexivity|].
  unfold copiedIds in *. simpl. rewrite IH.
  - destruct e; try reflexivity. exfalso. apply (H _ (or_introl eq_refl)).
    reflexivity.
  - intros e' He'. apply H. right. exact He'.
Qed.

Lemma copy_run_ids srcId dst sheets o tr :
  copy_run srcId dst sheets o tr ->
  exists rest,
    sheetIds (mkSpreadsheet "" sheets) = copiedIds tr ++ rest /\
    (o = Ret tt -> rest = []).
Proof.
  unfold sheetIds. simpl.
  induction 1; simpl.
  - exists []. auto.
  - destruct IHcopy_run as (rest' & E & Hr). exists rest'.
    split; [now rewrite E | exact Hr].
  - eexists. split; [reflexivity | discriminate].
  - eexists. split; [reflexivity | discriminate].
  - eexists. split; [reflexivity | discriminate].
Qed.

Lemma workflow_copies eager o tr :
  workflow_run eager o tr -> copies_follow_source o tr.
Proof.
  intros Hw source Hg.
  destruct Hw as [f e | ns e | ns src x t Hcopy | ns src t o t' Hcopy Hclean].
  - discriminate Hg.
  - discriminate Hg.
  - pose proof (copy_run_only (k := KGet) Hcopy) as Hget.
    simpl in Hg. inversion Hg; subst.
    destruct (copy_run_ids Hcopy) as (rest & E & _).
    exists rest. split; [exact E | discriminate].
  - simpl in Hg. inversion Hg; subst.
    destruct (copy_run_ids Hcopy) as (rest & E & Hr).
    specialize (Hr eq_refl). subst rest. exists [].
    split; [|reflexivity].
    change (copiedIds (EvCreate blankSpreadsheet (Ok ns)
                       :: EvGet "" (Ok source) :: t ++ t'))
      with (copiedIds (t ++ t')).
    rewrite copiedIds_app, (no_copies t').
    + rewrite !app_nil_r in *. exact E.
    + intros ev Hin.
      destruct (cleanup_run_kinds Hclean ev Hin) as [K | [K | [K | K]]];
        rewrite K; discriminate.
Qed.

Lemma main_split_copies eager w o tr :
  main_split eager w o tr -> copies_follow_source o tr.
Proof.
  intros Hs. destruct (main_split_parts Hs) as (tr1 & tr2 & -> & Hl & Hw).
  pose proof (local_only (k := KGet) _ Hl) as L.
  intros source Hg. unfold only in *. rewrite filter_app in Hg.
  rewrite L in Hg by discriminate. simpl in Hg.
  destruct Hw as [Hw | [-> _]]; [|discriminate Hg].
  destruct (workflow_copies Hw Hg) as (rest & E & Hr).
  exists rest. split; [|exact Hr].
  rewrite copiedIds_app, (no_copies tr1); [exact E|].
  intros e Hin. rewrite (Hl e Hin). discriminate.
Qed.

End CopiedIds.

(** X13.  In every run of either program, the copy requests name the sheets
    of the source as fetched, in the order of the source, each once and
    none skipped up to the point that the run reached; a run that completes
    has requested the copy of every sheet of the source. *)
Theorem every_source_sheet_copied_in_order `{Platform} (w : World) :
  copies_follow_source (out_of (Quickstart.main w))
    (trace_of (Quickstart.main w)) /\
  copies_follow_source (out_of (Monolith.main w))
    (trace_of (Monolith.main w)).
Proof.
  split.
  - destruct (Quickstart.main w) as [[o tr] w'] eqn:E.
    eapply main_split_copies, quickstart_runs, E.
  - destruct (Monolith.main w) as [[o tr] w'] eqn:E.
    eapply main_split_copies, monolith_runs, E.
Qed.

Lemma every_source_sheet_copied_in_order_witness :
  let run := @Quickstart.main (scripted usualRun) 0%nat in
  let source := mkSpreadsheet "" [mkSheet 1 "A"; mkSheet 2 "B"] in
  hd_error (only KGet (trace_of run))
  = Some (EvGet (H := scripted usualRun) "" (Ok source)) /\
  copiedIds (trace_of run) = [1%Z; 2%Z] /\
  exists rest,
    sheetIds source = copiedIds (trace_of run) ++ rest /\
    (out_of run = Ret tt -> rest = []).
Proof.
  intros run source. split; [reflexivity|]. split; [reflexivity|].
  exact (proj1 (every_source_sheet_copied_in_order (H := scripted usualRun)
                  0%nat) source eq_refl).
Defined.
